(** * digital_library: the views of [library_app] over a relational store

    A shallow embedding of [library_app/models.py] and [library_app/views.py].
    The ORM calls the views make are given their PostgreSQL meaning:
    tables are lists of rows carrying their primary key, a queryset is the
    list of rows it selects, exceptions are values of an error monad.

    Conventions.
    - [DecimalField(max_digits=3, decimal_places=2)] is a fixed point number:
      a stored rating is the integer number of hundredths ([Z]); the tenths
      of [Loan.user_rating] likewise.  Computed decimals ([Avg], [Decimal(..)])
      are exact rationals ([Q]).
    - A string is a sequence of characters below 256; case folding is the
      ASCII one.
    - [ORDER BY] leaves the order of rows with equal keys open; the model
      sorts with a merge sort, and every ordering theorem below is stated
      through the sort keys only. *)

From Stdlib Require Import ZArith QArith Qround String Ascii List Lia Permutation.
From stdpp Require Import base option list sorting gmap strings.

Set Default Proof Using "Type".
Local Open Scope string_scope.
Local Open Scope list_scope.

(** ** Python and Django run time *)

(** The exception classes the views can meet. *)
Inductive exn : Set :=
  | Http404                  (* django.http.Http404 *)
  | MultipleObjectsReturned  (* Model.MultipleObjectsReturned *)
  | ValueError
  | TypeError
  | InvalidOperation         (* decimal.InvalidOperation, an ArithmeticError *)
  | ValidationError          (* django.core.exceptions.ValidationError *)
  | IntegrityError           (* django.db.IntegrityError *)
  | DataError                (* django.db.DataError *)
  | NoReverseMatch.          (* django.urls.NoReverseMatch *)

Global Instance exn_eq_dec : EqDecision exn.
Proof. solve_decision. Defined.

(** A computation either raises or returns. *)
Definition result (A : Type) : Type := exn + A.

Definition raise {A} (e : exn) : result A := inl e.
Definition ret {A} (a : A) : result A := inr a.
Definition bind {A B} (m : result A) (k : A -> result B) : result B :=
  match m with
  | inl e => inl e
  | inr a => k a
  end.

Declare Scope py_scope.
Delimit Scope py_scope with py.
Notation "'do' x <- m ; k" := (bind m (fun x => k))
  (at level 10, x name, m at level 100, k at level 200) : py_scope.

(** [try: body except (e1, .., en): handler]. An exception whose class is
    not listed (and is not a subclass of a listed one) propagates. *)
Definition try_except {A} (body : result A) (caught : list exn) (handler : A)
  : result A :=
  match body with
  | inl e => if bool_decide (e ∈ caught) then ret handler else raise e
  | inr a => ret a
  end.

(** *** [str] methods *)

Definition ascii_code (c : ascii) : N := N_of_ascii c.

(** [str.isspace] on a character below 256: TAB..CR, FS..US, SPACE, NEL
    and the no-break space. *)
Definition is_space (c : ascii) : bool :=
  let n := ascii_code c in
  ((9 <=? n) && (n <=? 13) || (28 <=? n) && (n <=? 32) ||
   (n =? 133) || (n =? 160))%N.

Definition upper_ascii (c : ascii) : ascii :=
  let n := ascii_code c in
  if ((97 <=? n) && (n <=? 122))%N then ascii_of_N (n - 32) else c.

(** [str.upper] / SQL [UPPER]. *)
Fixpoint upper (s : string) : string :=
  match s with
  | EmptyString => EmptyString
  | String c s' => String (upper_ascii c) (upper s')
  end.

Fixpoint lstrip (s : string) : string :=
  match s with
  | String c s' => if is_space c then lstrip s' else s
  | EmptyString => EmptyString
  end.

Fixpoint rstrip (s : string) : string :=
  match s with
  | EmptyString => EmptyString
  | String c s' =>
      match rstrip s' with
      | EmptyString => if is_space c then EmptyString else String c EmptyString
      | r => String c r
      end
  end.

(** [s.strip()] *)
Definition strip (s : string) : string := rstrip (lstrip s).

(** [s.split(sep)] for a one character separator: never the empty list. *)
Fixpoint split (sep : ascii) (s : string) : list string :=
  match s with
  | EmptyString => [EmptyString]
  | String c s' =>
      if Ascii.eqb c sep then EmptyString :: split sep s'
      else match split sep s' with
           | x :: xs => String c x :: xs
           | [] => [String c EmptyString]
           end
  end.

(** [needle in hay] *)
Fixpoint contains (needle hay : string) : bool :=
  String.prefix needle hay ||
  match hay with
  | EmptyString => false
  | String _ hay' => contains needle hay'
  end.

(** Truthiness of a [str]. *)
Definition nonempty (s : string) : bool := negb (String.eqb s "").

(** SQL [UPPER(hay) LIKE UPPER('%needle%')], the pattern escaped. *)
Definition icontains (hay needle : string) : bool :=
  contains (upper needle) (upper hay).

(** SQL [UPPER(a) = UPPER(b)]. *)
Definition iexact (a b : string) : bool := String.eqb (upper a) (upper b).

(** *** Decimals *)

(** A stored two-decimal number as a rational. *)
Definition dec2 (hundredths : Z) : Q := hundredths # 100.
(** A stored one-decimal number as a rational. *)
Definition dec1 (tenths : Z) : Q := tenths # 10.

(** [x or default] on an optional [Decimal]: [None] and a zero are falsy. *)
Definition py_or (x : option Q) (default : Q) : Q :=
  match x with
  | Some a => if Qeq_bool a 0 then default else a
  | None => default
  end.

(** ** models.py *)

Record date := mkdate { year : Z; month : Z; day : Z }.

Module User.
(** [username] is [unique=True, max_length=100]; [email] is [unique=True]. *)
Record t := mk {
  username : string;
  email : string;
  full_name : string;
}.
End User.

Module Book.
(** [id] is the automatic primary key; [book_id] is the identifier of the
    imported catalogue ("Ya NO es unique aqui"). *)
Record t := mk {
  id : Z;
  book_id : Z;
  title : string;
  authors : string;
  average_rating : option Z;      (* hundredths *)
  num_pages : option Z;
  ratings_count : Z;
  publication_date : option date;
  publication_year : option Z;
  publisher : option string;
  is_available : bool;
}.
End Book.

Module Loan.
(** [user] is the foreign key to the borrower, held here as the unique
    [username]; [book_id] is the column of the foreign key [book]: it
    holds the [Book.id] (primary key) of the borrowed row. *)
Record t := mk {
  id : Z;
  user : string;
  book_id : Z;
  borrowed_date : Z;
  due_date : option Z;
  returned_date : option Z;
  is_returned : bool;
  user_rating : option Z;         (* tenths *)
}.
End Loan.

(** The three tables. [library_users] is keyed by its unique [username]. *)
Record DB := mkDB {
  books : list Book.t;
  users : gmap string User.t;
  loans : list Loan.t;
}.

Local Open Scope py_scope.

(** ** The ORM fragment the views use *)

(** Field lookups on [Book] that occur inside [Q] objects. *)
Inductive lookup :=
  | authors__icontains (s : string)
  | publisher__iexact (s : string)
  | average_rating__gte (d : Q)
  | average_rating__lte (d : Q).

(** [django.db.models.Q]: a tree of lookups; [Q()] has no children. *)
Inductive QObj :=
  | Q_empty
  | Q_leaf (l : lookup)
  | Q_OR (a b : QObj)
  | Q_AND (a b : QObj).

(** [bool(q)]: whether the node has children. *)
Definition Q_bool (q : QObj) : bool :=
  match q with
  | Q_empty => false
  | _ => true
  end.

(** [Q._combine]: an empty operand is dropped, not connected. *)
Definition Q_combine (conn : QObj -> QObj -> QObj) (self other : QObj) : QObj :=
  if negb (Q_bool self) then other
  else if negb (Q_bool other) then self
  else conn self other.

Definition q_or : QObj -> QObj -> QObj := Q_combine Q_OR.
Definition q_and : QObj -> QObj -> QObj := Q_combine Q_AND.

(** The SQL condition of a lookup on one row, a NULL operand giving a
    condition that is not true. *)
Definition lookup_holds (l : lookup) (b : Book.t) : bool :=
  match l with
  | authors__icontains s => icontains (Book.authors b) s
  | publisher__iexact s =>
      match Book.publisher b with
      | Some p => iexact p s
      | None => false
      end
  | average_rating__gte d =>
      match Book.average_rating b with
      | Some r => Qle_bool d (dec2 r)
      | None => false
      end
  | average_rating__lte d =>
      match Book.average_rating b with
      | Some r => Qle_bool (dec2 r) d
      | None => false
      end
  end.

Fixpoint Q_holds (q : QObj) (b : Book.t) : bool :=
  match q with
  | Q_empty => true
  | Q_leaf l => lookup_holds l b
  | Q_OR q1 q2 => Q_holds q1 b || Q_holds q2 b
  | Q_AND q1 q2 => Q_holds q1 b && Q_holds q2 b
  end.

(** [When(condition, then=Value(v))]. The constructor refuses an empty [Q]:
    "An empty Q() can't be used as a When() condition." *)
Record When_t := mkWhen { condition : QObj; then_ : Z }.

Definition When (condition : QObj) (then_ : Z) : result When_t :=
  if Q_bool condition then ret (mkWhen condition then_) else raise ValueError.

(** [Case(when_1, .., when_n, default=Value(d))] *)
Record Case_t := mkCase { cases : list When_t; default_value : Z }.

Fixpoint first_match (ws : list When_t) (d : Z) (b : Book.t) : Z :=
  match ws with
  | [] => d
  | w :: ws' => if Q_holds (condition w) b then then_ w else first_match ws' d b
  end.

Definition Case_eval (c : Case_t) (b : Book.t) : Z :=
  first_match (cases c) (default_value c) b.

(** *** Ordering *)

(** Lexicographic order on key tuples. *)
Fixpoint lex_leb (k1 k2 : list Z) : bool :=
  match k1, k2 with
  | [], _ => true
  | _ :: _, [] => false
  | x :: k1', y :: k2' => (x <? y)%Z || ((x =? y)%Z && lex_leb k1' k2')
  end.

(** [a] may stand before [b] in an [ORDER BY .. DESC] of the given keys. *)
Definition desc_by {A} (key : A -> list Z) : relation A :=
  fun a b => lex_leb (key b) (key a) = true.

Global Instance desc_by_dec {A} (key : A -> list Z) :
  RelDecision (desc_by key).
Proof. intros a b. unfold desc_by. apply _. Defined.

(** The key of a non-null column and of a nullable one: in PostgreSQL a
    NULL sorts as larger than every value, hence first under DESC. *)
Definition desc (v : Z) : list Z := [v].
Definition desc_null (v : option Z) : list Z :=
  match v with
  | None => [1; 0]
  | Some x => [0; x]
  end%Z.

(** The order of NULL-able keys under DESC: NULL first, then by value. *)
Definition null_first (x y : option Z) : Prop :=
  match x, y with
  | None, _ => True
  | Some _, None => False
  | Some a, Some b => (b <= a)%Z
  end.

(** [qs.order_by('-k1', .., '-kn')] *)
Definition order_by_desc {A} (key : A -> list Z) (rows : list A) : list A :=
  merge_sort (desc_by key) rows.

(** *** Aggregates and shortcuts *)

Definition sum_Z (xs : list Z) : Z := foldr Z.add 0%Z xs.

(** [Avg] of a two-decimal column: NULLs are skipped, no value gives NULL. *)
Definition Avg (vals : list (option Z)) : option Q :=
  match omap id vals with
  | [] => None
  | xs => Some (dec2 (sum_Z xs) / inject_Z (Z.of_nat (length xs)))%Q
  end.

(** A comparison with a nullable column: NULL never satisfies it. *)
Definition not_null {A} (test : A -> bool) (v : option A) : bool :=
  from_option test false v.

(** [Model.objects.get] wrapped by [get_object_or_404], on the selected rows. *)
Definition get_object_or_404 {A} (rows : list A) : result A :=
  match rows with
  | [] => raise Http404
  | [x] => ret x
  | _ => raise MultipleObjectsReturned
  end.

(** [get_object_or_404(User, username=username)] *)
Definition get_user_or_404 (db : DB) (username : string) : result User.t :=
  match users db !! username with
  | Some u => ret u
  | None => raise Http404
  end.

(** [Loan.objects.filter(user=user)] *)
Definition loans_of (db : DB) (username : string) : list Loan.t :=
  filter (fun l => Loan.user l = username) (loans db).

(** [loan.book]: the row the foreign key points at. *)
Definition loan_book (db : DB) (l : Loan.t) : option Book.t :=
  List.find (fun b => (Book.id b =? Loan.book_id l)%Z) (books db).

(** The join of [select_related('book')] and of the [book__..] paths. *)
Definition loaned_books (db : DB) (ls : list Loan.t) : list Book.t :=
  omap (loan_book db) ls.

(** [Count('loans')] on a [Book] row. *)
Definition Count_loans (db : DB) (b : Book.t) : Z :=
  Z.of_nat (length (filter (fun l => Loan.book_id l = Book.id b) (loans db))).

(** ** views.user_recommendations *)

(** An annotated row of the main query: the book with its [priority_score]
    and its [popularity]. *)
Record Scored := mkScored {
  book : Book.t;
  priority_score : Z;
  popularity : Z;
}.

(** An element of the list handed to the template: rows of the annotated
    query carry the two annotations, rows of the plain queries do not. *)
Inductive entry :=
  | Annotated (r : Scored)
  | Plain (b : Book.t).

Definition entry_book (e : entry) : Book.t :=
  match e with
  | Annotated r => book r
  | Plain b => b
  end.

Definition entry_score (e : entry) : option Z :=
  match e with
  | Annotated r => Some (priority_score r)
  | Plain _ => None
  end.

Module Recommendations.
(** The context given to [recommendations.html]. *)
Record context := mk {
  books : list entry;
  user : User.t;
  user_loans_exist : bool;
  total_loans : nat;
  priority_count : option nat;
  avg_rating_preference : option Q;
}.
End Recommendations.

(** [list(user_loans.values_list('book_id', flat=True))]: the values of the
    foreign key column of the loans. *)
Definition read_book_ids (user_loans : list Loan.t) : list Z :=
  Loan.book_id <$> user_loans.

(** [[author.strip() for author in loan.book.authors.split(',')]] *)
Definition authors_list (b : Book.t) : list string :=
  strip <$> split "," (Book.authors b).

(** The set filled by the loop over the loans. *)
Definition read_authors (db : DB) (user_loans : list Loan.t) : gset string :=
  ⋃ ((fun b => list_to_set (authors_list b)) <$>
     filter (fun b => nonempty (Book.authors b) = true)
            (loaned_books db user_loans)).

(** The distinct publishers of the loaned books, NULL and [''] excluded. *)
Definition read_publishers (db : DB) (user_loans : list Loan.t) : gset string :=
  list_to_set
    (filter (fun p => nonempty p = true)
            (omap Book.publisher (loaned_books db user_loans))).

(** [user_loans.aggregate(avg=Avg('book__average_rating'))['avg']
     or Decimal('3.5')] *)
Definition avg_rating (db : DB) (user_loans : list Loan.t) : Q :=
  py_or (Avg (Book.average_rating <$> loaned_books db user_loans)) (7 # 2).

(** The two loops that build the disjunctions. *)
Definition author_conditions (authors : gset string) : QObj :=
  foldl (fun q a => q_or q (Q_leaf (authors__icontains a))) Q_empty
        (elements authors).

Definition publisher_conditions (publishers : gset string) : QObj :=
  foldl (fun q p => q_or q (Q_leaf (publisher__iexact p))) Q_empty
        (elements publishers).

(** The [Case] expression of the annotation; its four [When] are built,
    in this order, before the query is. *)
Definition priority_case (author_q publisher_q : QObj) (avg : Q) : result Case_t :=
  do w4 <- When (q_and author_q publisher_q) 4;
  do w3 <- When author_q 3;
  do w2 <- When publisher_q 2;
  do w1 <- When (q_and (Q_leaf (average_rating__gte (avg - (1 # 2))))
                       (Q_leaf (average_rating__lte (avg + (1 # 2))))) 1;
  ret (mkCase [w4; w3; w2; w1] 0).

(** [Book.objects.filter(is_available=True).exclude(book_id__in=ids)] *)
Definition eligible (db : DB) (ids : list Z) : list Book.t :=
  filter (fun b => Book.is_available b = true /\ Book.book_id b ∉ ids) (books db).

Definition annotate (db : DB) (c : Case_t) (b : Book.t) : Scored :=
  mkScored b (Case_eval c b) (Count_loans db b).

Definition recommendations_key (r : Scored) : list Z :=
  desc (priority_score r) ++ desc_null (Book.average_rating (book r)) ++
  desc (popularity r) ++ desc_null (Book.publication_year (book r)).

(** The main queryset. *)
Definition recommendations (db : DB) (c : Case_t) (ids : list Z) : list Scored :=
  order_by_desc recommendations_key (annotate db c <$> eligible db ids).

(** [qs.filter(priority_score__gte=2)] *)
Definition priority_only (rs : list Scored) : list Scored :=
  filter (fun r => (2 <= priority_score r)%Z) rs.

Definition popular_key (b : Book.t) : list Z :=
  desc (Book.ratings_count b) ++ desc_null (Book.average_rating b).

(** The supplementary query of the sparse branch. *)
Definition popular_books (db : DB) (all_excluded : list Z) : list Book.t :=
  take 15
    (order_by_desc popular_key
       (filter (fun b => Book.is_available b = true /\
                         lookup_holds (average_rating__gte 4) b = true /\
                         Book.book_id b ∉ all_excluded)
               (books db))).

(** The list built after the main query, lines 201-223. *)
Definition final_recommendations (db : DB) (ids : list Z) (recs : list Scored)
  : list entry :=
  let priority_count := length (priority_only recs) in
  let top_recommendations := take 30 recs in
  if (priority_count <? 10)%nat then
    let priority_recs := take 15 (priority_only recs) in
    let priority_ids := (fun r => Book.book_id (book r)) <$> priority_recs in
    let all_excluded := (ids ++ priority_ids)%list in
    ((Annotated <$> priority_recs) ++ (Plain <$> popular_books db all_excluded))%list
  else Annotated <$> top_recommendations.

Definition cold_start_key (b : Book.t) : list Z :=
  desc_null (Book.average_rating b) ++ desc (Book.ratings_count b).

(** The query of the branch without history. *)
Definition cold_start_books (db : DB) : list Book.t :=
  take 20
    (order_by_desc cold_start_key
       (filter (fun b => Book.is_available b = true) (books db))).

(** The annotated and ordered queryset for a user with these loans. *)
Definition scored_candidates (db : DB) (user_loans : list Loan.t)
  : result (list Scored) :=
  do c <- priority_case (author_conditions (read_authors db user_loans))
                        (publisher_conditions (read_publishers db user_loans))
                        (avg_rating db user_loans);
  ret (recommendations db c (read_book_ids user_loans)).

Definition user_recommendations (db : DB) (username : string)
  : result Recommendations.context :=
  do user <- get_user_or_404 db username;
  let user_loans := loans_of db username in
  let total_loans := length user_loans in
  if bool_decide (user_loans = []) then
    ret (Recommendations.mk (Plain <$> cold_start_books db) user false
           total_loans None None)
  else
    let ids := read_book_ids user_loans in
    let avg := avg_rating db user_loans in
    do recs <- scored_candidates db user_loans;
    ret (Recommendations.mk (final_recommendations db ids recs) user true
           total_loans (Some (length (priority_only recs))) (Some avg)).

(** *** The scoring rule in the words of the specification *)

(** Some known author is a case-insensitive substring of [authors]. *)
Definition authorMatch (knownAuthors : gset string) (b : Book.t) : bool :=
  existsb (fun a => icontains (Book.authors b) a) (elements knownAuthors).

(** The publisher equals, ignoring case, some known publisher. *)
Definition publisherMatch (knownPublishers : gset string) (b : Book.t) : bool :=
  match Book.publisher b with
  | Some p => existsb (fun k => iexact p k) (elements knownPublishers)
  | None => false
  end.

(** The rating is defined and within half a point of the average. *)
Definition ratingMatch (averageEnjoyedRating : Q) (b : Book.t) : bool :=
  match Book.average_rating b with
  | Some r => Qle_bool (averageEnjoyedRating - (1 # 2)) (dec2 r) &&
              Qle_bool (dec2 r) (averageEnjoyedRating + (1 # 2))
  | None => false
  end.

(** First matching rule, in the order 4, 3, 2, 1, 0. *)
Definition tier (knownAuthors knownPublishers : gset string)
    (averageEnjoyedRating : Q) (b : Book.t) : Z :=
  if authorMatch knownAuthors b && publisherMatch knownPublishers b then 4
  else if authorMatch knownAuthors b then 3
  else if publisherMatch knownPublishers b then 2
  else if ratingMatch averageEnjoyedRating b then 1
  else 0.

(** A book with the tier the rule gives it under the profile of these loans,
    and its number of loans. *)
Definition scored_as (db : DB) (user_loans : list Loan.t) (b : Book.t) : Scored :=
  mkScored b
    (tier (read_authors db user_loans) (read_publishers db user_loans)
          (avg_rating db user_loans) b)
    (Count_loans db b).

(** The exclusion set in the words of the specification: the [book_id] of
    every book the user has a loan of, open or returned. *)
Definition readBookIds (db : DB) (username : string) : list Z :=
  Book.book_id <$> loaned_books db (loans_of db username).

(** ** Requests and responses *)

Inductive http_method := GET | POST.

(** [request.method], [request.GET] and [request.POST]. *)
Record HttpRequest := mkRequest {
  method : http_method;
  GET_data : gmap string string;
  POST_data : gmap string string;
}.

(** What a view that changes the store answers with. *)
Inductive HttpResponse :=
  | render (template : string) (error : option string)
  | redirect (view : string) (arg : option string).

(** [d.get(key, '')] *)
Definition get_or_empty (d : gmap string string) (key : string) : string :=
  default "" (d !! key).

(** ** views.borrow_book and views.return_book *)

(** [UPDATE table SET .. WHERE id = pk]: the row of the same primary key
    takes the new values. *)
Definition overwrite {A} (key : A -> Z) (new : A) (r : A) : A :=
  if bool_decide (key r = key new) then new else r.

(** [Book.save]: the year is derived when it is missing, then the row with
    the same primary key is overwritten. *)
Definition with_year (b : Book.t) : Book.t :=
  match Book.publication_date b, Book.publication_year b with
  | Some d, None | Some d, Some 0%Z =>
      Book.mk (Book.id b) (Book.book_id b) (Book.title b) (Book.authors b)
        (Book.average_rating b) (Book.num_pages b) (Book.ratings_count b)
        (Book.publication_date b) (Some (year d)) (Book.publisher b)
        (Book.is_available b)
  | _, _ => b
  end.

Definition set_is_available (v : bool) (b : Book.t) : Book.t :=
  Book.mk (Book.id b) (Book.book_id b) (Book.title b) (Book.authors b)
    (Book.average_rating b) (Book.num_pages b) (Book.ratings_count b)
    (Book.publication_date b) (Book.publication_year b) (Book.publisher b) v.

Definition Book_save (b : Book.t) (db : DB) : DB :=
  mkDB (overwrite Book.id (with_year b) <$> books db) (users db) (loans db).

(** [loan.save()] *)
Definition Loan_save (l : Loan.t) (db : DB) : DB :=
  mkDB (books db) (users db) (overwrite Loan.id l <$> loans db).

(** The next value of the sequence behind [Loan.id]. *)
Definition fresh_loan_id (db : DB) : Z :=
  (1 + foldr Z.max 0 (Loan.id <$> loans db))%Z.

Definition days (n : Z) : Z := (n * 86400)%Z.

(** [Loan.objects.create(user=user, book=book, due_date=due)]; the
    unique index on (user, book, borrowed_date), which refuses a second
    loan of the same book by the same user at the same instant, is left
    out. *)
Definition Loan_create (user : User.t) (b : Book.t) (now due : Z) (db : DB) : DB :=
  mkDB (books db) (users db)
       (loans db ++
        [Loan.mk (fresh_loan_id db) (User.username user) (Book.id b) now
                 (Some due) None false None])%list.

(** The e-mail addresses in use. *)
Definition emails (db : DB) : list string :=
  User.email <$> (snd <$> map_to_list (users db)).

(** [User.objects.get_or_create(username=.., defaults={email, full_name})].
    The INSERT is subject to the column type [varchar(100)] of [username]
    and to the unique index on [email]. *)
Definition User_get_or_create (username email full_name : string) (db : DB)
  : result (DB * User.t * bool) :=
  match users db !! username with
  | Some u => ret (db, u, false)
  | None =>
      if (100 <? String.length username)%nat then raise DataError
      else if bool_decide (email ∈ emails db) then raise IntegrityError
      else
        let u := User.mk username email full_name in
        ret (mkDB (books db) (<[username := u]> (users db)) (loans db), u, true)
  end.

(** [get_object_or_404(Book, book_id=book_id)] *)
Definition get_book_or_404 (db : DB) (book_id : Z) : result Book.t :=
  get_object_or_404 (filter (fun b => Book.book_id b = book_id) (books db)).

Definition borrow_book (now : Z) (request : HttpRequest) (book_id : Z) (db : DB)
  : DB * result HttpResponse :=
  match get_book_or_404 db book_id with
  | inl e => (db, raise e)
  | inr b =>
      match method request, Book.is_available b with
      | POST, true =>
          let username := strip (get_or_empty (POST_data request) "username") in
          if negb (nonempty username) then
            (db, ret (render "borrow.html"
                        (Some "Por favor ingresa un nombre de usuario valido")))
          else
            match User_get_or_create username (username +:+ "@example.com")
                                     username db with
            | inl e => (db, raise e)
            | inr (db1, user, _) =>
                let db2 := Loan_create user b now (now + days 14)%Z db1 in
                let db3 := Book_save (set_is_available false b) db2 in
                (db3, ret (redirect "home" None))
            end
      | _, _ => (db, ret (render "borrow.html" None))
      end
  end.

Section return_book.
  (** Python floats, [float(str)] ([None] for a [ValueError]) and the
      conversion of a float to the [DecimalField(max_digits=2,
      decimal_places=1)] column when the loan is saved (it raises on values
      the column cannot hold). *)
Variable F : Type.
Variable float : string -> option F.
Variable adapt_user_rating : F -> result Z.

  (** [Loan.objects.filter(book=book, is_returned=False).first()], under
      the default ordering [-borrowed_date] of [Loan]. *)
Definition open_loan (db : DB) (b : Book.t) : option Loan.t :=
    head (order_by_desc (fun l => desc (Loan.borrowed_date l))
            (filter (fun l => Loan.book_id l = Book.id b /\
                              Loan.is_returned l = false) (loans db))).

  (** The value [user_rating] has when the loan is written: the stored one,
      or the float assigned from the form. *)
Definition posted_rating (request : HttpRequest) (l : Loan.t)
    : result (option Z) :=
    match POST_data request !! "rating" with
    | Some rating =>
        if nonempty rating then
          match float rating with
          | Some f => do d <- adapt_user_rating f; ret (Some d)
          | None => ret (Loan.user_rating l)   (* except ValueError: pass *)
          end
        else ret (Loan.user_rating l)
    | None => ret (Loan.user_rating l)
    end.

  (** [redirect('user_dashboard', username=..)]: the URL is reversed
      through [path('user/<str:username>/', ..)] of urls.py, whose
      converter takes one or more characters other than ['/']; for
      another value no pattern matches and [NoReverseMatch] is raised. *)
Definition str_converter_matches (s : string) : bool :=
    nonempty s && negb (contains "/" s).

Definition redirect_user_dashboard (username : string) : result HttpResponse :=
    if str_converter_matches username
    then ret (redirect "user_dashboard" (Some username))
    else raise NoReverseMatch.

Definition return_book (now : Z) (request : HttpRequest) (book_id : Z) (db : DB)
    : DB * result HttpResponse :=
    match get_book_or_404 db book_id with
    | inl e => (db, raise e)
    | inr b =>
        match open_loan db b with
        | None => (db, ret (redirect "home" None))
        | Some l =>
            match method request with
            | POST =>
                match posted_rating request l with
                | inl e => (db, raise e)
                | inr rating =>
                    let l' := Loan.mk (Loan.id l) (Loan.user l) (Loan.book_id l)
                                (Loan.borrowed_date l) (Loan.due_date l)
                                (Some now) true rating in
                    let db1 := Loan_save l' db in
                    let db2 := Book_save (set_is_available true b) db1 in
                    (db2, redirect_user_dashboard (Loan.user l))
                end
            | GET => (db, ret (render "return_book.html" None))
            end
        end
    end.
End return_book.

(** ** views.home and views.user_dashboard *)

Module Home.
(** The part of the context of [home.html] that depends on the filters. *)
Record context := mk {
  books : list Book.t;
  query : string;
  filters_active : bool;
}.
End Home.

Module Dashboard.
(** The loans shown by [user_dashboard.html]; the favourite author,
    publisher and year are computed from the tables after these and
    play no part below. *)
Record context := mk {
  user : User.t;
  current_loans : list Loan.t;
  reading_history : list Loan.t;
  total_read : nat;
}.
End Dashboard.

Inductive dashboard_response :=
  | user_not_found (username : string)
  | dashboard (c : Dashboard.context).

(** A [decimal.Decimal]: a finite number, or one of the values that are
    not ([NaN], [sNaN], [Infinity], [-Infinity]). *)
Inductive decimal :=
  | finite (q : Q)
  | non_finite.

(** [DecimalField.get_prep_value], run on the right-hand side of a lookup
    when [filter] builds the lookup: [to_python] refuses a value that is
    not finite with [ValidationError]. *)
Definition get_prep_value (d : decimal) : result Q :=
  match d with
  | finite q => ret q
  | non_finite => raise ValidationError
  end.

Section filters.
  (** [decimal.Decimal(str)] on the strings it accepts, and the full text
      search of [home] (annotate the rank, keep [rank >= 0.01], order by
      [-rank]) as the oracle it is. *)
Variable Decimal : string -> option decimal.
Variable search : string -> list Book.t -> list Book.t.

  (** The constructor signals a malformed string with [InvalidOperation]
      (the [ConversionSyntax] condition of the default context). *)
Definition Decimal_of_str (s : string) : result decimal :=
    match Decimal s with
    | Some d => ret d
    | None => raise InvalidOperation
    end.

Definition pages_filter (pages : string) (bs : list Book.t) : list Book.t :=
    if String.eqb pages "short" then
      filter (fun b => not_null (fun n => (n <? 200)%Z) (Book.num_pages b) = true) bs
    else if String.eqb pages "medium" then
      filter (fun b => not_null (fun n => (200 <=? n)%Z && (n <=? 400)%Z)
                                (Book.num_pages b) = true) bs
    else if String.eqb pages "long" then
      filter (fun b => not_null (fun n => (400 <? n)%Z) (Book.num_pages b) = true) bs
    else bs.

Definition availability_filter (availability : string) (bs : list Book.t)
    : list Book.t :=
    if String.eqb availability "available" then
      filter (fun b => Book.is_available b = true) bs
    else if String.eqb availability "borrowed" then
      filter (fun b => Book.is_available b = false) bs
    else bs.

Definition home (request : HttpRequest) (db : DB) : result Home.context :=
    let query := get_or_empty (GET_data request) "q" in
    let selected_publisher := get_or_empty (GET_data request) "publisher" in
    let min_rating := get_or_empty (GET_data request) "min_rating" in
    let availability := get_or_empty (GET_data request) "availability" in
    let pages := get_or_empty (GET_data request) "pages" in
    let filters_active :=
      nonempty selected_publisher || nonempty min_rating ||
      nonempty availability || nonempty pages in
    (* Book.objects.all(), under the default ordering of Book *)
    let books0 :=
      order_by_desc (fun b => desc_null (Book.average_rating b)) (books db) in
    let books1 := if nonempty query then search query (books db) else books0 in
    let books2 :=
      if nonempty selected_publisher then
        filter (fun b => lookup_holds (publisher__iexact selected_publisher) b = true)
               books1
      else books1 in
    do books3 <-
      (if nonempty min_rating then
         try_except
           (do min_rating_decimal <- Decimal_of_str min_rating;
            do threshold <- get_prep_value min_rating_decimal;
            ret (filter (fun b => lookup_holds
                                    (average_rating__gte threshold) b = true)
                        books2))
           [ValueError; TypeError] books2
       else ret books2);
    let books4 := availability_filter availability books3 in
    let books5 := pages_filter pages books4 in
    let books6 :=
      if negb (nonempty query) && negb filters_active then
        take 20 (order_by_desc (fun b => desc_null (Book.average_rating b))
                   (filter (fun b => Book.is_available b = true) books5))
      else take 50 books5 in
    ret (Home.mk books6 query filters_active).

Definition user_dashboard (request : HttpRequest) (username : string) (db : DB)
    : result dashboard_response :=
    match users db !! username with
    | None => ret (user_not_found username)
    | Some user =>
        let current_loans :=
          order_by_desc (fun l => desc (Loan.borrowed_date l))
            (filter (fun l => Loan.user l = username /\ Loan.is_returned l = false)
                    (loans db)) in
        let reading_history :=
          order_by_desc (fun l => desc_null (Loan.returned_date l))
            (filter (fun l => Loan.user l = username /\ Loan.is_returned l = true)
                    (loans db)) in
        do reading_history' <-
          (match GET_data request !! "rating_filter" with
           | Some rating_filter =>
               if nonempty rating_filter then
                 try_except
                   (do min_rating <- Decimal_of_str rating_filter;
                    do threshold <- get_prep_value min_rating;
                    ret (filter (fun l => not_null
                                            (fun r => Qle_bool threshold (dec1 r))
                                            (Loan.user_rating l) = true)
                                reading_history))
                   [ValueError; TypeError] reading_history
               else ret reading_history
           | None => ret reading_history
           end);
        let total_read :=
          length (filter (fun l => Loan.user l = username /\ Loan.is_returned l = true)
                         (loans db)) in
        ret (dashboard (Dashboard.mk user current_loans reading_history' total_read))
    end.
End filters.

(** ** The availability of a book and its open loans *)

(** The number of loans of a row that are not returned. *)
Definition open_loans (db : DB) (b : Book.t) : nat :=
  length (filter (fun l => Loan.book_id l = Book.id b /\ Loan.is_returned l = false)
                 (loans db)).

(** The predicate of the specification: a book is unavailable if and only
    if exactly one open loan references it. *)
Definition unavailable_iff_one_open_loan (db : DB) : Prop :=
  Forall (fun b => Book.is_available b = false <-> open_loans db b = 1) (books db).

(** The same with the bound made explicit: no book has two open loans,
    an available one has none and an unavailable one has one. *)
Definition availability_counts_open_loans (db : DB) : Prop :=
  Forall (fun b => open_loans db b = if Book.is_available b then 0 else 1)
         (books db).

(** Primary keys are unique. *)
Definition keys_unique (db : DB) : Prop :=
  NoDup (Book.id <$> books db) /\ NoDup (Loan.id <$> loans db).

(** The two requests that change a loan. *)
Inductive transition :=
  | Borrow (now : Z) (request : HttpRequest) (book_id : Z)
  | Return (now : Z) (request : HttpRequest) (book_id : Z).

Definition step (F : Type) (float : string -> option F)
    (adapt_user_rating : F -> result Z) (t : transition) (db : DB) : DB :=
  match t with
  | Borrow now request book_id => (borrow_book now request book_id db).1
  | Return now request book_id =>
      (return_book F float adapt_user_rating now request book_id db).1
  end.

(** ** Small catalogues for the examples *)

Definition a_book (pk bid : Z) (authors : string) (publisher : option string)
    (rating : option Z) (available : bool) : Book.t :=
  Book.mk pk bid "" authors rating None 0 None None publisher available.

Definition a_loan (pk : Z) (username : string) (book_pk : Z) (returned : bool)
  : Loan.t :=
  Loan.mk pk username book_pk 0 None None returned None.

Definition a_user (username : string) : User.t :=
  User.mk username (username +:+ "@example.com") username.

Local Open Scope Z_scope.

Definition jane_db : DB :=
  mkDB [ a_book 1 1 "Jane Doe" (Some "Acme") (Some 400) false;
         a_book 2 2 "Jane Doe, John Smith" (Some "Acme") (Some 300) true;
         a_book 3 3 "Jane Doe" (Some "Other Press") (Some 300) true;
         a_book 4 4 "Unknown Author" (Some "Acme") (Some 300) true;
         a_book 5 5 "Somebody Else" (Some "Other Press") (Some 420) true;
         a_book 6 6 "Somebody Else" None None true ]
       {[ "ana" := a_user "ana"; "bea" := a_user "bea" ]}
       [ a_loan 1 "ana" 1 false ].

(** Ana has borrowed a book whose publisher is not recorded. *)
Definition nopub_db : DB :=
  mkDB [ a_book 1 1 "Jane Doe" None (Some 400) false;
         a_book 2 2 "Jane Doe" (Some "Other Press") (Some 300) true ]
       {[ "ana" := a_user "ana" ]}
       [ a_loan 1 "ana" 1 false ].

(** Ana has borrowed and returned the first row, whose catalogue number is
    10; the catalogue number of the second row is 1. *)
Definition returned_db : DB :=
  mkDB [ a_book 1 10 "Jane Doe" (Some "Acme") (Some 400) true;
         a_book 2 1 "Somebody Else" (Some "Other Press") (Some 450) true ]
       {[ "ana" := a_user "ana" ]}
       [ a_loan 1 "ana" 1 true ].

(** Ana has borrowed a book nobody has rated yet: its rating is 0.00. *)
Definition unrated_db : DB :=
  mkDB [ a_book 1 1 "Jane Doe" (Some "Acme") (Some 0) false;
         a_book 2 2 "Jane Doe" (Some "Acme") (Some 300) true ]
       {[ "ana" := a_user "ana" ]}
       [ a_loan 1 "ana" 1 false ].

(** Forty available books by the author and publisher Ana has read. *)
Definition dense_db : DB :=
  mkDB (a_book 1 1 "Jane Doe" (Some "Acme") (Some 400) false ::
        ((fun i => a_book i i "Jane Doe" (Some "Acme") (Some (300 + i)) true)
           <$> seqZ 2 40))
       {[ "ana" := a_user "ana" ]}
       [ a_loan 1 "ana" 1 false ].

(** An available book with two open loans. *)
Definition double_loan_db : DB :=
  mkDB [ a_book 1 1 "Jane Doe" (Some "Acme") (Some 400) true ]
       {[ "ana" := a_user "ana"; "bea" := a_user "bea" ]}
       [ a_loan 1 "ana" 1 false; a_loan 2 "bea" 1 false ].

(** One available book and no user yet. *)
Definition empty_db : DB :=
  mkDB [ a_book 1 1 "Jane Doe" (Some "Acme") (Some 400) true ] ∅ [].

(** A catalogue whose primary keys are not its catalogue numbers. Ana has
    returned the rows 1 and 2, of catalogue numbers 10 and 20; she has
    read neither the row 3 nor the row 4, whose catalogue number is 1. *)
Definition reread_db : DB :=
  mkDB [ a_book 1 10 "Jane Doe" (Some "Acme") (Some 450) true;
         a_book 2 20 "" None (Some 420) true;
         a_book 3 30 "Jane Doe" (Some "Other Press") (Some 300) true;
         a_book 4 1 "Jane Doe" (Some "Acme") (Some 480) true ]
       {[ "ana" := a_user "ana" ]}
       [ a_loan 1 "ana" 1 true; a_loan 2 "ana" 2 true ].

(** Ana has borrowed a book whose publisher is not recorded; twelve
    available books are by its author. *)
Definition nopub_dense_db : DB :=
  mkDB (a_book 1 1 "Jane Doe" None (Some 400) false ::
        ((fun i => a_book i i "Jane Doe" (Some "Acme") (Some (300 + i)) true)
           <$> seqZ 2 12))
       {[ "ana" := a_user "ana" ]}
       [ a_loan 1 "ana" 1 false ].

Local Close Scope Z_scope.

Definition dense_recs : list Scored :=
  Eval vm_compute in
    match scored_candidates dense_db (loans_of dense_db "ana") with
    | inr recs => recs
    | inl _ => []
    end.

Definition jane_recs : list Scored :=
  Eval vm_compute in
    match scored_candidates jane_db (loans_of jane_db "ana") with
    | inr recs => recs
    | inl _ => []
    end.

(** A form posted with one field, a query string with one parameter. *)
Definition post_form (field value : string) : HttpRequest :=
  mkRequest POST ∅ {[ field := value ]}.

Definition get_query (param value : string) : HttpRequest :=
  mkRequest GET {[ param := value ]} ∅.

(** A username of 101 characters. *)
Definition long_name : string := string_of_list_ascii (replicate 101 "a"%char).

(** *** Plain decimal literals *)

Definition digit (c : ascii) : option Z :=
  let n := ascii_code c in
  if ((48 <=? n) && (n <=? 57))%N then Some (Z.of_N (n - 48)) else None.

(** The value and the number of the digits of a string of digits. *)
Fixpoint read_digits (s : string) (acc : Z) (n : nat) : option (Z * nat) :=
  match s with
  | EmptyString => Some (acc, n)
  | String c s' =>
      match digit c with
      | Some d => read_digits s' (10 * acc + d)%Z (S n)
      | None => None
      end
  end.

(** [sign? digits (. digits?)?] with at least one digit: the literals both
    [Decimal(str)] and [float(str)] read as the number they spell. *)
Definition plain_decimal (s : string) : option Q :=
  let '(sign, body) :=
    match s with
    | String "-" r => ((-1)%Z, r)
    | String "+" r => (1%Z, r)
    | _ => (1%Z, s)
    end in
  match split "." body with
  | [i] =>
      match read_digits i 0 0 with
      | Some (v, S _) => Some (inject_Z (sign * v))
      | _ => None
      end
  | [i; f] =>
      match read_digits i 0 0, read_digits f 0 0 with
      | Some (vi, ni), Some (vf, nf) =>
          if (ni + nf =? 0)%nat then None
          else Some ((sign * (vi * 10 ^ Z.of_nat nf + vf))
                       # Z.to_pos (10 ^ Z.of_nat nf))
      | _, _ => None
      end
  | _ => None
  end.

(** [Decimal(str)] on the plain literals and on the names of the values
    that are not finite, with their optional sign, in any case. *)
Definition plain_Decimal (s : string) : option decimal :=
  let body :=
    match s with
    | String "-" r | String "+" r => r
    | _ => s
    end in
  if existsb (String.eqb (upper body)) ["NAN"; "SNAN"; "INF"; "INFINITY"]
  then Some non_finite
  else finite <$> plain_decimal s.

(** A conversion for the examples, exact on ratings of one decimal: the
    rating rounded to tenths, a tie going to the even digit, and a rating
    that does not fit [DecimalField(max_digits=2, decimal_places=1)]
    refused by the database. *)
Definition adapt_tenths (f : Q) : result Z :=
  let x := (f * 10)%Q in
  let tenths :=
    if Qeq_bool (x - inject_Z (Qfloor x)) (1 # 2)
    then (if Z.even (Qfloor x) then Qfloor x else Qfloor x + 1)%Z
    else Qfloor (x + (1 # 2)) in
  if (Z.abs tenths <? 100)%Z then ret tenths else raise DataError.

(** ** views.borrowed_books, views.books_by_year and views.years_list *)

(** [Loan.objects.filter(is_returned=False).order_by('-borrowed_date')] *)
Definition borrowed_books (db : DB) : list Loan.t :=
  order_by_desc (fun l => desc (Loan.borrowed_date l))
    (filter (fun l => Loan.is_returned l = false) (loans db)).

(** The argument of [books_by_year]: the URL converter hands an [int], a
    direct caller may hand a [str]. *)
Inductive year_arg :=
  | year_int (n : Z)
  | year_str (s : string).

Module BooksByYear.
(** The context given to [books_by_year.html]. *)
Record context := mk {
  books : list Book.t;
  year : Z;
  count : nat;
}.
End BooksByYear.

Inductive year_response :=
  | year_redirect_home
  | year_page (c : BooksByYear.context).

Section books_by_year.
(** [int(str)] ([None] for a [ValueError]), and a key under which the
    descending order of keys is the ascending order of titles in the
    collation of the database. *)
Variable int_of_str : string -> option Z.
Variable title_key : string -> list Z.

(** [int(year)] *)
Definition int_of_arg (a : year_arg) : result Z :=
  match a with
  | year_int n => ret n
  | year_str s =>
      match int_of_str s with
      | Some n => ret n
      | None => raise ValueError
      end
  end.

Definition books_by_year_key (b : Book.t) : list Z :=
  desc_null (Book.average_rating b) ++ title_key (Book.title b).

Definition books_by_year (year : year_arg) (db : DB) : result year_response :=
  do y <- try_except (do n <- int_of_arg year; ret (Some n))
                     [ValueError; TypeError] None;
  match y with
  | None => ret year_redirect_home
  | Some n =>
      let books :=
        order_by_desc books_by_year_key
          (filter (fun b => Book.publication_year b = Some n) (books db)) in
      ret (year_page (BooksByYear.mk books n (length books)))
  end.
End books_by_year.

(** The rows of [years_list]: one per distinct non-null year, with the
    number of books of that year, the latest year first. *)
Definition years_list (db : DB) : list (Z * nat) :=
  let years := omap Book.publication_year (books db) in
  (fun y => (y, length (filter (fun y' => y' = y) years)))
    <$> order_by_desc desc (remove_dups years).

(** The publishers offered by [home]: the twenty most frequent non-empty
    publishers with their number of books. *)
Definition home_publishers (db : DB) : list (string * nat) :=
  let pubs := filter (fun p => nonempty p = true)
                     (omap Book.publisher (books db)) in
  take 20
    (order_by_desc (fun pc => desc (Z.of_nat pc.2))
       ((fun p => (p, length (filter (fun p' => p' = p) pubs)))
          <$> remove_dups pubs)).

(** ** The statistics of views.user_dashboard *)

Section tally.
Context {K : Type} `{EqDecision K}.

(** [d[k] = d.get(k, 0) + 1] on a dict, kept in insertion order. *)
Fixpoint bump (k : K) (d : list (K * nat)) : list (K * nat) :=
  match d with
  | [] => [(k, 1)]
  | (k', n) :: d' => if decide (k' = k) then (k', S n) :: d' else (k', n) :: bump k d'
  end.

(** The dict filled by a counting loop over the keys. *)
Definition tally (keys : list K) : list (K * nat) :=
  foldl (fun d k => bump k d) [] keys.

(** [max(d, key=d.get)] with its count: the first key, in insertion order,
    whose count is maximal; nothing for an empty dict. *)
Definition most_frequent (d : list (K * nat)) : option (K * nat) :=
  foldl (fun best kv =>
           match best with
           | None => Some kv
           | Some (k0, n0) => if (n0 <? kv.2)%nat then Some kv else best
           end) None d.
End tally.

(** [Loan.objects.filter(user=user, is_returned=True).select_related('book')],
    iterated under the default ordering of [Loan]: the books of the
    returned loans, the latest borrowed first. *)
Definition returned_books (db : DB) (username : string) : list Book.t :=
  loaned_books db
    (order_by_desc (fun l => desc (Loan.borrowed_date l))
       (filter (fun l => Loan.user l = username /\ Loan.is_returned l = true)
               (loans db))).

(** [loan.book.authors.split(',')[0].strip()] *)
Definition first_author (b : Book.t) : string :=
  strip (hd "" (split "," (Book.authors b))).

Definition favorite_author (db : DB) (username : string) : option (string * nat) :=
  most_frequent
    (tally (first_author <$>
            filter (fun b => nonempty (Book.authors b) = true)
                   (returned_books db username))).

Definition favorite_publisher (db : DB) (username : string)
  : option (string * nat) :=
  most_frequent
    (tally (filter (fun p => nonempty p = true)
                   (omap Book.publisher (returned_books db username)))).

(** A year of 0 is falsy and is skipped like a missing one. *)
Definition most_read_year (db : DB) (username : string) : option (Z * nat) :=
  most_frequent
    (tally (filter (fun y => y <> 0%Z)
                   (omap Book.publication_year (returned_books db username)))).

(** [aggregate(total=Sum('book__num_pages'))] over the returned loans whose
    book has a number of pages: NULL when there is none. *)
Definition total_pages_read (db : DB) (username : string) : option Z :=
  match omap Book.num_pages (returned_books db username) with
  | [] => None
  | pages => Some (sum_Z pages)
  end.

(** [Avg] of a one-decimal column. *)
Definition Avg1 (vals : list (option Z)) : option Q :=
  match omap id vals with
  | [] => None
  | xs => Some (dec1 (sum_Z xs) / inject_Z (Z.of_nat (length xs)))%Q
  end.

(** [reading_history.aggregate(avg=Avg('user_rating'))], on the history
    as left by the rating filter. *)
Definition average_user_rating (c : Dashboard.context) : option Q :=
  Avg1 (Loan.user_rating <$> Dashboard.reading_history c).

(** ** views.get_categorized_recommendations *)

Module Categorized.
(** The dictionary returned for a user with loans. *)
Record t := mk {
  same_author_and_publisher : list Book.t;
  same_author : list Book.t;
  same_publisher : list Book.t;
  similar_rating : list Book.t;
  favorite_authors : gset string;
  favorite_publishers : gset string;
  avg_rating : Q;
  total_books_read : nat;
}.
End Categorized.

Inductive categorized_result :=
  | categorized_error (message : string)
  | categorized (r : Categorized.t).

(** [qs.filter(q)] on rows of [Book]; an empty [Q] filters nothing out. *)
Definition filter_Q (q : QObj) (bs : list Book.t) : list Book.t :=
  filter (fun b => Q_holds q b = true) bs.

(** [qs.exclude(id__in=other.values_list('id', flat=True))] *)
Definition exclude_ids (other : list Book.t) (bs : list Book.t) : list Book.t :=
  filter (fun b => Book.id b ∉ Book.id <$> other) bs.

Definition by_rating (b : Book.t) : list Z := desc_null (Book.average_rating b).
Definition by_ratings_count (b : Book.t) : list Z := desc (Book.ratings_count b).

(** The function on a [limit_per_category] that is a count of rows, as
    its default of 10 is: the slices [[:limit_per_category]] refuse a
    negative number, a call that is left out here. *)
Definition get_categorized_recommendations (username : string)
    (limit_per_category : nat) (db : DB) : categorized_result :=
  match users db !! username with
  | None => categorized_error "Usuario no encontrado"
  | Some user =>
      let user_loans := loans_of db username in
      if bool_decide (user_loans = []) then
        categorized_error "Usuario sin historial de préstamos"
      else
        let ids := read_book_ids user_loans in
        let authors := read_authors db user_loans in
        let publishers := read_publishers db user_loans in
        let avg := avg_rating db user_loans in
        let author_q := author_conditions authors in
        let publisher_q := publisher_conditions publishers in
        let base_qs := eligible db ids in
        categorized
          (Categorized.mk
             (take limit_per_category
                (order_by_desc by_rating
                   (filter_Q (q_and author_q publisher_q) base_qs)))
             (take limit_per_category
                (order_by_desc by_rating
                   (exclude_ids (filter_Q (q_and author_q publisher_q) base_qs)
                      (filter_Q author_q base_qs))))
             (take limit_per_category
                (order_by_desc by_rating
                   (exclude_ids (filter_Q author_q base_qs)
                      (filter_Q publisher_q base_qs))))
             (take limit_per_category
                (order_by_desc by_ratings_count
                   (exclude_ids (filter_Q (q_or author_q publisher_q) base_qs)
                      (filter (fun b =>
                                 lookup_holds (average_rating__gte (avg - (1 # 2))) b = true /\
                                 lookup_holds (average_rating__lte (avg + (1 # 2))) b = true)
                              base_qs))))
             authors publishers avg (length ids))
  end.

(** *** What the statistics are measured against *)

(** The number of occurrences of a key in the sequence that is tallied. *)
Definition occurrences {K} `{EqDecision K} (k : K) (keys : list K) : nat :=
  length (filter (fun k' => k' = k) keys).

(** [k] is met before [k'] is. *)
Definition seen_before {K} (k k' : K) (keys : list K) : Prop :=
  exists l1 l2, keys = l1 ++ k :: l2 /\ k' ∉ l1.

(** [k], met [n] times, is the most frequent key, and among the most
    frequent ones the first met. *)
Definition leads {K} `{EqDecision K} (keys : list K) (k : K) (n : nat) : Prop :=
  n = occurrences k keys /\ 0 < n /\
  (forall k', occurrences k' keys <= n) /\
  (forall k', k' <> k -> occurrences k' keys = n -> seen_before k k' keys).

(** The keys tallied by the three loops of the dashboard. *)
Definition author_keys (db : DB) (username : string) : list string :=
  first_author <$> filter (fun b => nonempty (Book.authors b) = true)
                          (returned_books db username).

Definition publisher_keys (db : DB) (username : string) : list string :=
  filter (fun p => nonempty p = true)
         (omap Book.publisher (returned_books db username)).

Definition year_keys (db : DB) (username : string) : list Z :=
  filter (fun y => y <> 0%Z)
         (omap Book.publication_year (returned_books db username)).

(** A reader with four returned loans and an open one. *)
Definition reader_db : DB :=
  mkDB [ Book.mk 1 1 "Dune" "Jane Doe, John Smith" (Some 400%Z) (Some 300%Z) 10
                 None (Some 2001%Z) (Some "Acme") true;
         Book.mk 2 2 "Emma" "Jane Doe" (Some 350%Z) None 20
                 None (Some 2001%Z) (Some "Acme") true;
         Book.mk 3 3 "Ulysses" "Ann Lee" (Some 450%Z) (Some 150%Z) 30
                 None (Some 1999%Z) (Some "Other Press") true;
         Book.mk 4 4 "Beloved" "Ann Lee" None (Some 500%Z) 40
                 None None None true;
         Book.mk 5 5 "Persuasion" "Zed" (Some 300%Z) (Some 250%Z) 50
                 None (Some 1999%Z) (Some "Acme") false ]
       {[ "ana" := a_user "ana" ]}
       [ Loan.mk 1 "ana" 1 10 None (Some 15%Z) true (Some 45%Z);
         Loan.mk 2 "ana" 3 20 None (Some 25%Z) true (Some 30%Z);
         Loan.mk 3 "ana" 2 30 None (Some 35%Z) true None;
         Loan.mk 4 "ana" 4 40 None (Some 45%Z) true (Some 50%Z);
         Loan.mk 5 "ana" 5 50 None None false None ].

(** A row that has a publication date has a publication year. *)
Definition dated_has_year (b : Book.t) : Prop :=
  is_Some (Book.publication_date b) -> is_Some (Book.publication_year b).

(** The foreign key of [Loan.book]: every loan points at a row of [Book]. *)
Definition loans_have_books (db : DB) : Prop :=
  Forall (fun l => Loan.book_id l ∈ Book.id <$> books db) (loans db).

(* ================================================================= *)
(** * Properties *)

(** ** The error monad *)

Lemma bind_ret {A B} (m : result A) (k : A -> result B) (b : B) :
  bind m k = ret b -> exists a, m = ret a /\ k a = ret b.
Proof. destruct m as [e|a]; simpl; [discriminate | eauto]. Qed.

Lemma bind_raise {A B} (m : result A) (k : A -> result B) (e : exn) :
  bind m k = raise e -> m = raise e \/ exists a, m = ret a /\ k a = raise e.
Proof. destruct m as [e'|a]; simpl; [intros [= ->]; by left | eauto]. Qed.

(** ** Ordering *)

Lemma lex_leb_refl k : lex_leb k k = true.
Proof.
  induction k as [|x k IH]; simpl; [done|].
  rewrite Z.eqb_refl, IH. by rewrite orb_true_r.
Qed.

Lemma lex_leb_total k1 k2 : lex_leb k1 k2 = true \/ lex_leb k2 k1 = true.
Proof.
  revert k2. induction k1 as [|x k1 IH]; intros [|y k2]; simpl; auto.
  destruct (Z.ltb_spec x y), (Z.ltb_spec y x); simpl; auto; try lia.
  assert (x = y) as -> by lia. rewrite Z.eqb_refl. simpl. apply IH.
Qed.

Lemma lex_leb_trans k1 k2 k3 :
  lex_leb k1 k2 = true -> lex_leb k2 k3 = true -> lex_leb k1 k3 = true.
Proof.
  revert k2 k3. induction k1 as [|x k1 IH]; intros [|y k2] [|z k3]; simpl;
    try done.
  rewrite !orb_true_iff, !andb_true_iff, !Z.ltb_lt, !Z.eqb_eq.
  intros [?|[-> ?]] [?|[-> ?]]; eauto; left; lia.
Qed.

Global Instance desc_by_total {A} (key : A -> list Z) : Total (desc_by key).
Proof. intros a b. unfold desc_by. destruct (lex_leb_total (key b) (key a)); auto. Qed.

Global Instance desc_by_trans {A} (key : A -> list Z) : Transitive (desc_by key).
Proof. intros a b c ??. unfold desc_by in *. eauto using lex_leb_trans. Qed.

Global Instance desc_by_refl {A} (key : A -> list Z) : Reflexive (desc_by key).
Proof. intros a. apply lex_leb_refl. Qed.

Section order_by.
Context {A : Type} (key : A -> list Z).

Lemma order_by_desc_Sorted rows : Sorted (desc_by key) (order_by_desc key rows).
  Proof. apply Sorted_merge_sort, _. Qed.

Lemma order_by_desc_StronglySorted rows :
    StronglySorted (desc_by key) (order_by_desc key rows).
  Proof. apply StronglySorted_merge_sort; apply _. Qed.

Lemma order_by_desc_Permutation rows : order_by_desc key rows ≡ₚ rows.
  Proof. apply merge_sort_Permutation. Qed.

Lemma elem_of_order_by_desc x rows : x ∈ order_by_desc key rows <-> x ∈ rows.
  Proof. by rewrite order_by_desc_Permutation. Qed.

Lemma length_order_by_desc rows : length (order_by_desc key rows) = length rows.
  Proof. by rewrite order_by_desc_Permutation. Qed.
End order_by.

(** Neighbours of a sorted list are related. *)
Lemma Sorted_adjacent {A} (R : relation A) (l : list A) i a b :
  Sorted R l -> l !! i = Some a -> l !! S i = Some b -> R a b.
Proof.
  intros Hs. revert i. induction Hs as [|x l Hs IH Hhd]; intros i; [done|].
  destruct i as [|i]; simpl.
  - intros [= ->] Hb. destruct Hhd as [|y l' Hxy]; simplify_eq/=. done.
  - apply IH.
Qed.

Lemma adjacent_take {A} (l : list A) n i a b :
  take n l !! i = Some a -> take n l !! S i = Some b ->
  l !! i = Some a /\ l !! S i = Some b.
Proof.
  intros Ha Hb. apply lookup_take_Some in Ha as [? ?].
  apply lookup_take_Some in Hb as [? ?]. done.
Qed.

Lemma lex_leb_desc x y k1 k2 :
  lex_leb (desc x ++ k1) (desc y ++ k2) = true <->
  (x < y)%Z \/ x = y /\ lex_leb k1 k2 = true.
Proof.
  simpl. rewrite orb_true_iff, andb_true_iff, Z.ltb_lt, Z.eqb_eq. done.
Qed.

Lemma lex_leb_desc_null u v k1 k2 :
  lex_leb (desc_null u ++ k1) (desc_null v ++ k2) = true <->
  null_first v u /\ u <> v \/ u = v /\ lex_leb k1 k2 = true.
Proof.
  destruct u as [x|], v as [y|]; simpl;
    rewrite ?orb_true_iff, ?andb_true_iff, ?Z.ltb_lt, ?Z.eqb_eq.
  - split.
    + intros [?|[-> ?]]; [left|by right].
      split; [lia|]. intros [= ->]. lia.
    + intros [[? Hne]|[[= ->] ?]]; [left|by right].
      destruct (decide (x = y)) as [->|]; [done|lia].
  - split; [intros _; by left|done].
  - split; [done|]. intros [[[] _]|[[=] _]].
  - split; [by right|]. intros [[_ []]|[_ ?]]; done.
Qed.

Lemma lex_leb_desc_null_last u v :
  lex_leb (desc_null u) (desc_null v) = true <-> null_first v u.
Proof.
  rewrite <-(app_nil_r (desc_null u)), <-(app_nil_r (desc_null v)).
  rewrite lex_leb_desc_null. simpl. split.
  - intros [[? _]|[-> _]]; [done|]. destruct v; simpl; [lia|done].
  - intros ?. destruct (decide (u = v)); [by right|by left].
Qed.

(** The order of [recommendations], spelled out on the four keys. *)
Lemma recommendations_order a b :
  desc_by recommendations_key a b <->
  (priority_score b < priority_score a)%Z \/
  priority_score b = priority_score a /\
  (null_first (Book.average_rating (book a)) (Book.average_rating (book b)) /\
   Book.average_rating (book b) <> Book.average_rating (book a) \/
   Book.average_rating (book b) = Book.average_rating (book a) /\
   ((popularity b < popularity a)%Z \/
    popularity b = popularity a /\
    null_first (Book.publication_year (book a)) (Book.publication_year (book b)))).
Proof.
  unfold desc_by, recommendations_key.
  rewrite lex_leb_desc, lex_leb_desc_null, lex_leb_desc, lex_leb_desc_null_last.
  done.
Qed.

(** The orders of the two plain queries. *)
Lemma cold_start_order a b :
  desc_by cold_start_key a b <->
  null_first (Book.average_rating a) (Book.average_rating b) /\
  Book.average_rating b <> Book.average_rating a \/
  Book.average_rating b = Book.average_rating a /\
  (Book.ratings_count b <= Book.ratings_count a)%Z.
Proof.
  unfold desc_by, cold_start_key.
  rewrite lex_leb_desc_null. simpl.
  rewrite orb_true_iff, andb_true_iff, Z.ltb_lt, Z.eqb_eq.
  split; (intros [?|[? ?]]; [by left|right; split; [done|lia]]).
Qed.

Lemma popular_order a b :
  desc_by popular_key a b <->
  (Book.ratings_count b < Book.ratings_count a)%Z \/
  Book.ratings_count b = Book.ratings_count a /\
  null_first (Book.average_rating a) (Book.average_rating b).
Proof.
  unfold desc_by, popular_key.
  by rewrite lex_leb_desc, lex_leb_desc_null_last.
Qed.

(** ** Q objects and the scoring expression *)

Section disjunction.
Context (leaf : string -> lookup).

Let add (q : QObj) (a : string) : QObj := q_or q (Q_leaf (leaf a)).

Lemma foldl_q_or_nonempty q l b :
    Q_bool q = true ->
    Q_bool (foldl add q l) = true /\
    Q_holds (foldl add q l) b =
      Q_holds q b || existsb (fun a => lookup_holds (leaf a) b) l.
  Proof.
    revert q. induction l as [|a l IH]; intros q Hq; simpl.
    - by rewrite orb_false_r.
    - assert (add q a = Q_OR q (Q_leaf (leaf a))) as ->.
      { unfold add, q_or, Q_combine. by rewrite Hq. }
      destruct (IH (Q_OR q (Q_leaf (leaf a))) eq_refl) as [-> ->].
      simpl. by rewrite orb_assoc.
  Qed.

Lemma foldl_q_or_empty : foldl add Q_empty [] = Q_empty.
  Proof. done. Qed.

Lemma foldl_q_or_bool l : Q_bool (foldl add Q_empty l) = negb (bool_decide (l = [])).
  Proof.
    destruct l as [|a l]; [done|].
    change (foldl add Q_empty (a :: l)) with (foldl add (Q_leaf (leaf a)) l).
    by destruct (foldl_q_or_nonempty (Q_leaf (leaf a)) l
                   (Book.mk 0 0 "" "" None None 0 None None None true) eq_refl)
      as [-> _].
  Qed.

Lemma foldl_q_or_holds l b :
    l <> [] ->
    Q_holds (foldl add Q_empty l) b = existsb (fun a => lookup_holds (leaf a) b) l.
  Proof.
    destruct l as [|a l]; [done|]. intros _.
    change (foldl add Q_empty (a :: l)) with (foldl add (Q_leaf (leaf a)) l).
    by destruct (foldl_q_or_nonempty (Q_leaf (leaf a)) l b eq_refl) as [_ ->].
  Qed.
End disjunction.

Lemma elements_nil (X : gset string) : elements X = [] <-> X = ∅.
Proof. rewrite elements_empty_iff. apply leibniz_equiv_iff. Qed.

Lemma author_conditions_bool (authors : gset string) :
  Q_bool (author_conditions authors) = negb (bool_decide (authors = ∅)).
Proof.
  unfold author_conditions. rewrite foldl_q_or_bool. f_equal.
  apply bool_decide_ext, elements_nil.
Qed.

Lemma publisher_conditions_bool (publishers : gset string) :
  Q_bool (publisher_conditions publishers) = negb (bool_decide (publishers = ∅)).
Proof.
  unfold publisher_conditions. rewrite foldl_q_or_bool. f_equal.
  apply bool_decide_ext, elements_nil.
Qed.

Lemma author_conditions_holds (authors : gset string) b :
  authors <> ∅ -> Q_holds (author_conditions authors) b = authorMatch authors b.
Proof.
  intros Hne. unfold author_conditions, authorMatch.
  rewrite foldl_q_or_holds; [done|]. by rewrite elements_nil.
Qed.

Lemma publisher_conditions_holds (publishers : gset string) b :
  publishers <> ∅ ->
  Q_holds (publisher_conditions publishers) b = publisherMatch publishers b.
Proof.
  intros Hne. unfold publisher_conditions, publisherMatch.
  rewrite foldl_q_or_holds by (by rewrite elements_nil). simpl.
  destruct (Book.publisher b); [done|].
  induction (elements publishers); simpl; [done|auto].
Qed.

(** With both sets inhabited the expression is built and computes [tier]. *)
Lemma priority_case_tier (authors publishers : gset string) (avg : Q) :
  authors <> ∅ -> publishers <> ∅ ->
  exists c,
    priority_case (author_conditions authors) (publisher_conditions publishers) avg
      = ret c /\
    forall b, Case_eval c b = tier authors publishers avg b.
Proof.
  intros Ha Hp. unfold priority_case, When, q_and, Q_combine.
  rewrite author_conditions_bool, publisher_conditions_bool.
  rewrite !bool_decide_eq_false_2 by done. simpl.
  eexists. split; [done|]. intros b.
  unfold Case_eval, tier, ratingMatch. simpl.
  rewrite author_conditions_holds, publisher_conditions_holds by done.
  destruct (authorMatch authors b), (publisherMatch publishers b); simpl; try done.
  by destruct (Book.average_rating b).
Qed.

Lemma author_conditions_empty : author_conditions ∅ = Q_empty.
Proof. unfold author_conditions. by rewrite elements_empty. Qed.

Lemma publisher_conditions_empty : publisher_conditions ∅ = Q_empty.
Proof. unfold publisher_conditions. by rewrite elements_empty. Qed.

(** Without a known author, or without a known publisher, one of the
    [When] is given an empty [Q] and the expression is not built. *)
Lemma priority_case_empty (authors publishers : gset string) (avg : Q) :
  authors = ∅ \/ publishers = ∅ ->
  priority_case (author_conditions authors) (publisher_conditions publishers) avg
    = raise ValueError.
Proof.
  unfold priority_case, When, q_and, Q_combine.
  intros [->| ->]; rewrite ?author_conditions_empty, ?publisher_conditions_empty;
    simpl.
  - destruct (Q_bool (publisher_conditions publishers)); reflexivity.
  - destruct (Q_bool (author_conditions authors)) eqn:E; simpl;
      rewrite ?E; reflexivity.
Qed.

Lemma priority_case_raises authors publishers avg e :
  priority_case (author_conditions authors) (publisher_conditions publishers) avg
    = raise e -> e = ValueError.
Proof.
  destruct (decide (authors = ∅)) as [Ha|Ha].
  { rewrite priority_case_empty by auto. by intros [= <-]. }
  destruct (decide (publishers = ∅)) as [Hp|Hp].
  { rewrite priority_case_empty by auto. by intros [= <-]. }
  destruct (priority_case_tier authors publishers avg Ha Hp) as (c & -> & _).
  done.
Qed.

(** ** The recommendation view *)

Lemma scored_candidates_ret db user_loans recs :
  scored_candidates db user_loans = ret recs ->
  read_authors db user_loans <> ∅ /\ read_publishers db user_loans <> ∅ /\
  recs = order_by_desc recommendations_key
           (scored_as db user_loans <$> eligible db (read_book_ids user_loans)).
Proof.
  unfold scored_candidates. intros (c & Hc & [= <-])%bind_ret.
  destruct (decide (read_authors db user_loans = ∅)) as [Ha|Ha].
  { rewrite priority_case_empty in Hc by auto. done. }
  destruct (decide (read_publishers db user_loans = ∅)) as [Hp|Hp].
  { rewrite priority_case_empty in Hc by auto. done. }
  destruct (priority_case_tier _ _ (avg_rating db user_loans) Ha Hp)
    as (c' & Hc' & Htier).
  rewrite Hc in Hc'. injection Hc' as <-.
  split_and!; [done..|]. unfold recommendations. f_equal.
  apply list_fmap_ext. intros _ b _. unfold annotate, scored_as. by rewrite Htier.
Qed.

Lemma scored_candidates_total db user_loans :
  read_authors db user_loans <> ∅ -> read_publishers db user_loans <> ∅ ->
  exists recs, scored_candidates db user_loans = ret recs.
Proof.
  intros Ha Hp. unfold scored_candidates.
  destruct (priority_case_tier _ _ (avg_rating db user_loans) Ha Hp)
    as (c & -> & _). simpl. eauto.
Qed.

Lemma scored_candidates_raises db user_loans e :
  scored_candidates db user_loans = raise e -> e = ValueError.
Proof.
  unfold scored_candidates.
  intros [H|(c & _ & [=])]%bind_raise. by apply priority_case_raises in H.
Qed.

Lemma read_authors_nil db : read_authors db [] = ∅.
Proof. done. Qed.

Lemma user_recommendations_cold db username u :
  users db !! username = Some u -> loans_of db username = [] ->
  user_recommendations db username =
    ret (Recommendations.mk (Plain <$> cold_start_books db) u false 0 None None).
Proof.
  intros Hu Hl. unfold user_recommendations, get_user_or_404.
  rewrite Hu, Hl. simpl. done.
Qed.

Lemma user_recommendations_personalized db username u recs :
  users db !! username = Some u -> loans_of db username <> [] ->
  scored_candidates db (loans_of db username) = ret recs ->
  user_recommendations db username =
    ret (Recommendations.mk
           (final_recommendations db (read_book_ids (loans_of db username)) recs)
           u true (length (loans_of db username))
           (Some (length (priority_only recs)))
           (Some (avg_rating db (loans_of db username)))).
Proof.
  intros Hu Hl Hs. unfold user_recommendations, get_user_or_404.
  rewrite Hu. simpl. rewrite bool_decide_eq_false_2 by done.
  rewrite Hs. done.
Qed.

(** C8. The recommendation view answers with the not-found condition
    exactly when the username names no user; a user without any loan is
    given the cold start list, so an unknown user is never answered with
    a list, empty or not. *)
Theorem not_found_exactly_for_unknown_user (db : DB) (username : string) :
  (user_recommendations db username = raise Http404 <->
   users db !! username = None) /\
  (forall u, users db !! username = Some u /\ loans_of db username = [] ->
     user_recommendations db username =
       ret (Recommendations.mk (Plain <$> cold_start_books db) u false 0
              None None)) /\
  (forall c, users db !! username = None ->
     user_recommendations db username <> ret c).
Proof.
  split_and!.
  - split.
    + destruct (users db !! username) as [u|] eqn:Hu; [|done].
      destruct (decide (loans_of db username = [])) as [Hl|Hl].
      { by rewrite (user_recommendations_cold db username u). }
      unfold user_recommendations, get_user_or_404. rewrite Hu. simpl.
      rewrite bool_decide_eq_false_2 by done.
      intros [H|(recs & _ & [=])]%bind_raise.
      by apply scored_candidates_raises in H.
    + intros Hu. unfold user_recommendations, get_user_or_404. by rewrite Hu.
  - intros u [Hu Hl]. by apply user_recommendations_cold.
  - intros c Hu. unfold user_recommendations, get_user_or_404. by rewrite Hu.
Qed.

(** C4. For an existing user without any loan the view returns, in cold
    start mode, at most 20 books, all available, the first 20 of the
    available books ordered by rating descending, then by number of
    ratings descending; the profile and the scorer are not run: on the
    empty history the scoring query cannot even be built. *)
Theorem cold_start_for_user_without_loans (db : DB) (username : string) (u : User.t) :
  users db !! username = Some u -> loans_of db username = [] ->
  user_recommendations db username =
    ret (Recommendations.mk (Plain <$> cold_start_books db) u false 0 None None) /\
  length (cold_start_books db) <= 20 /\
  Forall (fun b => b ∈ books db /\ Book.is_available b = true)
         (cold_start_books db) /\
  (exists l, cold_start_books db = take 20 l /\
             l ≡ₚ filter (fun b => Book.is_available b = true) (books db) /\
             Sorted (desc_by cold_start_key) l) /\
  (forall i a b,
     cold_start_books db !! i = Some a -> cold_start_books db !! S i = Some b ->
     null_first (Book.average_rating a) (Book.average_rating b) /\
     (Book.average_rating a = Book.average_rating b ->
      (Book.ratings_count b <= Book.ratings_count a)%Z)) /\
  scored_candidates db (loans_of db username) = raise ValueError.
Proof.
  intros Hu Hl. split_and!.
  - by apply user_recommendations_cold.
  - unfold cold_start_books. rewrite length_take. lia.
  - unfold cold_start_books. apply Forall_take, Forall_forall. intros b.
    rewrite elem_of_order_by_desc, list_elem_of_filter. tauto.
  - eexists. split; [done|].
    split; [apply order_by_desc_Permutation|apply order_by_desc_Sorted].
  - intros i a b Ha Hb. unfold cold_start_books in *.
    destruct (adjacent_take _ _ _ _ _ Ha Hb) as [Ha' Hb'].
    pose proof (Sorted_adjacent _ _ _ _ _ (order_by_desc_Sorted _ _) Ha' Hb') as H.
    apply cold_start_order in H. destruct H as [[? ?]|[Heq ?]].
    + split; [done|]. intros E. by rewrite E in *.
    + split; [|done]. rewrite Heq. destruct (Book.average_rating a); simpl; [lia|done].
  - rewrite Hl. unfold scored_candidates. rewrite read_authors_nil.
    rewrite priority_case_empty by auto. done.
Qed.

(** *** The ordered candidates *)

Lemma NoDup_fmap_eq {A B} (f : A -> B) (l : list A) x y :
  NoDup (f <$> l) -> x ∈ l -> y ∈ l -> f x = f y -> x = y.
Proof.
  induction l as [|z l IH]; simpl; [by intros _ ?%elem_of_nil|].
  rewrite NoDup_cons, !elem_of_cons. intros [Hz Hl] [->|Hx] [->|Hy] Heq; auto.
  - destruct Hz. rewrite Heq. by apply list_elem_of_fmap_2.
  - destruct Hz. rewrite <-Heq. by apply list_elem_of_fmap_2.
Qed.

Lemma rating_at_least_4 b :
  lookup_holds (average_rating__gte 4) b = true <->
  exists r, Book.average_rating b = Some r /\ (400 <= r)%Z.
Proof.
  simpl. destruct (Book.average_rating b) as [r|].
  - rewrite Qle_bool_iff. unfold Qle, dec2. simpl. split.
    + intros ?. exists r. split; [done|lia].
    + intros (? & [= <-] & ?). lia.
  - split; [done|]. by intros (? & ? & _).
Qed.

Section candidates.
Context (db : DB) (user_loans : list Loan.t) (recs : list Scored).
Hypothesis Hrecs : scored_candidates db user_loans = ret recs.

Lemma recs_Permutation :
  recs ≡ₚ (scored_as db user_loans <$> eligible db (read_book_ids user_loans)).
Proof using Hrecs.
  apply scored_candidates_ret in Hrecs as (_ & _ & ->).
  apply order_by_desc_Permutation.
Qed.

Lemma recs_Sorted : Sorted (desc_by recommendations_key) recs.
Proof using Hrecs.
  apply scored_candidates_ret in Hrecs as (_ & _ & ->).
  apply order_by_desc_Sorted.
Qed.

Lemma recs_books : book <$> recs ≡ₚ eligible db (read_book_ids user_loans).
Proof using Hrecs.
  rewrite recs_Permutation, <-list_fmap_compose. by rewrite list_fmap_id.
Qed.

Lemma elem_of_recs r :
  r ∈ recs <->
  r = scored_as db user_loans (book r) /\ book r ∈ books db /\
  Book.is_available (book r) = true /\
  Book.book_id (book r) ∉ read_book_ids user_loans.
Proof using Hrecs.
  rewrite recs_Permutation, list_elem_of_fmap. unfold eligible. split.
  - intros (b & -> & Hb). apply list_elem_of_filter in Hb. simpl. tauto.
  - intros (-> & ? & ? & ?). eexists. split; [done|].
    apply list_elem_of_filter. simpl in *. tauto.
Qed.

Lemma recs_NoDup_ids :
  NoDup (Book.id <$> books db) -> NoDup (Book.id <$> (book <$> recs)).
Proof using Hrecs.
  intros Hnd. rewrite recs_books. eapply sublist_NoDup; [exact Hnd|].
  apply fmap_sublist, sublist_filter.
Qed.

Lemma recs_adjacent n i a b :
  take n recs !! i = Some a -> take n recs !! S i = Some b ->
  (priority_score b <= priority_score a)%Z /\
  (priority_score a = priority_score b ->
   null_first (Book.average_rating (book a)) (Book.average_rating (book b))).
Proof using Hrecs.
  intros Ha Hb. destruct (adjacent_take _ _ _ _ _ Ha Hb) as [Ha' Hb'].
  pose proof (Sorted_adjacent _ _ _ _ _ recs_Sorted Ha' Hb') as H.
  apply recommendations_order in H.
  destruct H as [?|[Heq [[? _]|[Hr _]]]]; (split; [lia|]); try lia; try done.
  intros _. rewrite Hr. destruct (Book.average_rating (book a)); simpl; [lia|done].
Qed.
End candidates.

Lemma length_filter_fmap {A B} (f : A -> B) (P : B -> Prop)
    `{!forall x, Decision (P x)} (l : list A) :
  length (filter P (f <$> l)) = length (filter (fun a => P (f a)) l).
Proof.
  induction l as [|a l IH]; [done|].
  rewrite fmap_cons, !filter_cons. destruct (decide (P (f a))); simpl; lia.
Qed.

Section branches.
Context (db : DB) (username : string) (u : User.t).

Let user_loans := loans_of db username.
Let t := tier (read_authors db user_loans) (read_publishers db user_loans)
              (avg_rating db user_loans).
Let pool :=
  filter (fun b => Book.is_available b = true /\
                   Book.book_id b ∉ (Loan.book_id <$> user_loans)) (books db).

Hypothesis Hu : users db !! username = Some u.
Hypothesis Ha : read_authors db user_loans <> ∅.
Hypothesis Hp : read_publishers db user_loans <> ∅.

Lemma profile_has_loans : loans_of db username <> [].
Proof using Ha. intros E. apply Ha. unfold user_loans. by rewrite E. Qed.

(** The main query of a user whose loaned books give an author and a
    publisher: the pool, each book with its tier and its number of loans,
    in the order of the four keys. *)
Lemma main_query :
  exists recs,
    scored_candidates db user_loans = ret recs /\
    length (filter (fun r => (2 <= priority_score r)%Z) recs)
      = length (filter (fun b => (2 <= t b)%Z) pool) /\
    book <$> recs ≡ₚ pool /\
    (forall r, r ∈ recs ->
       book r ∈ books db /\
       priority_score r = t (book r) /\
       popularity r =
         Z.of_nat (length (filter (fun l => Loan.book_id l = Book.id (book r))
                                  (loans db)))) /\
    (forall i a b, recs !! i = Some a -> recs !! S i = Some b ->
       (priority_score b < priority_score a)%Z \/
       priority_score b = priority_score a /\
       (null_first (Book.average_rating (book a)) (Book.average_rating (book b)) /\
        Book.average_rating (book b) <> Book.average_rating (book a) \/
        Book.average_rating (book b) = Book.average_rating (book a) /\
        ((popularity b < popularity a)%Z \/
         popularity b = popularity a /\
         null_first (Book.publication_year (book a))
                    (Book.publication_year (book b))))).
Proof using Ha Hp.
  destruct (scored_candidates_total db user_loans Ha Hp) as [recs Hrecs].
  exists recs. split_and!; [done| | | |].
  - rewrite (recs_Permutation db user_loans recs Hrecs).
    by rewrite length_filter_fmap.
  - apply (recs_books db user_loans recs Hrecs).
  - intros r Hr. apply (elem_of_recs db user_loans recs Hrecs) in Hr
      as (Hr & Hin & _).
    split; [done|]. split.
    + by apply (f_equal priority_score) in Hr.
    + by apply (f_equal popularity) in Hr.
  - intros i a b Hia Hib. apply recommendations_order.
    apply (Sorted_adjacent _ _ _ _ _ (recs_Sorted db user_loans recs Hrecs) Hia Hib).
Qed.

(** X25. For a user whose loaned books give an author and a publisher
    and for whom at least ten books of the pool have tier 2 or more, the
    view returns the first 30 rows of the main query: the pool is the
    available books whose catalogue number is not the value of the
    foreign key of a loan of the user, each row carries its tier and its
    number of loans, and the rows are sorted descending by tier, rating,
    number of loans and year (a missing rating or year counting as the
    largest).  Hence neighbours of the output have non-increasing tiers,
    and non-increasing ratings inside a tier. *)
Theorem dense_branch_is_top_30 :
  10 <= length (filter (fun b => (2 <= t b)%Z) pool) ->
  exists recs,
    user_recommendations db username =
      ret (Recommendations.mk (Annotated <$> take 30 recs) u true
             (length user_loans)
             (Some (length (filter (fun b => (2 <= t b)%Z) pool)))
             (Some (avg_rating db user_loans))) /\
    book <$> recs ≡ₚ pool /\
    (forall r, r ∈ recs ->
       priority_score r = t (book r) /\
       popularity r =
         Z.of_nat (length (filter (fun l => Loan.book_id l = Book.id (book r))
                                  (loans db)))) /\
    (forall i a b, recs !! i = Some a -> recs !! S i = Some b ->
       (priority_score b < priority_score a)%Z \/
       priority_score b = priority_score a /\
       (null_first (Book.average_rating (book a)) (Book.average_rating (book b)) /\
        Book.average_rating (book b) <> Book.average_rating (book a) \/
        Book.average_rating (book b) = Book.average_rating (book a) /\
        ((popularity b < popularity a)%Z \/
         popularity b = popularity a /\
         null_first (Book.publication_year (book a))
                    (Book.publication_year (book b))))) /\
    (forall i a b,
       take 30 recs !! i = Some a -> take 30 recs !! S i = Some b ->
       (priority_score b <= priority_score a)%Z /\
       (priority_score a = priority_score b ->
        null_first (Book.average_rating (book a))
                   (Book.average_rating (book b)))).
Proof using Hu Ha Hp.
  intros Hn.
  destruct main_query as (recs & Hrecs & Hcount & Hperm & Hscores & Horder).
  exists recs. split_and!; [|done| |done|].
  - rewrite (user_recommendations_personalized db username u recs Hu
               profile_has_loans Hrecs).
    unfold final_recommendations, priority_only. rewrite Hcount.
    destruct (Nat.ltb_spec (length (filter (fun b => (2 <= t b)%Z) pool)) 10);
      [lia|done].
  - intros r Hr. by destruct (Hscores r Hr) as (_ & ? & ?).
  - intros i a b. by apply (recs_adjacent db user_loans recs Hrecs).
Qed.

(** X24. For a user whose loaned books give an author and a publisher
    and for whom fewer than ten books of the pool have tier 2 or more, the
    view returns P followed by the first 15 of T, not sorted again: P is
    the first (at most 15) rows of tier 2 or more of the main query, in
    its order; T is the available books rated 4.0 or more whose catalogue
    number is neither the value of the foreign key of a loan of the user
    nor the catalogue number of a member of P, ordered by number of
    ratings, then rating, both descending, whatever their tier.  The list
    has at most 30 entries and no row occurs twice. *)
Theorem sparse_branch_is_priority_then_popular :
  NoDup (Book.id <$> books db) ->
  length (filter (fun b => (2 <= t b)%Z) pool) < 10 ->
  exists recs P T,
    user_recommendations db username =
      ret (Recommendations.mk ((Annotated <$> P) ++ (Plain <$> take 15 T)) u true
             (length user_loans)
             (Some (length (filter (fun b => (2 <= t b)%Z) pool)))
             (Some (avg_rating db user_loans))) /\
    book <$> recs ≡ₚ pool /\
    (forall r, r ∈ recs ->
       priority_score r = t (book r) /\
       popularity r =
         Z.of_nat (length (filter (fun l => Loan.book_id l = Book.id (book r))
                                  (loans db)))) /\
    (forall i a b, recs !! i = Some a -> recs !! S i = Some b ->
       (priority_score b < priority_score a)%Z \/
       priority_score b = priority_score a /\
       (null_first (Book.average_rating (book a)) (Book.average_rating (book b)) /\
        Book.average_rating (book b) <> Book.average_rating (book a) \/
        Book.average_rating (book b) = Book.average_rating (book a) /\
        ((popularity b < popularity a)%Z \/
         popularity b = popularity a /\
         null_first (Book.publication_year (book a))
                    (Book.publication_year (book b))))) /\
    P = take 15 (filter (fun r => (2 <= priority_score r)%Z) recs) /\
    NoDup T /\
    (forall b, b ∈ T <->
       b ∈ books db /\ Book.is_available b = true /\
       (exists r, Book.average_rating b = Some r /\ (400 <= r)%Z) /\
       (Book.book_id b ∉ (Loan.book_id <$> user_loans)) /\
       forall r, r ∈ P -> Book.book_id (book r) <> Book.book_id b) /\
    (forall i a b, T !! i = Some a -> T !! S i = Some b ->
       (Book.ratings_count b < Book.ratings_count a)%Z \/
       Book.ratings_count b = Book.ratings_count a /\
       null_first (Book.average_rating a) (Book.average_rating b)) /\
    length ((Annotated <$> P) ++ (Plain <$> take 15 T)) <= 30 /\
    NoDup (Book.id <$>
             (entry_book <$> ((Annotated <$> P) ++ (Plain <$> take 15 T)))).
Proof using Hu Ha Hp.
  intros Hnd Hn.
  destruct main_query as (recs & Hrecs & Hcount & Hperm & Hscores & Horder).
  set (ids := read_book_ids user_loans).
  set (P := take 15 (priority_only recs)).
  set (excl := (ids ++ ((fun r => Book.book_id (book r)) <$> P))%list).
  set (T := order_by_desc popular_key
              (filter (fun b => Book.is_available b = true /\
                                lookup_holds (average_rating__gte 4) b = true /\
                                Book.book_id b ∉ excl) (books db))).
  assert (HT : forall b, b ∈ T <->
     b ∈ books db /\ Book.is_available b = true /\
     (exists r, Book.average_rating b = Some r /\ (400 <= r)%Z) /\
     (Book.book_id b ∉ ids) /\
     forall r, r ∈ P -> Book.book_id (book r) <> Book.book_id b).
  { intros b. unfold T. rewrite elem_of_order_by_desc, list_elem_of_filter.
    unfold excl. rewrite not_elem_of_app, rating_at_least_4, list_elem_of_fmap.
    split.
    - intros ((? & ? & ? & Hq) & ?). split_and!; try done.
      intros r Hr Heq. apply Hq. by exists r.
    - intros (? & ? & ? & ? & Hq). split_and!; try done.
      intros (r & Heq & Hr). by apply (Hq r). }
  assert (HPsub : P `sublist_of` recs).
  { unfold P, priority_only. etrans; [apply sublist_take|apply sublist_filter]. }
  assert (HndT : NoDup (Book.id <$> T)).
  { unfold T. rewrite order_by_desc_Permutation.
    eapply sublist_NoDup; [exact Hnd|]. apply fmap_sublist, sublist_filter. }
  exists recs, P, T. split_and!; try done.
  - rewrite (user_recommendations_personalized db username u recs Hu
               profile_has_loans Hrecs).
    unfold final_recommendations, priority_only. rewrite Hcount.
    destruct (Nat.ltb_spec (length (filter (fun b => (2 <= t b)%Z) pool)) 10);
      [done|lia].
  - intros r Hr. by destruct (Hscores r Hr) as (_ & ? & ?).
  - by apply NoDup_fmap_1 in HndT.
  - intros i a b Hia Hib. apply popular_order.
    apply (Sorted_adjacent _ _ _ _ _ (order_by_desc_Sorted popular_key _) Hia Hib).
  - rewrite length_app, !length_fmap. unfold P. rewrite !length_take. lia.
  - rewrite !fmap_app, <-!list_fmap_compose. simpl.
    apply NoDup_app. split_and!.
    + eapply sublist_NoDup; [by eapply (recs_NoDup_ids db user_loans recs Hrecs)|].
      rewrite <-list_fmap_compose. by apply fmap_sublist.
    + intros x (r & -> & Hr)%list_elem_of_fmap (b & Hx & Hb)%list_elem_of_fmap.
      simpl in *.
      assert (Hb' : b ∈ T) by (eapply elem_of_sublist; [done|apply sublist_take]).
      apply HT in Hb' as (Hbdb & _ & _ & _ & Hq).
      assert (Hr' : r ∈ recs) by (by eapply elem_of_sublist).
      destruct (Hscores r Hr') as (Hrdb & _).
      apply (Hq r Hr). f_equal.
      by apply (NoDup_fmap_eq Book.id (books db)).
    + eapply sublist_NoDup; [exact HndT|]. apply fmap_sublist, sublist_take.
Qed.
End branches.

(** C2 (the code departs from it). On a catalogue whose primary keys
    differ from its catalogue numbers, for a user with loans and a sparse
    profile: the books the user has read have the catalogue numbers 10 and
    20, and by the rule of the claim the unread candidates of tier 2 or
    more are the rows 4 and 3, fewer than ten.  The view excludes the
    values of the foreign key of the loans, 1 and 2, from the catalogue
    numbers: it returns the read book 10 first, as a priority row of tier
    4, then the row 3, then the read book 20 as a supplemental book, and
    it leaves out the unread row 4, the best candidate. *)
Theorem sparse_branch_returns_read_books :
  loans_of reread_db "ana" <> [] /\
  readBookIds reread_db "ana" = [10; 20]%Z /\
  Book.id <$>
    filter (fun b => (2 <= tier (read_authors reread_db (loans_of reread_db "ana"))
                               (read_publishers reread_db (loans_of reread_db "ana"))
                               (avg_rating reread_db (loans_of reread_db "ana"))
                               b)%Z)
           (filter (fun b => Book.is_available b = true /\
                             Book.book_id b ∉ readBookIds reread_db "ana")
                   (books reread_db))
  = [3; 4]%Z /\
  exists c,
    user_recommendations reread_db "ana" = ret c /\
    ((fun e => (Book.id (entry_book e), Book.book_id (entry_book e),
                entry_score e)) <$> Recommendations.books c)
    = [(1, 10, Some 4); (3, 30, Some 3); (2, 20, None)]%Z.
Proof.
  split; [vm_compute; discriminate|]. split; [vm_compute; reflexivity|].
  split; [vm_compute; reflexivity|].
  destruct (user_recommendations reread_db "ana") as [e|c] eqn:E;
    vm_compute in E; [discriminate|].
  injection E as <-. eexists. split; reflexivity.
Qed.

(** C3 (the code departs from it). For a user with one loan, of a book
    whose publisher is not recorded, twelve unread available books by the
    author of that book score tier 3 by the rule of the claim, at least
    ten: the claim gives the user these books in rating order.  The view
    gives no list: without a known publisher the scoring expression is
    not built and the request fails with [ValueError]. *)
Theorem dense_branch_fails_without_publisher :
  loans_of nopub_dense_db "ana" <> [] /\
  readBookIds nopub_dense_db "ana" = [1%Z] /\
  10 <= length
          (filter (fun b => (2 <= tier (read_authors nopub_dense_db
                                          (loans_of nopub_dense_db "ana"))
                                       (read_publishers nopub_dense_db
                                          (loans_of nopub_dense_db "ana"))
                                       (avg_rating nopub_dense_db
                                          (loans_of nopub_dense_db "ana"))
                                       b)%Z)
                  (filter (fun b => Book.is_available b = true /\
                                    Book.book_id b ∉
                                      readBookIds nopub_dense_db "ana")
                          (books nopub_dense_db))) /\
  user_recommendations nopub_dense_db "ana" = raise ValueError.
Proof.
  split; [vm_compute; discriminate|]. split; [vm_compute; reflexivity|].
  split; [vm_compute; lia|]. vm_compute. reflexivity.
Qed.

Lemma cold_start_for_bea :
  users jane_db !! "bea" = Some (a_user "bea") /\
  loans_of jane_db "bea" = [] /\
  user_recommendations jane_db "bea" =
    ret (Recommendations.mk (Plain <$> cold_start_books jane_db) (a_user "bea")
           false 0 None None).
Proof.
  split; [vm_compute; reflexivity|]. split; [vm_compute; reflexivity|].
  apply (cold_start_for_user_without_loans jane_db "bea" (a_user "bea"));
    vm_compute; reflexivity.
Defined.

Lemma dense_branch_for_ana :
  exists recs c,
    user_recommendations dense_db "ana" = ret c /\
    Recommendations.books c = Annotated <$> take 30 recs /\
    Recommendations.priority_count c = Some 40 /\
    length (Recommendations.books c) = 30.
Proof.
  destruct (dense_branch_is_top_30 dense_db "ana" (a_user "ana"))
    as (recs & Hrecs & Hperm & _).
  - vm_compute. reflexivity.
  - refine (bool_decide_unpack _ _). vm_compute. exact I.
  - refine (bool_decide_unpack _ _). vm_compute. exact I.
  - vm_compute. lia.
  - exists recs. eexists. split; [exact Hrecs|]. split; [reflexivity|].
    split; [vm_compute; reflexivity|]. simpl.
    rewrite length_fmap, length_take, <-(length_fmap book recs), Hperm.
    vm_compute. lia.
Defined.

Lemma sparse_branch_for_ana :
  exists c,
    user_recommendations jane_db "ana" = ret c /\
    length (Recommendations.books c) <= 30 /\
    ((fun e => (Book.id (entry_book e), entry_score e))
       <$> Recommendations.books c)
    = [(2, Some 4); (3, Some 3); (4, Some 2); (5, None)]%Z.
Proof.
  destruct (sparse_branch_is_priority_then_popular jane_db "ana" (a_user "ana"))
    as (recs & P & T & Hret & _ & _ & _ & _ & _ & _ & _ & Hlen & _).
  - vm_compute. reflexivity.
  - refine (bool_decide_unpack _ _). vm_compute. exact I.
  - refine (bool_decide_unpack _ _). vm_compute. exact I.
  - refine (bool_decide_unpack _ _). vm_compute. exact I.
  - vm_compute. lia.
  - eexists. split; [exact Hret|]. split; [exact Hlen|].
    set (shown := fun r : result Recommendations.context =>
                    match r with
                    | inr c => (fun e => (Book.id (entry_book e), entry_score e))
                                 <$> Recommendations.books c
                    | inl _ => []
                    end).
    transitivity (shown (user_recommendations jane_db "ana")).
    + by rewrite Hret.
    + vm_compute. reflexivity.
Defined.

(** *** The scoring rule on the three books of the example *)

(** The profile read from one loan of "Jane Doe" published by "Acme"
    gives tier 4 to a book by "Jane Doe, John Smith" at "Acme", tier 3 to
    one by "Jane Doe" at "Other Press", tier 2 to one by "Unknown Author"
    at "Acme"; the view returns them in this order. *)
Lemma tier_examples :
  read_authors jane_db (loans_of jane_db "ana") = {[ "Jane Doe" ]} /\
  read_publishers jane_db (loans_of jane_db "ana") = {[ "Acme" ]} /\
  (forall avg,
     tier {[ "Jane Doe" ]} {[ "Acme" ]} avg
          (a_book 2 2 "Jane Doe, John Smith" (Some "Acme") (Some 300%Z) true) = 4%Z /\
     tier {[ "Jane Doe" ]} {[ "Acme" ]} avg
          (a_book 3 3 "Jane Doe" (Some "Other Press") (Some 300%Z) true) = 3%Z /\
     tier {[ "Jane Doe" ]} {[ "Acme" ]} avg
          (a_book 4 4 "Unknown Author" (Some "Acme") (Some 300%Z) true) = 2%Z) /\
  (fun r => (Book.authors (book r), priority_score r)) <$> take 3 jane_recs =
    [ ("Jane Doe, John Smith", 4%Z); ("Jane Doe", 3%Z); ("Unknown Author", 2%Z) ].
Proof.
  split; [vm_compute; reflexivity|]. split; [vm_compute; reflexivity|].
  split; [|vm_compute; reflexivity].
  intros avg. unfold tier, authorMatch, publisherMatch.
  rewrite !elements_singleton. by vm_compute.
Qed.

(** The view of a user with loans fails whenever the loaned books leave
    the set of authors or the set of publishers empty. *)
Lemma user_recommendations_empty_profile db username u :
  users db !! username = Some u -> loans_of db username <> [] ->
  read_authors db (loans_of db username) = ∅ \/
  read_publishers db (loans_of db username) = ∅ ->
  user_recommendations db username = raise ValueError.
Proof.
  intros Hu Hl He. unfold user_recommendations, get_user_or_404.
  rewrite Hu. simpl. rewrite bool_decide_eq_false_2 by done.
  unfold scored_candidates. by rewrite priority_case_empty.
Qed.

(** Otherwise every eligible book is given the tier of the rule. *)
Lemma user_recommendations_tiers db username u :
  users db !! username = Some u -> loans_of db username <> [] ->
  read_authors db (loans_of db username) <> ∅ ->
  read_publishers db (loans_of db username) <> ∅ ->
  exists recs,
    scored_candidates db (loans_of db username) = ret recs /\
    forall r, r ∈ recs ->
      priority_score r =
        tier (read_authors db (loans_of db username))
             (read_publishers db (loans_of db username))
             (avg_rating db (loans_of db username)) (book r).
Proof.
  intros Hu Hl Ha Hp.
  destruct (scored_candidates_total _ _ Ha Hp) as [recs Hrecs].
  exists recs. split; [done|]. intros r Hr.
  eapply elem_of_recs in Hr as (-> & _); [|done]. done.
Qed.

(** C1 (the code departs from it). Ana has one loan, of a book by
    "Jane Doe" whose publisher is not recorded. The rule of the claim
    gives tier 3 to the available book by "Jane Doe"; the view raises
    [ValueError] instead of scoring it, because the [When] of the
    publisher rule is handed an empty [Q] (and the condition of the first
    [When], meant for tier 4, has become the author condition alone). *)
Theorem no_tier_without_known_publisher :
  read_authors nopub_db (loans_of nopub_db "ana") = {[ "Jane Doe" ]} /\
  read_publishers nopub_db (loans_of nopub_db "ana") = ∅ /\
  (forall avg,
     tier {[ "Jane Doe" ]} ∅ avg
          (a_book 2 2 "Jane Doe" (Some "Other Press") (Some 300%Z) true) = 3%Z) /\
  a_book 2 2 "Jane Doe" (Some "Other Press") (Some 300%Z) true
    ∈ eligible nopub_db (read_book_ids (loans_of nopub_db "ana")) /\
  q_and (author_conditions {[ "Jane Doe" ]}) (publisher_conditions ∅)
    = author_conditions {[ "Jane Doe" ]} /\
  When (publisher_conditions ∅) 2 = raise ValueError /\
  scored_candidates nopub_db (loans_of nopub_db "ana") = raise ValueError /\
  user_recommendations nopub_db "ana" = raise ValueError.
Proof.
  split; [vm_compute; reflexivity|]. split; [vm_compute; reflexivity|].
  split.
  { intros avg. unfold tier, authorMatch, publisherMatch.
    rewrite elements_singleton, elements_empty. by vm_compute. }
  split; [|split_and!; vm_compute; reflexivity].
  apply list_elem_of_filter. split; [split; [done|]|].
  - change (read_book_ids (loans_of nopub_db "ana")) with [1%Z].
    by intros [=]%list_elem_of_singleton.
  - apply list_elem_of_further, list_elem_of_here.
Qed.

(** ** The exclusion of the books already read *)

(** What the main query and the supplementary one do guarantee. *)
Lemma recommended_books_available db username c :
  user_recommendations db username = ret c ->
  Forall (fun e => entry_book e ∈ books db /\
                   Book.is_available (entry_book e) = true /\
                   (Book.book_id (entry_book e)
                      ∉ read_book_ids (loans_of db username)))
         (Recommendations.books c).
Proof.
  unfold user_recommendations, get_user_or_404.
  destruct (users db !! username) as [u|]; [simpl|done].
  case_bool_decide as Hl.
  - intros [= <-]. simpl. rewrite Hl. apply Forall_fmap, Forall_take, Forall_forall.
    intros b. rewrite elem_of_order_by_desc, list_elem_of_filter. simpl.
    intros [? ?]. split_and!; [done..|]. apply not_elem_of_nil.
  - intros (recs & Hrecs & [= <-])%bind_ret. simpl.
    unfold final_recommendations.
    assert (Hall : Forall (fun r => book r ∈ books db /\
                     Book.is_available (book r) = true /\
                     (Book.book_id (book r) ∉ read_book_ids (loans_of db username)))
                   recs).
    { apply Forall_forall. intros r Hr.
      eapply elem_of_recs in Hr as (_ & ? & ? & ?); done. }
    destruct (Nat.ltb _ _).
    + apply Forall_app. split.
      * apply Forall_fmap, Forall_take. unfold priority_only.
        apply Forall_forall. intros r [_ Hr]%list_elem_of_filter.
        rewrite Forall_forall in Hall. by apply Hall.
      * apply Forall_fmap, Forall_take, Forall_forall. intros b.
        rewrite elem_of_order_by_desc, list_elem_of_filter, not_elem_of_app.
        simpl. tauto.
    + apply Forall_fmap, Forall_take. done.
Qed.

(** The excluded ids are the catalogue numbers of the loaned books when
    every loan points at a row and keys and catalogue numbers coincide. *)
Lemma read_book_ids_when_keys_coincide db username :
  Forall (fun b => Book.id b = Book.book_id b) (books db) ->
  Forall (fun l => is_Some (loan_book db l)) (loans_of db username) ->
  readBookIds db username = read_book_ids (loans_of db username).
Proof.
  intros Hk Hfk. unfold readBookIds, read_book_ids, loaned_books.
  induction Hfk as [|l ls [b Hb] _ IH]; [done|].
  rewrite fmap_cons, <-IH.
  change (omap (loan_book db) (l :: ls))
    with (match loan_book db l with
          | Some y => y :: omap (loan_book db) ls
          | None => omap (loan_book db) ls
          end).
  rewrite Hb, fmap_cons. f_equal.
  unfold loan_book in Hb. apply find_some in Hb as [Hin Heq].
  apply Z.eqb_eq in Heq. rewrite <-Heq. symmetry.
  rewrite Forall_forall in Hk. apply Hk. by apply list_elem_of_In.
Qed.

(** C5 (the code departs from it). Ana has borrowed and returned the
    book of catalogue number 10, stored in the row of key 1. The ids
    excluded by the view are the keys of the loaned rows, [1], not their
    catalogue numbers, [10]: the book she has read is recommended to her
    again, with the highest tier, and the book of catalogue number 1, which
    she has not read, is left out. *)
Theorem read_book_is_recommended_again :
  readBookIds returned_db "ana" = [10%Z] /\
  read_book_ids (loans_of returned_db "ana") = [1%Z] /\
  exists c,
    user_recommendations returned_db "ana" = ret c /\
    (fun e => (Book.book_id (entry_book e), entry_score e))
      <$> Recommendations.books c = [ (10%Z, Some 4%Z) ] /\
    exists e, e ∈ Recommendations.books c /\
              Book.book_id (entry_book e) ∈ readBookIds returned_db "ana".
Proof.
  split; [vm_compute; reflexivity|]. split; [vm_compute; reflexivity|].
  destruct (user_recommendations returned_db "ana") as [e|c] eqn:E;
    vm_compute in E; [discriminate|].
  injection E as <-. eexists. split; [reflexivity|].
  split; [vm_compute; reflexivity|].
  eexists. split; [apply list_elem_of_here|]. vm_compute. apply list_elem_of_here.
Qed.

(** ** The average of the ratings of the loaned books *)

Lemma Avg_None vals : Avg vals = None <-> Forall (fun v => v = None) vals.
Proof.
  unfold Avg. split.
  - destruct (omap id vals) as [|x xs] eqn:E; [intros _|done].
    apply Forall_forall. intros [v|] Hv; [|done].
    assert (v ∈ omap id vals) as Hin by (apply list_elem_of_omap; eauto).
    rewrite E in Hin. by apply elem_of_nil in Hin.
  - intros Hall. assert (omap id vals = []) as ->; [|done].
    induction Hall as [|v vals -> _ IH]; [done|]. exact IH.
Qed.

(** Without any rated book among the loans the average is 3.5. *)
Lemma avg_rating_default db user_loans :
  Forall (fun b => Book.average_rating b = None) (loaned_books db user_loans) ->
  avg_rating db user_loans = 7 # 2.
Proof.
  intros Hall. unfold avg_rating.
  assert (Avg (Book.average_rating <$> loaned_books db user_loans) = None) as ->;
    [|done].
  apply Avg_None, Forall_fmap. done.
Qed.

(** A mean that is not zero is the average. *)
Lemma avg_rating_mean db user_loans m :
  Avg (Book.average_rating <$> loaned_books db user_loans) = Some m ->
  ~ m == 0 -> avg_rating db user_loans = m.
Proof.
  intros Hm Hnz. unfold avg_rating. rewrite Hm. simpl.
  destruct (Qeq_bool m 0) eqn:E; [|done]. by apply Qeq_bool_eq in E.
Qed.

(** A mean of zero is not. *)
Lemma avg_rating_zero db user_loans m :
  Avg (Book.average_rating <$> loaned_books db user_loans) = Some m ->
  m == 0 -> avg_rating db user_loans = 7 # 2.
Proof.
  intros Hm Hz. unfold avg_rating. rewrite Hm. simpl.
  by rewrite (Qeq_eq_bool _ _ Hz).
Qed.

(** C6 (the code departs from it). Ana's only loan is of a book whose
    rating is defined and is 0.00. The mean of the defined ratings of her
    loaned books is 0; the view takes 3.5, the default meant for a history
    without any rating, because [or] treats a zero as missing. *)
Theorem zero_mean_replaced_by_default :
  Book.average_rating <$> loaned_books unrated_db (loans_of unrated_db "ana")
    = [Some 0%Z] /\
  (exists m, Avg [Some 0%Z] = Some m /\ m == 0) /\
  avg_rating unrated_db (loans_of unrated_db "ana") = 7 # 2 /\
  exists c, user_recommendations unrated_db "ana" = ret c /\
            Recommendations.avg_rating_preference c = Some (7 # 2).
Proof.
  split; [vm_compute; reflexivity|]. split.
  { eexists. split; [reflexivity|]. by vm_compute. }
  split; [vm_compute; reflexivity|].
  destruct (user_recommendations unrated_db "ana") as [e|c] eqn:E;
    vm_compute in E; [discriminate|].
  injection E as <-. eexists. split; reflexivity.
Qed.

(** ** Thresholds that do not parse *)

Lemma InvalidOperation_not_caught {A} (handler : A) :
  try_except (raise InvalidOperation) [ValueError; TypeError] handler
    = raise InvalidOperation.
Proof. done. Qed.

(** The sibling conversion in [return_book] is guarded as intended:
    [float] signals a malformed string with [ValueError], which is caught,
    and the rating keeps its value. *)
Lemma unparsable_rating_is_ignored (F : Type) (float : string -> option F)
    (adapt : F -> result Z) request l s :
  POST_data request !! "rating" = Some s -> float s = None ->
  posted_rating F float adapt request l = ret (Loan.user_rating l).
Proof.
  intros Hs Hf. unfold posted_rating. rewrite Hs, Hf. by destruct (nonempty s).
Qed.

(** C7 (the code departs from it). A non-empty threshold that
    [Decimal] cannot read makes the constructor raise
    [decimal.InvalidOperation]; the handlers of [home] and of
    [user_dashboard] list [ValueError] and [TypeError] only, so the
    exception leaves the view and the request is aborted instead of the
    filter being skipped. *)
Theorem unparsable_threshold_aborts (Decimal : string -> option decimal)
    (search : string -> list Book.t -> list Book.t)
    (request : HttpRequest) (db : DB) (s : string) :
  Decimal s = None -> s <> "" ->
  (GET_data request !! "min_rating" = Some s ->
   home Decimal search request db = raise InvalidOperation) /\
  (forall username u,
     GET_data request !! "rating_filter" = Some s ->
     users db !! username = Some u ->
     user_dashboard Decimal request username db = raise InvalidOperation).
Proof.
  intros Hd Hs.
  assert (Hne : nonempty s = true).
  { unfold nonempty. by destruct (String.eqb_spec s ""). }
  split.
  - intros Hget. unfold home.
    assert (get_or_empty (GET_data request) "min_rating" = s) as ->
      by (unfold get_or_empty; by rewrite Hget).
    rewrite Hne. unfold Decimal_of_str. rewrite Hd. done.
  - intros username u Hget Hu. unfold user_dashboard.
    rewrite Hu, Hget, Hne. unfold Decimal_of_str. rewrite Hd. done.
Qed.

Lemma abc_threshold_aborts :
  plain_Decimal "abc" = None /\
  home plain_Decimal (fun _ bs => bs) (get_query "min_rating" "abc") jane_db
    = raise InvalidOperation /\
  user_dashboard plain_Decimal (get_query "rating_filter" "abc") "ana" jane_db
    = raise InvalidOperation.
Proof.
  split; [reflexivity|].
  pose proof (unparsable_threshold_aborts plain_Decimal (fun _ bs => bs)) as H.
  split.
  - apply (H (get_query "min_rating" "abc") jane_db "abc");
      [reflexivity|discriminate|vm_compute; reflexivity].
  - apply (H (get_query "rating_filter" "abc") jane_db "abc" eq_refl
             ltac:(discriminate)) with (u := a_user "ana");
      vm_compute; reflexivity.
Defined.

(** ** Borrowing and returning *)

Section overwrite.
Context {A : Type} (key : A -> Z) (new : A).

Lemma key_overwrite r : key (overwrite key new r) = key r.
Proof. unfold overwrite. by case_bool_decide. Qed.

Lemma fmap_key_overwrite (l : list A) :
  key <$> (overwrite key new <$> l) = key <$> l.
Proof.
  rewrite <-list_fmap_compose. apply list_fmap_ext. intros _ r _.
  apply key_overwrite.
Qed.

Lemma overwrite_absent (l : list A) :
  key new ∉ key <$> l -> overwrite key new <$> l = l.
Proof.
  intros Hn. rewrite <-(list_fmap_id l) at 2. apply list_fmap_ext.
  intros _ r Hr%list_elem_of_lookup_2. unfold overwrite.
  case_bool_decide as E; [|done]. destruct Hn. rewrite <-E.
  by apply list_elem_of_fmap_2.
Qed.

(** Overwriting the row [old] changes a count by what [old] and [new]
    contribute to it. *)
Lemma count_overwrite (P : A -> Prop) `{forall x, Decision (P x)}
    (l : list A) (old : A) :
  NoDup (key <$> l) -> old ∈ l -> key old = key new ->
  length (filter P (overwrite key new <$> l)) + (if decide (P old) then 1 else 0) =
  length (filter P l) + (if decide (P new) then 1 else 0).
Proof.
  intros Hnd Hin Hk. induction l as [|r l IH]; [by apply elem_of_nil in Hin|].
  simpl in Hnd. apply NoDup_cons in Hnd as [Hr Hnd].
  apply elem_of_cons in Hin as [->|Hin].
  - rewrite fmap_cons, overwrite_absent by (by rewrite <-Hk).
    unfold overwrite. rewrite bool_decide_eq_true_2 by done.
    rewrite !filter_cons. destruct (decide (P new)), (decide (P r)); simpl; lia.
  - assert (key r <> key new).
    { intros E. destruct Hr. rewrite E, <-Hk. by apply list_elem_of_fmap_2. }
    rewrite fmap_cons. unfold overwrite at 1. rewrite bool_decide_eq_false_2 by done.
    rewrite !filter_cons. specialize (IH Hnd Hin).
    destruct (decide (P r)); simpl; lia.
Qed.
End overwrite.

Lemma with_year_id b : Book.id (with_year b) = Book.id b.
Proof.
  unfold with_year.
  by destruct (Book.publication_date b), (Book.publication_year b) as [[| |]|].
Qed.

Lemma with_year_is_available b :
  Book.is_available (with_year b) = Book.is_available b.
Proof.
  unfold with_year.
  by destruct (Book.publication_date b), (Book.publication_year b) as [[| |]|].
Qed.

Lemma get_book_or_404_ret db book_id b :
  get_book_or_404 db book_id = ret b -> b ∈ books db /\ Book.book_id b = book_id.
Proof.
  unfold get_book_or_404, get_object_or_404.
  destruct (filter _ (books db)) as [|x [|y l]] eqn:E; [done| |done].
  intros [= ->].
  assert (Hb : b ∈ filter (fun b => Book.book_id b = book_id) (books db))
    by (rewrite E; apply list_elem_of_here).
  apply list_elem_of_filter in Hb. tauto.
Qed.

Lemma get_book_or_404_raises db book_id e :
  get_book_or_404 db book_id = raise e -> e = Http404 \/ e = MultipleObjectsReturned.
Proof.
  unfold get_book_or_404, get_object_or_404.
  destruct (filter _ (books db)) as [|x [|y l]]; intros [= <-]; auto.
Qed.

Lemma User_get_or_create_tables username email full_name db db1 u created :
  User_get_or_create username email full_name db = ret (db1, u, created) ->
  books db1 = books db /\ loans db1 = loans db /\
  users db1 !! username = Some u.
Proof.
  unfold User_get_or_create. destruct (users db !! username) as [u'|] eqn:E.
  - intros [= <- <- <-]. done.
  - destruct (_ <? _)%nat; [done|]. case_bool_decide; [done|].
    intros [= <- <- <-]. simpl. by rewrite lookup_insert_eq.
Qed.

Lemma foldr_max_ge (x : Z) (l : list Z) : x ∈ l -> (x <= foldr Z.max 0 l)%Z.
Proof.
  induction l as [|y l IH]; [by intros ?%elem_of_nil|].
  intros [->|Hx]%elem_of_cons; simpl; [lia|]. specialize (IH Hx). lia.
Qed.

Lemma fresh_loan_id_fresh db : fresh_loan_id db ∉ Loan.id <$> loans db.
Proof.
  intros Hin%foldr_max_ge. unfold fresh_loan_id in Hin. lia.
Qed.

(** What a borrow does to the store, when it does anything. *)
Lemma borrow_book_effect now request book_id db :
  (borrow_book now request book_id db).1 = db /\
  (borrow_book now request book_id db).2 <> ret (redirect "home" None) \/
  exists b user db1,
    get_book_or_404 db book_id = ret b /\ Book.is_available b = true /\
    books db1 = books db /\ loans db1 = loans db /\
    borrow_book now request book_id db =
      (Book_save (set_is_available false b)
         (Loan_create user b now (now + days 14) db1),
       ret (redirect "home" None)).
Proof.
  unfold borrow_book.
  destruct (get_book_or_404 db book_id) as [e|b] eqn:Hb; [by left|].
  destruct (method request); [by left|].
  destruct (Book.is_available b) eqn:Ha; [|by left].
  destruct (negb _); [by left|].
  destruct (User_get_or_create _ _ _ db) as [e|[[db1 user] created]] eqn:Hu;
    [by left|].
  apply User_get_or_create_tables in Hu as (? & ? & _).
  right. by exists b, user, db1.
Qed.

(** What a return does to the store, when it does anything. *)
Lemma return_book_effect (F : Type) (float : string -> option F)
    (adapt : F -> result Z) now request book_id db :
  (return_book F float adapt now request book_id db).1 = db /\
  (forall name, (return_book F float adapt now request book_id db).2
                  <> ret (redirect "user_dashboard" (Some name))) \/
  exists b l rating,
    get_book_or_404 db book_id = ret b /\ open_loan db b = Some l /\
    return_book F float adapt now request book_id db =
      (Book_save (set_is_available true b)
         (Loan_save (Loan.mk (Loan.id l) (Loan.user l) (Loan.book_id l)
                             (Loan.borrowed_date l) (Loan.due_date l)
                             (Some now) true rating) db),
       redirect_user_dashboard (Loan.user l)).
Proof.
  unfold return_book.
  destruct (get_book_or_404 db book_id) as [e|b] eqn:Hb; [by left|].
  destruct (open_loan db b) as [l|] eqn:Hl; [|by left].
  destruct (method request); [by left|].
  destruct (posted_rating _ _ _ _ _) as [e|rating]; [by left|].
  right. by exists b, l, rating.
Qed.

Lemma open_loan_Some db b l :
  open_loan db b = Some l ->
  l ∈ loans db /\ Loan.book_id l = Book.id b /\ Loan.is_returned l = false.
Proof.
  unfold open_loan. intros Hl%head_Some_elem_of.
  apply elem_of_order_by_desc, list_elem_of_filter in Hl. tauto.
Qed.

Lemma strong_implies_stated db :
  availability_counts_open_loans db -> unavailable_iff_one_open_loan db.
Proof.
  intros H. eapply Forall_impl; [exact H|]. simpl. intros b ->.
  destruct (Book.is_available b); split; done.
Qed.

Section preservation.
Context (db : DB).
Hypothesis Hkeys : keys_unique db.
Hypothesis Hinv : availability_counts_open_loans db.

Lemma same_row (b r : Book.t) :
  b ∈ books db -> r ∈ books db -> Book.id r = Book.id b -> r = b.
Proof using Hkeys.
  destruct Hkeys as [Hk _]. intros Hb Hr E.
  by apply (NoDup_fmap_eq Book.id (books db)).
Qed.

Lemma open_loans_of_row b :
  b ∈ books db -> open_loans db b = if Book.is_available b then 0 else 1.
Proof using Hinv.
  intros Hb. unfold availability_counts_open_loans in Hinv.
  rewrite Forall_forall in Hinv. by apply Hinv.
Qed.

(** A loan is created for an available row, which is marked unavailable. *)
Lemma borrow_preserves b user db1 now due :
  b ∈ books db -> Book.is_available b = true ->
  books db1 = books db -> loans db1 = loans db ->
  keys_unique (Book_save (set_is_available false b)
                 (Loan_create user b now due db1)) /\
  availability_counts_open_loans
    (Book_save (set_is_available false b) (Loan_create user b now due db1)).
Proof using Hkeys Hinv.
  intros Hb Ha Hbooks Hloans. destruct Hkeys as [Hkb Hkl]. split.
  - split; simpl.
    + by rewrite fmap_key_overwrite, Hbooks.
    + rewrite fmap_app, Hloans. simpl. apply NoDup_app. split_and!; [done| |].
      * intros x Hx Hin. apply list_elem_of_singleton in Hin as ->.
        apply (fresh_loan_id_fresh db1). by rewrite Hloans.
      * apply NoDup_singleton.
  - unfold availability_counts_open_loans. simpl.
    apply Forall_fmap, Forall_forall. intros r Hr. rewrite Hbooks in Hr. simpl.
    unfold open_loans. simpl. rewrite Hloans, filter_app, length_app.
    rewrite key_overwrite. fold (open_loans db r).
    rewrite (open_loans_of_row r Hr). unfold overwrite.
    rewrite with_year_id. simpl. rewrite filter_cons, filter_nil. simpl.
    case_bool_decide as E.
    + rewrite (same_row b r Hb Hr E), Ha, with_year_is_available. simpl.
      rewrite decide_True by done. done.
    + rewrite decide_False by (intros [? _]; congruence).
      simpl. lia.
Qed.

(** The open loan of a row is closed and the row is marked available. *)
Lemma return_preserves b l now rating :
  b ∈ books db -> l ∈ loans db -> Loan.book_id l = Book.id b ->
  Loan.is_returned l = false ->
  keys_unique
    (Book_save (set_is_available true b)
       (Loan_save (Loan.mk (Loan.id l) (Loan.user l) (Loan.book_id l)
                     (Loan.borrowed_date l) (Loan.due_date l) (Some now) true
                     rating) db)) /\
  availability_counts_open_loans
    (Book_save (set_is_available true b)
       (Loan_save (Loan.mk (Loan.id l) (Loan.user l) (Loan.book_id l)
                     (Loan.borrowed_date l) (Loan.due_date l) (Some now) true
                     rating) db)) /\
  open_loans db b = 1.
Proof using Hkeys Hinv.
  intros Hb Hl Hlb Hopen. destruct Hkeys as [Hkb Hkl].
  set (l' := Loan.mk _ _ _ _ _ _ _ _).
  assert (Hcount : forall r : Book.t,
    length (filter (fun x => Loan.book_id x = Book.id r /\ Loan.is_returned x = false)
                   (overwrite Loan.id l' <$> loans db)) +
      (if decide (Book.id b = Book.id r) then 1 else 0) = open_loans db r).
  { intros r.
    pose proof (count_overwrite Loan.id l'
      (fun x => Loan.book_id x = Book.id r /\ Loan.is_returned x = false)
      (loans db) l Hkl Hl eq_refl) as Hc.
    rewrite (decide_False (P := _ l')) in Hc by (by intros [_ ?]).
    unfold open_loans. rewrite Nat.add_0_r in Hc. rewrite <-Hc. f_equal.
    destruct (decide (Book.id b = Book.id r)) as [E|E].
    - rewrite decide_True; [done|]. split; [congruence|done].
    - rewrite decide_False; [done|]. intros [? _]. congruence. }
  assert (Hone : open_loans db b = 1).
  { pose proof (Hcount b) as Hc. rewrite decide_True in Hc by done.
    rewrite (open_loans_of_row b Hb) in Hc |- *.
    destruct (Book.is_available b); lia. }
  split_and!; [| |done].
  - split; simpl; by rewrite fmap_key_overwrite.
  - unfold availability_counts_open_loans. simpl.
    apply Forall_fmap, Forall_forall. intros r Hr. simpl.
    unfold open_loans at 1. simpl. rewrite key_overwrite.
    pose proof (Hcount r) as Hc. unfold overwrite at 2.
    rewrite with_year_id. simpl. case_bool_decide as E.
    + rewrite with_year_is_available. simpl.
      rewrite decide_True in Hc by done.
      assert (r = b) as -> by (by apply same_row).
      rewrite Hone in Hc. lia.
    + rewrite decide_False in Hc by done.
      rewrite Nat.add_0_r in Hc. rewrite Hc. by apply open_loans_of_row.
Qed.
End preservation.

Lemma saved_row_present (b old : Book.t) (db : DB) :
  old ∈ books db -> Book.id old = Book.id b ->
  with_year b ∈ books (Book_save b db).
Proof.
  intros Hb Hid. simpl. apply list_elem_of_fmap. exists old. split; [|done].
  unfold overwrite. by rewrite with_year_id, bool_decide_eq_true_2.
Qed.

(** C9, as amended. With unique primary keys, "no book has two open
    loans, an available book has none and an unavailable one has exactly
    one" is preserved by every borrow and every return, and implies the
    predicate of the specification in the state reached. A borrow that
    succeeds found the book available and without open loan, adds one loan
    and leaves the row unavailable with one open loan; a return that
    succeeds found one open loan and leaves the row available with none. *)
Theorem loan_invariant_preserved (F : Type) (float : string -> option F)
    (adapt : F -> result Z) (t : transition) (db : DB) :
  keys_unique db -> availability_counts_open_loans db ->
  keys_unique (step F float adapt t db) /\
  availability_counts_open_loans (step F float adapt t db) /\
  unavailable_iff_one_open_loan (step F float adapt t db) /\
  (forall now request book_id b,
     t = Borrow now request book_id ->
     get_book_or_404 db book_id = ret b ->
     (borrow_book now request book_id db).2 = ret (redirect "home" None) ->
     Book.is_available b = true /\ open_loans db b = 0 /\
     length (loans (step F float adapt t db)) = S (length (loans db)) /\
     exists b', b' ∈ books (step F float adapt t db) /\
                Book.id b' = Book.id b /\ Book.is_available b' = false /\
                open_loans (step F float adapt t db) b' = 1) /\
  (forall now request book_id b name,
     t = Return now request book_id ->
     get_book_or_404 db book_id = ret b ->
     (return_book F float adapt now request book_id db).2
       = ret (redirect "user_dashboard" (Some name)) ->
     open_loans db b = 1 /\
     length (loans (step F float adapt t db)) = length (loans db) /\
     exists b', b' ∈ books (step F float adapt t db) /\
                Book.id b' = Book.id b /\ Book.is_available b' = true /\
                open_loans (step F float adapt t db) b' = 0).
Proof.
  intros Hkeys Hinv.
  destruct t as [now request book_id|now request book_id]; simpl.
  - destruct (borrow_book_effect now request book_id db)
      as [[Heq Hne]|(b & user & db1 & Hb & Ha & Hbooks & Hloans & Heq)].
    + rewrite Heq. split_and!; [done|done|by apply strong_implies_stated| |].
      * intros ???? [= <- <- <-] _ ?. done.
      * intros ????? [=].
    + rewrite Heq. simpl fst.
      destruct (get_book_or_404_ret _ _ _ Hb) as [Hin _].
      destruct (borrow_preserves db Hkeys Hinv b user db1 now (now + days 14)
                  Hin Ha Hbooks Hloans) as [Hk' Hi'].
      split_and!; [done|done|by apply strong_implies_stated| |].
      * intros ? ? ? b0 [= <- <- <-] Hb0 _. rewrite Hb in Hb0.
        injection Hb0 as <-. split; [done|].
        split; [by rewrite (open_loans_of_row db Hinv b Hin), Ha|].
        split; [simpl; rewrite length_app, Hloans; simpl; lia|].
        exists (with_year (set_is_available false b)).
        assert (Hin' : with_year (set_is_available false b) ∈
                  books (Book_save (set_is_available false b)
                           (Loan_create user b now (now + days 14) db1))).
        { apply (saved_row_present _ b); [simpl; by rewrite Hbooks|done]. }
        split; [done|]. split; [by rewrite with_year_id|].
        split; [by rewrite with_year_is_available|].
        rewrite (open_loans_of_row _ Hi' _ Hin'). by rewrite with_year_is_available.
      * intros ????? [=].
  - destruct (return_book_effect F float adapt now request book_id db)
      as [[Heq Hne]|(b & l & rating & Hb & Hl & Heq)].
    + rewrite Heq. split_and!; [done|done|by apply strong_implies_stated| |].
      * intros ???? [=].
      * intros ? ? ? ? name [= <- <- <-] _ ?. by destruct (Hne name).
    + rewrite Heq. simpl fst.
      destruct (get_book_or_404_ret _ _ _ Hb) as [Hin _].
      destruct (open_loan_Some _ _ _ Hl) as (Hlin & Hlb & Hopen).
      destruct (return_preserves db Hkeys Hinv b l now rating Hin Hlin Hlb Hopen)
        as (Hk' & Hi' & Hone).
      split_and!; [done|done|by apply strong_implies_stated| |].
      * intros ???? [=].
      * intros ? ? ? b0 name [= <- <- <-] Hb0 _. rewrite Hb in Hb0.
        injection Hb0 as <-. split; [done|].
        split; [simpl; by rewrite length_fmap|].
        exists (with_year (set_is_available true b)).
        match goal with |- _ ∈ books ?d /\ _ =>
          assert (Hin' : with_year (set_is_available true b) ∈ books d)
            by (by apply (saved_row_present _ b)) end.
        split; [done|]. split; [by rewrite with_year_id|].
        split; [by rewrite with_year_is_available|].
        rewrite (open_loans_of_row _ Hi' _ Hin'). by rewrite with_year_is_available.
Qed.

Lemma loan_invariant_on_a_borrow :
  keys_unique jane_db /\ availability_counts_open_loans jane_db /\
  unavailable_iff_one_open_loan
    (step Q plain_decimal adapt_tenths
          (Borrow 0 (post_form "username" "bea") 2) jane_db).
Proof.
  assert (Hk : keys_unique jane_db).
  { split; refine (bool_decide_unpack _ _); vm_compute; exact I. }
  assert (Hi : availability_counts_open_loans jane_db).
  { refine (bool_decide_unpack _ _). vm_compute. exact I. }
  split; [exact Hk|]. split; [exact Hi|].
  apply (loan_invariant_preserved Q plain_decimal adapt_tenths
           (Borrow 0 (post_form "username" "bea") 2) jane_db Hk Hi).
Defined.

(** The predicate of the specification alone is not inductive: it holds
    of an available book with two open loans, and a borrow of that book
    leaves it unavailable with three. *)
Lemma stated_predicate_not_preserved :
  keys_unique double_loan_db /\
  unavailable_iff_one_open_loan double_loan_db /\
  ~ unavailable_iff_one_open_loan
      (borrow_book 0 (post_form "username" "cai") 1 double_loan_db).1.
Proof.
  split; [split; refine (bool_decide_unpack _ _); vm_compute; exact I|].
  split.
  - apply Forall_cons. split; [|by apply Forall_nil].
    split; intros H; vm_compute in H; discriminate.
  - intros H. unfold unavailable_iff_one_open_loan in H.
    rewrite Forall_forall in H.
    specialize (H (a_book 1 1 "Jane Doe" (Some "Acme") (Some 400%Z) false)).
    destruct H as [H _]; [vm_compute; apply list_elem_of_here|].
    specialize (H eq_refl). vm_compute in H. discriminate.
Qed.

(** ** The borrower of a loan *)

Lemma nonempty_iff s : nonempty s = true <-> s <> "".
Proof. unfold nonempty. destruct (String.eqb_spec s ""); split; done. Qed.

Lemma User_get_or_create_raises username email full_name db e :
  User_get_or_create username email full_name db = raise e ->
  e = DataError \/ e = IntegrityError.
Proof.
  unfold User_get_or_create. destruct (users db !! username); [done|].
  destruct (_ <? _)%nat; [intros [= <-]; by left|].
  case_bool_decide; [intros [= <-]; by right|done].
Qed.

(** C10, as amended. A borrow posted for an available book never fails
    for want of a user. With a username that is not empty once stripped,
    names no user, has at most 100 characters, and whose address
    [<username>@example.com] is not the address of a user, the user is
    created with that address and with the username as full name, and the
    loan is recorded for that user; when the column or the unique index on
    the address refuses the row, the request fails with a database error
    and changes nothing.  With an empty or blank username nothing is
    created and the book stays as it is. *)
Theorem borrow_creates_missing_user (now : Z) (request : HttpRequest)
    (book_id : Z) (db : DB) (b : Book.t) (username : string) :
  get_book_or_404 db book_id = ret b -> method request = POST ->
  Book.is_available b = true ->
  username = strip (get_or_empty (POST_data request) "username") ->
  (username <> "" /\ users db !! username = None /\
   String.length username <= 100 /\ (username +:+ "@example.com" ∉ emails db) ->
   exists db',
     borrow_book now request book_id db = (db', ret (redirect "home" None)) /\
     users db' =
       <[username := User.mk username (username +:+ "@example.com") username]>
         (users db) /\
     loans db' =
       loans db ++ [Loan.mk (fresh_loan_id db) username (Book.id b) now
                            (Some (now + days 14)%Z) None false None] /\
     exists b', b' ∈ books db' /\ Book.id b' = Book.id b /\
                Book.is_available b' = false) /\
  (username <> "" /\ users db !! username = None /\
   (100 < String.length username \/ username +:+ "@example.com" ∈ emails db) ->
   exists e, borrow_book now request book_id db = (db, raise e) /\
             (e = DataError \/ e = IntegrityError)) /\
  (username = "" ->
   exists msg, borrow_book now request book_id db =
                 (db, ret (render "borrow.html" (Some msg)))) /\
  (borrow_book now request book_id db).2 <> raise Http404.
Proof.
  intros Hb Hm Ha Hname. unfold borrow_book. rewrite Hb. simpl.
  rewrite Hm, Ha, <-Hname.
  split_and!.
  - intros (Hne & Hu & Hlen & Hmail).
    rewrite (proj2 (nonempty_iff username) Hne). simpl.
    unfold User_get_or_create. rewrite Hu.
    destruct (Nat.ltb_spec 100 (String.length username)); [lia|].
    rewrite bool_decide_eq_false_2 by done. simpl.
    eexists. split; [reflexivity|]. simpl. split; [done|]. split; [done|].
    exists (with_year (set_is_available false b)).
    split; [|by rewrite with_year_id, with_year_is_available].
    apply list_elem_of_fmap. exists b.
    split; [|by apply (get_book_or_404_ret _ _ _ Hb)].
    unfold overwrite. by rewrite with_year_id, bool_decide_eq_true_2.
  - intros (Hne & Hu & Hbad).
    rewrite (proj2 (nonempty_iff username) Hne). simpl.
    unfold User_get_or_create. rewrite Hu.
    destruct (Nat.ltb_spec 100 (String.length username)); [by eauto|].
    destruct Hbad as [?|Hmail]; [lia|].
    rewrite bool_decide_eq_true_2 by done. by eauto.
  - intros ->. simpl. by eauto.
  - destruct (negb (nonempty username)); [done|].
    destruct (User_get_or_create _ _ _ db) as [e|[[db1 u] c]] eqn:E; [|done].
    simpl. apply User_get_or_create_raises in E as [->| ->]; done.
Qed.

Lemma first_borrow_creates_ana :
  strip (get_or_empty (POST_data (post_form "username" " ana ")) "username") = "ana" /\
  users empty_db !! "ana" = None /\
  exists db',
    borrow_book 7 (post_form "username" " ana ") 1 empty_db
      = (db', ret (redirect "home" None)) /\
    users db' = {[ "ana" := User.mk "ana" "ana@example.com" "ana" ]} /\
    loans db' = [Loan.mk 1 "ana" 1 7 (Some (7 + days 14)%Z) None false None].
Proof.
  split; [reflexivity|]. split; [reflexivity|].
  destruct (borrow_creates_missing_user 7 (post_form "username" " ana ") 1
              empty_db
              (a_book 1 1 "Jane Doe" (Some "Acme") (Some 400%Z) true) "ana"
              eq_refl eq_refl eq_refl eq_refl) as [H _].
  destruct H as (db' & Hdb' & Hu & Hl & _).
  - split; [discriminate|]. split; [reflexivity|]. split; [vm_compute; lia|].
    vm_compute. intros H. inversion H.
  - exists db'. split; [exact Hdb'|]. split; [exact Hu|exact Hl].
Defined.

(** A username of 101 characters is not empty and names no user; the
    book is available; yet no user is created and no loan is recorded:
    the column [username] is a [varchar(100)]. *)
Lemma long_username_is_refused :
  get_book_or_404 empty_db 1
    = ret (a_book 1 1 "Jane Doe" (Some "Acme") (Some 400%Z) true) /\
  method (post_form "username" long_name) = POST /\
  strip (get_or_empty (POST_data (post_form "username" long_name)) "username")
    = long_name /\
  nonempty long_name = true /\
  users empty_db !! long_name = None /\
  borrow_book 0 (post_form "username" long_name) 1 empty_db
    = (empty_db, raise DataError) /\
  users (borrow_book 0 (post_form "username" long_name) 1 empty_db).1 !! long_name
    = None /\
  loans (borrow_book 0 (post_form "username" long_name) 1 empty_db).1 = [].
Proof. split_and!; vm_compute; reflexivity. Qed.

(* ================================================================= *)
(** * Further properties of the views *)

(** ** The failures of the recommendation view *)

Lemma split_not_nil sep s : split sep s <> [].
Proof.
  induction s as [|c s IH]; simpl; [done|].
  destruct (Ascii.eqb c sep); [done|]. by destruct (split sep s).
Qed.

Lemma read_authors_empty_iff db user_loans :
  read_authors db user_loans = ∅ <->
  Forall (fun b => Book.authors b = "") (loaned_books db user_loans).
Proof.
  unfold read_authors. induction (loaned_books db user_loans) as [|b bs IH].
  - split; [by constructor|done].
  - rewrite filter_cons, Forall_cons. destruct (decide (nonempty (Book.authors b) = true)) as [Hne|Hne].
    + split.
      * rewrite fmap_cons, union_list_cons. intros [Hb _]%empty_union_L.
        unfold authors_list in Hb.
        destruct (split "," (Book.authors b)) as [|x xs] eqn:E;
          [by apply split_not_nil in E|].
        rewrite fmap_cons, list_to_set_cons in Hb.
        apply empty_union_L in Hb as [Hb _].
        by apply (non_empty_singleton_L (strip x)) in Hb.
      * intros [Hb _]. apply nonempty_iff in Hne. done.
    + rewrite IH. split; [|tauto]. intros Hbs. split; [|done].
      destruct (decide (Book.authors b = "")) as [|Hb]; [done|].
      by apply nonempty_iff in Hb.
Qed.

Lemma read_publishers_empty_iff db user_loans :
  read_publishers db user_loans = ∅ <->
  Forall (fun b => Book.publisher b = None \/ Book.publisher b = Some "")
         (loaned_books db user_loans).
Proof.
  unfold read_publishers. induction (loaned_books db user_loans) as [|b bs IH].
  - split; [by constructor|done].
  - rewrite Forall_cons. destruct (Book.publisher b) as [p|] eqn:Hp.
    + change (omap Book.publisher (b :: bs))
        with (match Book.publisher b with
              | Some y => y :: omap Book.publisher bs
              | None => omap Book.publisher bs
              end).
      rewrite Hp, filter_cons.
      destruct (decide (nonempty p = true)) as [Hne|Hne].
      * rewrite list_to_set_cons. split.
        -- intros [Hb _]%empty_union_L.
           by apply (non_empty_singleton_L p) in Hb.
        -- intros [[|[= ->]] _]; done.
      * rewrite IH. split; [|tauto]. intros Hbs. split; [|done]. right.
        destruct (decide (p = "")) as [->|Hb]; [done|].
        by apply nonempty_iff in Hb.
    + change (omap Book.publisher (b :: bs))
        with (match Book.publisher b with
              | Some y => y :: omap Book.publisher bs
              | None => omap Book.publisher bs
              end).
      rewrite Hp, IH. split; [intros ?; split; [by left|done]|tauto].
Qed.

(** X1. The recommendation view fails in two ways only: with the
    not-found condition for an unknown username, and with [ValueError]
    for a user with loans none of whose books has an author, or none of
    whose books has a publisher. *)
Theorem recommendation_failures (db : DB) (username : string) (e : exn) :
  user_recommendations db username = raise e <->
  e = Http404 /\ users db !! username = None \/
  e = ValueError /\ is_Some (users db !! username) /\
  loans_of db username <> [] /\
  (Forall (fun b => Book.authors b = "")
          (loaned_books db (loans_of db username)) \/
   Forall (fun b => Book.publisher b = None \/ Book.publisher b = Some "")
          (loaned_books db (loans_of db username))).
Proof.
  rewrite <-read_authors_empty_iff, <-read_publishers_empty_iff.
  unfold user_recommendations, get_user_or_404.
  destruct (users db !! username) as [u|] eqn:Hu; simpl.
  - case_bool_decide as Hl.
    + split; [done|]. intros [[_ [=]]|(_ & _ & ? & _)]; done.
    + split.
      * intros [H|(recs & _ & [=])]%bind_raise.
        pose proof (scored_candidates_raises _ _ _ H) as ->.
        right. split_and!; [done|by eexists|done|].
        destruct (decide (read_authors db (loans_of db username) = ∅)); [by left|].
        destruct (decide (read_publishers db (loans_of db username) = ∅));
          [by right|].
        destruct (scored_candidates_total db (loans_of db username))
          as [recs Hrecs]; [done..|].
        rewrite Hrecs in H. done.
      * intros [[_ [=]]|(-> & _ & _ & He)].
        unfold scored_candidates. by rewrite priority_case_empty.
  - split; [intros [= <-]; by left|].
    intros [[-> _]|(_ & [? [=]] & _)]; done.
Qed.

(** X2. Whatever list the view returns, its annotated entries carry the
    tier of the first-match rule under the profile of the user's loans,
    and the number of loans of the book; in the sparse branch every
    annotated entry has tier 2 or more. *)
Theorem returned_scores_follow_the_rule (db : DB) (username : string)
    (c : Recommendations.context) (r : Scored) :
  user_recommendations db username = ret c ->
  Annotated r ∈ Recommendations.books c ->
  priority_score r =
    tier (read_authors db (loans_of db username))
         (read_publishers db (loans_of db username))
         (avg_rating db (loans_of db username)) (book r) /\
  popularity r = Count_loans db (book r) /\
  (forall n, Recommendations.priority_count c = Some n -> n < 10 ->
             (2 <= priority_score r)%Z).
Proof.
  unfold user_recommendations, get_user_or_404.
  destruct (users db !! username) as [u|]; [simpl|done].
  case_bool_decide as Hl.
  - intros [= <-]. simpl. by intros (b & [=] & _)%list_elem_of_fmap.
  - intros (recs & Hrecs & [= <-])%bind_ret. simpl.
    unfold final_recommendations.
    assert (Hin : r ∈ recs ->
      priority_score r = tier (read_authors db (loans_of db username))
         (read_publishers db (loans_of db username))
         (avg_rating db (loans_of db username)) (book r) /\
      popularity r = Count_loans db (book r)).
    { intros Hr. eapply elem_of_recs in Hr as (Heq & _); [|done].
      by rewrite Heq. }
    destruct (Nat.ltb_spec (length (priority_only recs)) 10) as [Hlt|Hge].
    + intros [Hr|Hr]%elem_of_app.
      * apply list_elem_of_fmap in Hr as (r' & [= <-] & Hr).
        assert (Hp : r ∈ priority_only recs)
          by (eapply elem_of_sublist; [done|apply sublist_take]).
        apply list_elem_of_filter in Hp as [Hp Hr'].
        destruct (Hin Hr') as [? ?]. split_and!; [done..|]. done.
      * by apply list_elem_of_fmap in Hr as (b & [=] & _).
    + intros (r' & [= <-] & Hr)%list_elem_of_fmap.
      assert (Hr' : r ∈ recs)
        by (eapply elem_of_sublist; [done|apply sublist_take]).
      destruct (Hin Hr') as [? ?]. split_and!; [done..|].
      intros n [= <-] ?. lia.
Qed.

Lemma returned_scores_for_ana :
  exists c, user_recommendations jane_db "ana" = ret c /\
            (forall r, Annotated r ∈ Recommendations.books c ->
                       popularity r = Count_loans jane_db (book r)).
Proof.
  destruct (user_recommendations jane_db "ana") as [e|c] eqn:E;
    [vm_compute in E; discriminate|].
  exists c. split; [done|]. intros r Hr.
  by destruct (returned_scores_follow_the_rule jane_db "ana" c r E Hr) as (_ & ? & _).
Defined.

(** X3. When every row's key equals its catalogue number and every loan
    points at a row, no book of a list the view returns is a book the
    user has a loan of. *)
Theorem no_read_book_when_keys_coincide (db : DB) (username : string)
    (c : Recommendations.context) :
  Forall (fun b => Book.id b = Book.book_id b) (books db) ->
  Forall (fun l => is_Some (loan_book db l)) (loans_of db username) ->
  user_recommendations db username = ret c ->
  Forall (fun e => Book.book_id (entry_book e) ∉ readBookIds db username)
         (Recommendations.books c).
Proof.
  intros Hk Hfk Hc. rewrite (read_book_ids_when_keys_coincide db username Hk Hfk).
  eapply Forall_impl; [by apply recommended_books_available|].
  simpl. tauto.
Qed.

Lemma no_read_book_for_ana :
  exists c, user_recommendations jane_db "ana" = ret c /\
    Forall (fun e => Book.book_id (entry_book e) ∉ readBookIds jane_db "ana")
           (Recommendations.books c).
Proof.
  destruct (user_recommendations jane_db "ana") as [e|c] eqn:E;
    [vm_compute in E; discriminate|].
  exists c. split; [done|].
  apply (no_read_book_when_keys_coincide jane_db "ana" c); [| |exact E].
  - refine (bool_decide_unpack _ _). vm_compute. exact I.
  - repeat constructor; by eexists.
Defined.

(** ** The catalogue page *)

Section home_properties.
Context (Decimal : string -> option decimal).
Context (search : string -> list Book.t -> list Book.t).

(** X4. A threshold [min_rating] that [Decimal] reads as a value that is
    not finite ([NaN], [Infinity]) passes the constructor and is refused
    when the lookup is built: [ValidationError] is neither [ValueError]
    nor [TypeError], so it leaves [home] and the request is aborted
    instead of the filter being skipped. *)
Theorem home_non_finite_threshold (request : HttpRequest) (db : DB) :
  get_or_empty (GET_data request) "min_rating" <> "" ->
  Decimal (get_or_empty (GET_data request) "min_rating") = Some non_finite ->
  home Decimal search request db = raise ValidationError.
Proof.
  intros Hne%nonempty_iff Hd. unfold home. rewrite Hne.
  unfold Decimal_of_str. rewrite Hd. done.
Qed.

(** X5. Every book [home] lists is a row of the catalogue (the search
    returning rows of the catalogue only) and passes each recognised
    filter that is set: publisher equal ignoring case, rating at least the
    threshold, availability as asked, number of pages known and in the
    range asked; at most 50 books are listed. *)
Theorem home_books_pass_the_filters (request : HttpRequest) (db : DB)
    (c : Home.context) (b : Book.t) :
  (forall q bs x, x ∈ search q bs -> x ∈ bs) ->
  home Decimal search request db = ret c ->
  b ∈ Home.books c ->
  length (Home.books c) <= 50 /\
  b ∈ books db /\
  (get_or_empty (GET_data request) "publisher" <> "" ->
   exists p, Book.publisher b = Some p /\
             iexact p (get_or_empty (GET_data request) "publisher") = true) /\
  (forall d, get_or_empty (GET_data request) "min_rating" <> "" ->
             Decimal (get_or_empty (GET_data request) "min_rating")
               = Some (finite d) ->
             exists r, Book.average_rating b = Some r /\ (d <= dec2 r)%Q) /\
  (get_or_empty (GET_data request) "availability" = "available" ->
   Book.is_available b = true) /\
  (get_or_empty (GET_data request) "availability" = "borrowed" ->
   Book.is_available b = false) /\
  (get_or_empty (GET_data request) "pages" = "short" ->
   exists n, Book.num_pages b = Some n /\ (n < 200)%Z) /\
  (get_or_empty (GET_data request) "pages" = "medium" ->
   exists n, Book.num_pages b = Some n /\ (200 <= n <= 400)%Z) /\
  (get_or_empty (GET_data request) "pages" = "long" ->
   exists n, Book.num_pages b = Some n /\ (400 < n)%Z).
Proof.
  intros Hsearch. unfold home.
  set (query := get_or_empty (GET_data request) "q").
  set (publisher := get_or_empty (GET_data request) "publisher").
  set (min_rating := get_or_empty (GET_data request) "min_rating").
  set (availability := get_or_empty (GET_data request) "availability").
  set (pages := get_or_empty (GET_data request) "pages").
  set (books1 := if nonempty query then search query (books db)
                 else order_by_desc _ (books db)).
  set (books2 := if nonempty publisher then filter _ books1 else books1).
  assert (H1 : forall x, x ∈ books1 -> x ∈ books db).
  { intros x. unfold books1. destruct (nonempty query); [apply Hsearch|].
    by rewrite elem_of_order_by_desc. }
  assert (H2 : forall x, x ∈ books2 ->
    x ∈ books1 /\ (publisher <> "" ->
      exists p, Book.publisher x = Some p /\ iexact p publisher = true)).
  { intros x. unfold books2. destruct (nonempty publisher) eqn:E.
    - rewrite list_elem_of_filter. simpl. intros [Hp ?]. split; [done|].
      intros _. destruct (Book.publisher x) as [p|]; [eauto|done].
    - intros ?. split; [done|]. intros ?%nonempty_iff. congruence. }
  intros (books3 & H3 & [= <-])%bind_ret. simpl.
  assert (H3' : forall x, x ∈ books3 ->
    x ∈ books2 /\
    forall d, min_rating <> "" -> Decimal min_rating = Some (finite d) ->
      exists r, Book.average_rating x = Some r /\ (d <= dec2 r)%Q).
  { intros x. destruct (nonempty min_rating) eqn:E.
    - unfold Decimal_of_str in H3. destruct (Decimal min_rating) as [[d|]|];
        [|done..]. simpl in H3. injection H3 as <-.
      rewrite list_elem_of_filter. simpl. intros [Hr ?]. split; [done|].
      intros d' _ [= <-]. destruct (Book.average_rating x) as [r|]; [|done].
      exists r. split; [done|]. by apply Qle_bool_iff.
    - injection H3 as <-. intros ?. split; [done|].
      intros d ?%nonempty_iff. congruence. }
  set (books4 := availability_filter availability books3).
  assert (H4 : forall x, x ∈ books4 ->
    x ∈ books3 /\ (availability = "available" -> Book.is_available x = true) /\
    (availability = "borrowed" -> Book.is_available x = false)).
  { intros x. unfold books4, availability_filter.
    destruct (String.eqb_spec availability "available") as [->|Ha].
    - rewrite list_elem_of_filter. intros [? ?]. split_and!; done.
    - destruct (String.eqb_spec availability "borrowed") as [->|Hb].
      + rewrite list_elem_of_filter. intros [? ?]. split_and!; done.
      + intros ?. split_and!; done. }
  set (books5 := pages_filter pages books4).
  assert (H5 : forall x, x ∈ books5 ->
    x ∈ books4 /\
    (pages = "short" -> exists n, Book.num_pages x = Some n /\ (n < 200)%Z) /\
    (pages = "medium" ->
     exists n, Book.num_pages x = Some n /\ (200 <= n <= 400)%Z) /\
    (pages = "long" -> exists n, Book.num_pages x = Some n /\ (400 < n)%Z)).
  { intros x. unfold books5, pages_filter.
    destruct (String.eqb_spec pages "short") as [->|Hs].
    - rewrite list_elem_of_filter. unfold not_null. intros [Hn ?].
      destruct (Book.num_pages x) as [np|]; [|done]. simpl in Hn.
      split_and!; [done| |done..]. intros _. exists np. split; [done|lia].
    - destruct (String.eqb_spec pages "medium") as [->|Hm].
      + rewrite list_elem_of_filter. unfold not_null. intros [Hn ?].
        destruct (Book.num_pages x) as [np|]; [|done]. simpl in Hn.
        split_and!; [done|done| |done]. intros _. exists np. split; [done|lia].
      + destruct (String.eqb_spec pages "long") as [->|Hl].
        * rewrite list_elem_of_filter. unfold not_null. intros [Hn ?].
          destruct (Book.num_pages x) as [np|]; [|done]. simpl in Hn.
          split_and!; [done|done|done|]. intros _. exists np. split; [done|lia].
        * intros ?. split_and!; done. }
  intros Hb. split.
  { destruct (_ && _); rewrite length_take; lia. }
  assert (Hb5 : b ∈ books5).
  { destruct (_ && _).
    - pose proof (elem_of_sublist _ _ _ Hb (sublist_take _ _)) as Hb'.
      apply elem_of_order_by_desc, list_elem_of_filter in Hb'. tauto.
    - eapply elem_of_sublist; [done|apply sublist_take]. }
  destruct (H5 b Hb5) as (Hb4 & ? & ? & ?).
  destruct (H4 b Hb4) as (Hb3 & ? & ?).
  destruct (H3' b Hb3) as (Hb2 & ?).
  destruct (H2 b Hb2) as (Hb1 & ?).
  split_and!; auto.
Qed.

(** X6. Without any parameter [home] shows the featured books: at most
    20, all available, in rating order (a missing rating first). *)
Theorem home_featured (request : HttpRequest) (db : DB) :
  GET_data request = ∅ ->
  exists c,
    home Decimal search request db = ret c /\
    Home.filters_active c = false /\
    length (Home.books c) <= 20 /\
    Forall (fun b => b ∈ books db /\ Book.is_available b = true) (Home.books c) /\
    (forall i a b, Home.books c !! i = Some a -> Home.books c !! S i = Some b ->
                   null_first (Book.average_rating a) (Book.average_rating b)) /\
    (length (filter (fun b => Book.is_available b = true) (books db)) <= 20 ->
     forall b, b ∈ books db -> Book.is_available b = true -> b ∈ Home.books c).
Proof.
  intros HG. unfold home, get_or_empty. rewrite HG, !lookup_empty. simpl.
  change (pages_filter "") with (fun bs : list Book.t => bs).
  change (availability_filter "") with (fun bs : list Book.t => bs).
  eexists. split; [reflexivity|]. simpl. split; [done|].
  match goal with |- context [take 20 ?x] => set (l := x) end.
  assert (Hl : forall b, b ∈ l <-> b ∈ books db /\ Book.is_available b = true).
  { intros b. unfold l.
    rewrite elem_of_order_by_desc, list_elem_of_filter, elem_of_order_by_desc.
    tauto. }
  split_and!.
  - rewrite length_take. lia.
  - apply Forall_take, Forall_forall. intros b. by rewrite Hl.
  - intros i a b Ha Hb. destruct (adjacent_take _ _ _ _ _ Ha Hb) as [Ha' Hb'].
    pose proof (Sorted_adjacent _ _ _ _ _ (order_by_desc_Sorted _ _) Ha' Hb') as H.
    unfold desc_by in H. by apply lex_leb_desc_null_last in H.
  - intros Hlen b Hb Ha. rewrite take_ge; [by apply Hl|].
    unfold l. rewrite length_order_by_desc.
    assert (filter (fun b => Book.is_available b = true)
              (order_by_desc (fun b => desc_null (Book.average_rating b)) (books db))
            ≡ₚ filter (fun b => Book.is_available b = true) (books db)) as ->; [|done].
    by rewrite order_by_desc_Permutation.
Qed.

(** X7. A value of [availability] that is neither ['available'] nor
    ['borrowed'] filters nothing, yet it counts as an active filter: the
    first 50 rows of the whole catalogue in rating order are listed,
    unavailable books included, instead of the featured ones. *)
Theorem home_unrecognised_availability (db : DB) (value : string) :
  value <> "" -> value <> "available" -> value <> "borrowed" ->
  home Decimal search (mkRequest GET {[ "availability" := value ]} ∅) db =
    ret (Home.mk
           (take 50 (order_by_desc (fun b => desc_null (Book.average_rating b))
                       (books db)))
           "" true).
Proof.
  intros H0 H1 H2. unfold home, get_or_empty. simpl.
  rewrite !lookup_singleton_ne by done. rewrite lookup_singleton_eq. simpl.
  unfold availability_filter.
  destruct (String.eqb_spec value "available"); [done|].
  destruct (String.eqb_spec value "borrowed"); [done|].
  apply nonempty_iff in H0. rewrite H0. simpl. done.
Qed.
End home_properties.

Lemma home_nan_threshold_aborts :
  get_or_empty (GET_data (get_query "min_rating" "NaN")) "min_rating" <> "" /\
  plain_Decimal "NaN" = Some non_finite /\
  home plain_Decimal (fun _ bs => bs) (get_query "min_rating" "NaN") jane_db
    = raise ValidationError.
Proof.
  assert (Hne : get_or_empty (GET_data (get_query "min_rating" "NaN"))
                             "min_rating" <> "")
    by (vm_compute; discriminate).
  split; [exact Hne|]. split; [reflexivity|].
  apply (home_non_finite_threshold plain_Decimal (fun _ bs => bs)
           (get_query "min_rating" "NaN") jane_db Hne).
  vm_compute. reflexivity.
Defined.

Lemma home_filters_on_jane :
  exists c,
    home plain_Decimal (fun _ bs => bs)
         (mkRequest GET {[ "availability" := "available"; "publisher" := "ACME" ]} ∅)
         jane_db = ret c /\
    (Book.id <$> Home.books c) = [2%Z; 4%Z] /\
    forall b, b ∈ Home.books c ->
      Book.is_available b = true /\
      exists p, Book.publisher b = Some p /\ iexact p "ACME" = true.
Proof.
  destruct (home plain_Decimal (fun _ bs => bs)
              (mkRequest GET {[ "availability" := "available";
                                "publisher" := "ACME" ]} ∅) jane_db)
    as [e|c] eqn:E; [vm_compute in E; discriminate|].
  exists c. split; [reflexivity|]. split.
  { vm_compute in E. injection E as <-. reflexivity. }
  intros b Hb.
  destruct (home_books_pass_the_filters plain_Decimal (fun _ bs => bs)
              (mkRequest GET {[ "availability" := "available";
                                "publisher" := "ACME" ]} ∅)
              jane_db c b (fun _ _ _ H => H) E Hb)
    as (_ & _ & Hp & _ & Ha & _).
  split; [by apply Ha|]. apply Hp. vm_compute. discriminate.
Defined.

Lemma home_featured_on_jane :
  exists c,
    home plain_Decimal (fun _ bs => bs) (mkRequest GET ∅ ∅) jane_db = ret c /\
    Home.filters_active c = false /\ length (Home.books c) <= 20.
Proof.
  destruct (home_featured plain_Decimal (fun _ bs => bs) (mkRequest GET ∅ ∅)
              jane_db eq_refl) as (c & Hc & Hf & Hlen & _).
  exists c. split_and!; [exact Hc|exact Hf|exact Hlen].
Defined.

Lemma home_unrecognised_on_jane :
  Book.id <$> Home.books
    (Home.mk (take 50 (order_by_desc (fun b => desc_null (Book.average_rating b))
                         (books jane_db))) "" true)
    = [6%Z; 5%Z; 1%Z; 2%Z; 3%Z; 4%Z] /\
  home plain_Decimal (fun _ bs => bs)
       (mkRequest GET {[ "availability" := "all" ]} ∅) jane_db =
    ret (Home.mk
           (take 50 (order_by_desc (fun b => desc_null (Book.average_rating b))
                       (books jane_db)))
           "" true).
Proof.
  split; [vm_compute; reflexivity|].
  apply (home_unrecognised_availability plain_Decimal (fun _ bs => bs) jane_db
           "all"); discriminate.
Defined.

(** ** The dashboard *)

Lemma length_filter_split {A} (P Q1 Q2 : A -> Prop)
    `{forall x, Decision (P x)} `{forall x, Decision (Q1 x)}
    `{forall x, Decision (Q2 x)} (l : list A) :
  (forall x, P x -> (Q1 x <-> ~ Q2 x)) ->
  length (filter (fun x => P x /\ Q1 x) l) + length (filter (fun x => P x /\ Q2 x) l)
    = length (filter P l).
Proof.
  intros HQ. induction l as [|x l IH]; [done|].
  rewrite !filter_cons.
  destruct (decide (P x)) as [Hp|Hp].
  - destruct (decide (Q2 x)) as [H2|H2].
    + rewrite decide_False by (intros [_ ?]; by apply (HQ x Hp)).
      rewrite decide_True by done. simpl. lia.
    + rewrite decide_True by (split; [done|by apply (HQ x Hp)]).
      rewrite decide_False by tauto. simpl. lia.
  - rewrite !decide_False by tauto. done.
Qed.

Lemma dec1_add a b : (dec1 (a + b) == dec1 a + dec1 b)%Q.
Proof. unfold dec1, Qeq, Qplus. simpl. lia. Qed.

Lemma sum_at_least (d : Q) (xs : list Z) :
  Forall (fun r => (d <= dec1 r)%Q) xs ->
  (inject_Z (Z.of_nat (length xs)) * d <= dec1 (sum_Z xs))%Q.
Proof.
  induction 1 as [|x xs Hx _ IH]; simpl.
  - unfold dec1, Qle. simpl. lia.
  - rewrite dec1_add.
    assert (inject_Z (Z.of_nat (S (length xs)))
            == 1 + inject_Z (Z.of_nat (length xs)))%Q as ->.
    { rewrite Nat2Z.inj_succ. unfold Z.succ. rewrite inject_Z_plus.
      simpl. ring. }
    rewrite Qmult_plus_distr_l, Qmult_1_l. by apply Qplus_le_compat.
Qed.

Lemma Avg1_at_least (d m : Q) (vals : list (option Z)) :
  Forall (fun v => exists r, v = Some r /\ (d <= dec1 r)%Q) vals ->
  Avg1 vals = Some m -> (d <= m)%Q.
Proof.
  intros Hall. unfold Avg1.
  assert (Hxs : Forall (fun r => (d <= dec1 r)%Q) (omap id vals)).
  { apply Forall_forall. intros r (v & Hv & Hr)%list_elem_of_omap.
    rewrite Forall_forall in Hall. destruct (Hall v Hv) as (r' & -> & ?).
    simpl in Hr. by injection Hr as <-. }
  destruct (omap id vals) as [|x xs] eqn:E; [done|]. intros [= <-].
  apply Qle_shift_div_l.
  - change 0%Q with (inject_Z 0). rewrite <-Zlt_Qlt. simpl length. lia.
  - rewrite Qmult_comm. exact (sum_at_least d (x :: xs) Hxs).
Qed.

Section dashboard_properties.
Context (Decimal : string -> option decimal).

(** X8. An unknown user is answered by [user_dashboard] with the page
    [user_not_found], and only an unknown user is; for a known user a
    threshold [rating_filter] that [Decimal] reads as a value that is not
    finite is refused when the lookup is built, with a [ValidationError]
    that the handler does not catch: the request is aborted instead of
    the filter being skipped. *)
Theorem dashboard_non_finite_threshold (request : HttpRequest)
    (username : string) (db : DB) :
  (users db !! username = None <->
   user_dashboard Decimal request username db = ret (user_not_found username)) /\
  (forall s, is_Some (users db !! username) ->
             GET_data request !! "rating_filter" = Some s -> s <> "" ->
             Decimal s = Some non_finite ->
             user_dashboard Decimal request username db = raise ValidationError).
Proof.
  unfold user_dashboard.
  destruct (users db !! username) as [u|] eqn:Hu.
  - split.
    + split; [done|].
      destruct (match GET_data request !! "rating_filter" with
                | Some _ => _ | None => _ end); simpl; done.
    + intros s _ Hs Hne%nonempty_iff Hd. rewrite Hs, Hne.
      unfold Decimal_of_str. rewrite Hd. done.
  - split; [done|]. by intros s [? [=]].
Qed.

(** X9. The dashboard splits the loans of the user into the open ones
    and the returned ones: the two lists share no loan, their sizes add up
    to the number of the user's loans, [total_read] counts the returned
    ones whatever the rating filter, and the open loans are listed the
    latest first. *)
Theorem dashboard_splits_the_loans (request : HttpRequest) (username : string)
    (db : DB) (c : Dashboard.context) :
  user_dashboard Decimal request username db = ret (dashboard c) ->
  users db !! username = Some (Dashboard.user c) /\
  Dashboard.current_loans c ≡ₚ
    filter (fun l => Loan.is_returned l = false) (loans_of db username) /\
  Sorted (desc_by (fun l => desc (Loan.borrowed_date l)))
         (Dashboard.current_loans c) /\
  Dashboard.total_read c =
    length (filter (fun l => Loan.is_returned l = true) (loans_of db username)) /\
  length (Dashboard.current_loans c) + Dashboard.total_read c =
    length (loans_of db username) /\
  (forall l, l ∈ Dashboard.reading_history c ->
             l ∈ loans_of db username /\ Loan.is_returned l = true /\
             l ∉ Dashboard.current_loans c) /\
  length (Dashboard.reading_history c) <= Dashboard.total_read c.
Proof.
  unfold user_dashboard.
  destruct (users db !! username) as [u|] eqn:Hu; [|done].
  intros (history & Hh & [= <-])%bind_ret. simpl.
  assert (Hfilter : forall (b : bool),
    filter (fun l => Loan.is_returned l = b) (loans_of db username)
    = filter (fun l => Loan.user l = username /\ Loan.is_returned l = b) (loans db)).
  { intros b. unfold loans_of. rewrite list_filter_filter.
    apply list_filter_iff. tauto. }
  set (full := order_by_desc (fun l => desc_null (Loan.returned_date l))
                 (filter (fun l => Loan.user l = username /\ Loan.is_returned l = true)
                         (loans db))) in *.
  assert (Hcases : history = full \/
            exists d, history = filter (fun l => not_null
                          (fun r => Qle_bool d (dec1 r)) (Loan.user_rating l) = true)
                          full).
  { unfold ret in Hh.
    destruct (GET_data request !! "rating_filter") as [s|]; [|left; congruence].
    destruct (nonempty s); [|left; congruence].
    unfold Decimal_of_str in Hh. destruct (Decimal s) as [[d|]|]; [|done..].
    right. exists d. simpl in Hh. unfold ret in Hh. congruence. }
  assert (Hle : history `sublist_of` full).
  { destruct Hcases as [->|[d ->]]; [done|apply sublist_filter]. }
  assert (Hsub : forall l, l ∈ history ->
    l ∈ filter (fun l => Loan.user l = username /\ Loan.is_returned l = true)
               (loans db)).
  { intros l Hl. pose proof (elem_of_sublist _ _ _ Hl Hle) as Hl'.
    unfold full in Hl'. by rewrite elem_of_order_by_desc in Hl'. }
  split_and!.
  - done.
  - by rewrite order_by_desc_Permutation, Hfilter.
  - apply order_by_desc_Sorted.
  - by rewrite Hfilter.
  - rewrite length_order_by_desc. unfold loans_of.
    apply (length_filter_split (fun l => Loan.user l = username)
             (fun l => Loan.is_returned l = false)
             (fun l => Loan.is_returned l = true)).
    intros l _. destruct (Loan.is_returned l); split; congruence.
  - intros l Hl%Hsub. apply list_elem_of_filter in Hl as [[Hus Hr] Hl].
    split_and!; [by apply list_elem_of_filter|done|].
    rewrite elem_of_order_by_desc, list_elem_of_filter. intros [[_ ?] _].
    congruence.
  - apply sublist_length in Hle. unfold full in Hle.
    by rewrite length_order_by_desc in Hle.
Qed.

(** X10. With a threshold [rating_filter] that [Decimal] reads, the
    history keeps exactly the returned loans of the user rated at least
    the threshold (an unrated loan is dropped), and the average rating
    shown, taken over that filtered history, is at least the threshold. *)
Theorem dashboard_rating_filter (request : HttpRequest) (username : string)
    (db : DB) (c : Dashboard.context) (s : string) (d : Q) :
  GET_data request !! "rating_filter" = Some s -> s <> "" ->
  Decimal s = Some (finite d) ->
  user_dashboard Decimal request username db = ret (dashboard c) ->
  (forall l, l ∈ Dashboard.reading_history c <->
             l ∈ loans_of db username /\ Loan.is_returned l = true /\
             exists r, Loan.user_rating l = Some r /\ (d <= dec1 r)%Q) /\
  (forall m, average_user_rating c = Some m -> (d <= m)%Q).
Proof.
  intros Hs Hne Hd. unfold user_dashboard.
  destruct (users db !! username) as [u|] eqn:Hu; [|done].
  rewrite Hs, (proj2 (nonempty_iff s) Hne). unfold Decimal_of_str. rewrite Hd.
  simpl. intros [= <-]. simpl.
  assert (Hin : forall l,
    l ∈ filter (fun l => not_null (fun r => Qle_bool d (dec1 r))
                                  (Loan.user_rating l) = true)
          (order_by_desc (fun l => desc_null (Loan.returned_date l))
             (filter (fun l => Loan.user l = username /\ Loan.is_returned l = true)
                     (loans db))) <->
    l ∈ loans_of db username /\ Loan.is_returned l = true /\
    exists r, Loan.user_rating l = Some r /\ (d <= dec1 r)%Q).
  { intros l. unfold loans_of.
    rewrite list_elem_of_filter, elem_of_order_by_desc, !list_elem_of_filter.
    unfold not_null. destruct (Loan.user_rating l) as [r|]; simpl.
    - rewrite Qle_bool_iff. split.
      + intros (? & [? ?] & ?). split_and!; eauto.
      + intros ([? ?] & ? & r' & [= <-] & ?). split_and!; done.
    - split; [by intros [? _]|]. by intros (_ & _ & r & [=] & _). }
  split; [exact Hin|].
  intros m. unfold average_user_rating. simpl. apply Avg1_at_least.
  apply Forall_fmap, Forall_forall. intros l Hl. apply Hin in Hl. simpl. tauto.
Qed.
End dashboard_properties.

Lemma dashboard_nan_threshold_aborts :
  plain_Decimal "-Infinity" = Some non_finite /\
  user_dashboard plain_Decimal (get_query "rating_filter" "-Infinity") "ana"
                 reader_db = raise ValidationError.
Proof.
  split; [reflexivity|].
  apply (proj2 (dashboard_non_finite_threshold plain_Decimal
                  (get_query "rating_filter" "-Infinity") "ana" reader_db)
           "-Infinity").
  - vm_compute. eauto.
  - vm_compute. reflexivity.
  - discriminate.
  - reflexivity.
Defined.

Lemma dashboard_splits_for_ana :
  exists c,
    user_dashboard plain_Decimal (get_query "rating_filter" "4") "ana" reader_db
      = ret (dashboard c) /\
    length (Dashboard.current_loans c) + Dashboard.total_read c =
      length (loans_of reader_db "ana") /\
    Dashboard.total_read c = 4 /\
    Loan.id <$> Dashboard.reading_history c = [4%Z; 1%Z].
Proof.
  destruct (user_dashboard plain_Decimal (get_query "rating_filter" "4")
              "ana" reader_db) as [e|[u|c]] eqn:E;
    [vm_compute in E; discriminate..|].
  exists c. split; [reflexivity|].
  destruct (dashboard_splits_the_loans plain_Decimal
              (get_query "rating_filter" "4") "ana" reader_db c E)
    as (_ & _ & _ & _ & Hsum & _).
  split; [exact Hsum|].
  vm_compute in E. injection E as <-. split; reflexivity.
Defined.

Lemma dashboard_rating_filter_for_ana :
  exists c,
    user_dashboard plain_Decimal (get_query "rating_filter" "4") "ana" reader_db
      = ret (dashboard c) /\
    forall m, average_user_rating c = Some m -> (4 <= m)%Q.
Proof.
  destruct (user_dashboard plain_Decimal (get_query "rating_filter" "4")
              "ana" reader_db) as [e|[u|c]] eqn:E;
    [vm_compute in E; discriminate..|].
  exists c. split; [reflexivity|].
  apply (dashboard_rating_filter plain_Decimal (get_query "rating_filter" "4")
           "ana" reader_db c "4" 4 eq_refl ltac:(discriminate) eq_refl E).
Defined.

(** *** Tallies *)

Section tally_properties.
Context {K : Type} `{EqDecision K}.
Implicit Types (k : K) (d : list (K * nat)) (keys : list K).

Lemma bump_keys k d :
  (bump k d).*1 = if decide (k ∈ d.*1) then d.*1 else d.*1 ++ [k].
Proof.
  induction d as [|[k' n] d IH].
  - destruct (decide (k ∈ ([] : list (K * nat)).*1)) as [Hin|_]; [|done].
    by apply elem_of_nil in Hin.
  - change (bump k ((k', n) :: d))
      with (if decide (k' = k) then (k', S n) :: d else (k', n) :: bump k d).
    change ((((k', n) :: d)).*1) with (k' :: d.*1).
    destruct (decide (k' = k)) as [->|Hne].
    + destruct (decide (k ∈ k :: d.*1)) as [_|Hnin]; [done|].
      destruct Hnin. apply list_elem_of_here.
    + change ((((k', n) :: bump k d)).*1) with (k' :: (bump k d).*1).
      rewrite IH. destruct (decide (k ∈ d.*1)) as [Hin|Hin].
      * destruct (decide (k ∈ k' :: d.*1)) as [_|Hnin]; [done|].
        destruct Hnin. by apply list_elem_of_further.
      * destruct (decide (k ∈ k' :: d.*1)) as [Hin'|_]; [|done].
        apply elem_of_cons in Hin' as [?|?]; congruence.
Qed.

Lemma bump_elem_of k d k' n' :
  NoDup d.*1 ->
  (k', n') ∈ bump k d <->
  k' <> k /\ (k', n') ∈ d \/
  k' = k /\ ((exists n, (k, n) ∈ d /\ n' = S n) \/ (k ∉ d.*1) /\ n' = 1).
Proof.
  induction d as [|[k0 n0] d IH].
  - intros _. simpl. rewrite list_elem_of_singleton. split.
    + intros [= -> ->]. right. split; [done|]. right.
      split; [apply not_elem_of_nil|done].
    + intros [[_ Hin]|[-> [(n & Hin & _)|[_ ->]]]];
        [by apply elem_of_nil in Hin..|done].
  - intros [Hk0 Hnd]%NoDup_cons.
    change (bump k ((k0, n0) :: d))
      with (if decide (k0 = k) then (k0, S n0) :: d else (k0, n0) :: bump k d).
    destruct (decide (k0 = k)) as [->|Hne].
    + split.
      * intros [[= -> ->]|Hin]%elem_of_cons.
        -- right. split; [done|]. left. exists n0.
           split; [apply list_elem_of_here|done].
        -- left. split; [|by apply list_elem_of_further]. intros ->.
           apply Hk0. by apply (list_elem_of_fmap_2 fst) in Hin.
      * intros [[Hne Hin]|[-> [(n & Hin & ->)|[Hnin _]]]].
        -- apply elem_of_cons in Hin as [[= ? ?]|Hin]; [done|].
           by apply list_elem_of_further.
        -- apply elem_of_cons in Hin as [[= ->]|Hin]; [apply list_elem_of_here|].
           destruct Hk0. by apply (list_elem_of_fmap_2 fst) in Hin.
        -- destruct Hnin. apply list_elem_of_here.
    + rewrite elem_of_cons, (IH Hnd). split.
      * intros [[= -> ->]|[[? ?]|[-> [(n & Hin & ->)|[Hnin ->]]]]].
        -- left. split; [done|apply list_elem_of_here].
        -- left. split; [done|by apply list_elem_of_further].
        -- right. split; [done|]. left. exists n.
           split; [by apply list_elem_of_further|done].
        -- right. split; [done|]. right. split; [|done].
           intros [?|?]%elem_of_cons; simpl in *; [congruence|done].
      * intros [[? Hin]|[-> [(n & Hin & ->)|[Hnin ->]]]].
        -- apply elem_of_cons in Hin as [[= -> ->]|Hin]; [by left|].
           right. left. done.
        -- apply elem_of_cons in Hin as [[= ? ?]|Hin]; [done|].
           right. right. split; [done|]. left. eauto.
        -- right. right. split; [done|]. right. split; [|done].
           intros Hin. apply Hnin. by apply list_elem_of_further.
Qed.

Lemma tally_snoc keys k : tally (keys ++ [k]) = bump k (tally keys).
Proof. unfold tally. by rewrite foldl_snoc. Qed.

Lemma occurrences_snoc k' keys k :
  occurrences k' (keys ++ [k]) =
  occurrences k' keys + (if decide (k = k') then 1 else 0).
Proof.
  unfold occurrences. rewrite filter_app, length_app, filter_cons, filter_nil.
  by destruct (decide (k = k')).
Qed.

Lemma occurrences_pos k keys : 0 < occurrences k keys <-> k ∈ keys.
Proof.
  unfold occurrences. split.
  - destruct (filter _ keys) as [|x l] eqn:E; simpl; [lia|]. intros _.
    assert (Hx : x ∈ filter (fun k' => k' = k) keys)
      by (rewrite E; apply list_elem_of_here).
    apply list_elem_of_filter in Hx as [-> ?]. done.
  - intros Hin.
    assert (Hk : k ∈ filter (fun k' => k' = k) keys)
      by (by apply list_elem_of_filter).
    destruct (filter _ keys); [by apply elem_of_nil in Hk|simpl; lia].
Qed.

(** The dict holds each key met once, with its number of occurrences. *)
Lemma tally_spec keys :
  NoDup (tally keys).*1 /\
  (forall k, k ∈ (tally keys).*1 <-> k ∈ keys) /\
  (forall k n, (k, n) ∈ tally keys <-> n = occurrences k keys /\ 0 < n).
Proof.
  induction keys as [|k keys (Hnd & Hkeys & Hcount)] using rev_ind.
  - split_and!; [constructor| |].
    + intros k. done.
    + intros k n. split; [by intros ?%elem_of_nil|]. intros [-> ?].
      unfold occurrences in *. simpl in *. lia.
  - rewrite tally_snoc.
    assert (Hkeys' : forall k', k' ∈ (bump k (tally keys)).*1 <-> k' ∈ keys ++ [k]).
    { intros k'. rewrite bump_keys, elem_of_app, list_elem_of_singleton.
      destruct (decide (k ∈ (tally keys).*1)) as [Hin|Hin].
      - rewrite Hkeys. split; [by left|]. intros [?| ->]; [done|by apply Hkeys].
      - rewrite elem_of_app, list_elem_of_singleton, Hkeys. done. }
    split_and!; [|done|].
    + rewrite bump_keys. destruct (decide (k ∈ (tally keys).*1)); [done|].
      apply NoDup_app. split_and!; [done| |apply NoDup_singleton].
      intros x Hx Hx'. apply list_elem_of_singleton in Hx' as ->. done.
    + intros k' n'. rewrite (bump_elem_of _ _ _ _ Hnd), occurrences_snoc. split.
      * intros [[Hne Hin]|[-> [(n & Hin & ->)|[Hnin ->]]]].
        -- apply Hcount in Hin as [-> ?]. rewrite decide_False by done. lia.
        -- apply Hcount in Hin as [-> ?]. rewrite decide_True by done. lia.
        -- rewrite decide_True by done.
           assert (occurrences k keys = 0); [|lia].
           destruct (decide (0 < occurrences k keys)) as [Hp|]; [|lia].
           apply occurrences_pos, Hkeys in Hp. done.
      * intros [-> Hpos]. destruct (decide (k = k')) as [->|Hne].
        -- right. split; [done|].
           destruct (decide (k' ∈ (tally keys).*1)) as [Hin|Hin].
           ++ left. exists (occurrences k' keys). split; [|lia].
              apply Hcount. split; [done|]. by apply occurrences_pos, Hkeys.
           ++ right. split; [done|].
              assert (occurrences k' keys = 0); [|lia].
              destruct (decide (0 < occurrences k' keys)) as [Hp|]; [|lia].
              apply occurrences_pos, Hkeys in Hp. done.
        -- left. split; [done|]. apply Hcount. lia.
Qed.

(** The keys of the dict stand in the order in which they were first met. *)
Lemma tally_order keys (a b : list K) k1 k2 :
  (tally keys).*1 = a ++ k1 :: b -> k2 ∈ b -> seen_before k1 k2 keys.
Proof.
  revert a b. induction keys as [|k keys IH] using rev_ind; intros a b Hd Hk2.
  - by destruct a.
  - rewrite tally_snoc, bump_keys in Hd.
    destruct (decide (k ∈ (tally keys).*1)) as [Hin|Hin].
    + destruct (IH a b Hd Hk2) as (l1 & l2 & -> & ?).
      exists l1, (l2 ++ [k]). split; [by rewrite <-app_assoc|done].
    + destruct b as [|x b _] using rev_ind; [by apply elem_of_nil in Hk2|].
      rewrite app_comm_cons, app_assoc in Hd.
      apply app_inj_tail in Hd as [Hd ->].
      apply elem_of_app in Hk2 as [Hk2|Hk2];
        [|apply list_elem_of_singleton in Hk2 as ->].
      * destruct (IH a b Hd Hk2) as (l1 & l2 & -> & ?).
        exists l1, (l2 ++ [x]). split; [by rewrite <-app_assoc|done].
      * assert (Hk1 : k1 ∈ keys).
        { apply (proj1 (proj2 (tally_spec keys))). rewrite Hd.
          apply elem_of_app. right. apply list_elem_of_here. }
        apply list_elem_of_split in Hk1 as (l1 & l2 & ->).
        exists l1, (l2 ++ [x]). split; [by rewrite <-app_assoc|].
        intros Hx. apply Hin, (proj1 (proj2 (tally_spec _))).
        apply elem_of_app. by left.
Qed.

(** [max] returns the first entry whose count is maximal. *)
Lemma most_frequent_from d k0 n0 r :
  foldl (fun best kv =>
           match best with
           | None => Some kv
           | Some (k0, n0) => if (n0 <? kv.2)%nat then Some kv else best
           end) (Some (k0, n0)) d = r ->
  r = Some (k0, n0) /\ Forall (fun x => x.2 <= n0) d \/
  exists d1 kv d2, d = d1 ++ kv :: d2 /\ r = Some kv /\ n0 < kv.2 /\
                   Forall (fun x => x.2 < kv.2) d1 /\
                   Forall (fun x => x.2 <= kv.2) d2.
Proof.
  revert k0 n0 r. induction d as [|[k n] d IH]; intros k0 n0 r; simpl.
  - intros <-. left. split; [done|constructor].
  - destruct (Nat.ltb_spec n0 n) as [Hlt|Hge].
    + intros [[-> Hall]|(d1 & kv & d2 & -> & -> & ? & H1 & H2)]%IH.
      * right. exists [], (k, n), d. split_and!; simpl; done || constructor.
      * right. exists ((k, n) :: d1), kv, d2. split_and!; try done; [lia|].
        constructor; [simpl; lia|done].
    + intros [[-> Hall]|(d1 & kv & d2 & -> & -> & ? & H1 & H2)]%IH.
      * left. split; [done|]. constructor; [simpl; lia|done].
      * right. exists ((k, n) :: d1), kv, d2. split_and!; try done.
        constructor; [simpl; lia|done].
Qed.

Lemma most_frequent_spec d :
  match most_frequent d with
  | None => d = []
  | Some kv => exists d1 d2, d = d1 ++ kv :: d2 /\
                             Forall (fun x => x.2 < kv.2) d1 /\
                             Forall (fun x => x.2 <= kv.2) d2
  end.
Proof.
  unfold most_frequent. destruct d as [|[k n] d]; [done|]. simpl.
  destruct (most_frequent_from d k n _ eq_refl)
    as [[-> Hall]|(d1 & kv & d2 & -> & -> & ? & H1 & H2)].
  - exists [], d. split_and!; [done|constructor|done].
  - exists ((k, n) :: d1), d2. split_and!; [done| |done].
    constructor; [simpl; lia|done].
Qed.

Lemma most_frequent_tally keys :
  match most_frequent (tally keys) with
  | None => keys = []
  | Some (k, n) => leads keys k n
  end.
Proof.
  pose proof (most_frequent_spec (tally keys)) as Hmf.
  destruct (tally_spec keys) as (Hnd & Hkeys & Hcount).
  destruct (most_frequent (tally keys)) as [[k n]|].
  - destruct Hmf as (d1 & d2 & Hd & H1 & H2).
    assert (Hkn : (k, n) ∈ tally keys).
    { rewrite Hd. apply elem_of_app. right. apply list_elem_of_here. }
    apply Hcount in Hkn as [Hn Hpos].
    assert (Hle : forall k' n', (k', n') ∈ tally keys -> n' <= n).
    { intros k' n'. rewrite Hd, elem_of_app, elem_of_cons.
      rewrite Forall_forall in H1, H2.
      intros [Hin|[[= -> ->]|Hin]]; [apply H1 in Hin|lia|apply H2 in Hin];
        simpl in *; lia. }
    split_and!; [done..| |].
    + intros k'. destruct (decide (0 < occurrences k' keys)) as [Hp|]; [|lia].
      apply (Hle k'). by apply Hcount.
    + intros k' Hne Hk'.
      assert (Hin : (k', n) ∈ tally keys) by (apply Hcount; split; [done|lia]).
      rewrite Hd, elem_of_app, elem_of_cons in Hin.
      rewrite Forall_forall in H1.
      destruct Hin as [Hin|[[= ?]|Hin]]; [apply H1 in Hin; simpl in *; lia|done|].
      apply (tally_order keys d1.*1 d2.*1 k k').
      * by rewrite Hd, fmap_app, fmap_cons.
      * by apply (list_elem_of_fmap_2 fst) in Hin.
  - destruct keys as [|k keys]; [done|].
    assert (Hin : k ∈ (tally (k :: keys)).*1) by (apply Hkeys; apply list_elem_of_here).
    rewrite Hmf in Hin. by apply elem_of_nil in Hin.
Qed.
End tally_properties.

(** X11. The favourite author, publisher and year of the dashboard are
    the most frequent key among the returned loans of the user (the first
    listed author of a book, its non-empty publisher, its non-zero year),
    shown with its number of occurrences; among equally frequent keys the
    one met first wins, the loans being read the latest borrowed first;
    nothing is shown exactly when there is no key. *)
Theorem dashboard_favourites (db : DB) (username : string) :
  match favorite_author db username with
  | None => author_keys db username = []
  | Some (a, n) => leads (author_keys db username) a n
  end /\
  match favorite_publisher db username with
  | None => publisher_keys db username = []
  | Some (p, n) => leads (publisher_keys db username) p n
  end /\
  match most_read_year db username with
  | None => year_keys db username = []
  | Some (y, n) => leads (year_keys db username) y n
  end.
Proof.
  split_and!.
  - apply (most_frequent_tally (author_keys db username)).
  - apply (most_frequent_tally (publisher_keys db username)).
  - apply (most_frequent_tally (year_keys db username)).
Qed.

(** On the reader of the example two authors and two years are met
    twice; the ones of the latest loan win. *)
Lemma favourites_of_the_reader :
  author_keys reader_db "ana" = ["Ann Lee"; "Jane Doe"; "Ann Lee"; "Jane Doe"] /\
  favorite_author reader_db "ana" = Some ("Ann Lee", 2) /\
  favorite_publisher reader_db "ana" = Some ("Acme", 2) /\
  most_read_year reader_db "ana" = Some (2001%Z, 2) /\
  total_pages_read reader_db "ana" = Some 950%Z.
Proof. split_and!; vm_compute; reflexivity. Qed.

(** *** The pages of the years *)

Lemma filter_iff_in {A} (P1 P2 : A -> Prop)
    `{!forall x, Decision (P1 x), !forall x, Decision (P2 x)} (l : list A) :
  (forall x, x ∈ l -> P1 x <-> P2 x) -> filter P1 l = filter P2 l.
Proof.
  induction l as [|a l IH]; intros Hiff; [done|].
  rewrite !filter_cons, IH.
  - apply decide_ext, Hiff, list_elem_of_here.
  - intros x Hx. by apply Hiff, list_elem_of_further.
Qed.

Lemma filter_none {A} (P : A -> Prop) `{!forall x, Decision (P x)} (l : list A) :
  (forall x, x ∈ l -> ~ P x) -> filter P l = [].
Proof.
  induction l as [|a l IH]; intros Hno; [done|].
  rewrite filter_cons, decide_False by apply Hno, list_elem_of_here.
  apply IH. intros x Hx. by apply Hno, list_elem_of_further.
Qed.

Lemma occurrences_omap {A K} `{EqDecision K} (f : A -> option K) (k : K)
    (l : list A) :
  occurrences k (omap f l) = length (filter (fun a => f a = Some k) l).
Proof.
  unfold occurrences. induction l as [|a l IH]; [done|].
  change (omap f (a :: l))
    with (match f a with Some y => y :: omap f l | None => omap f l end).
  rewrite (filter_cons (fun a => f a = Some k)).
  destruct (f a) as [y|] eqn:Hfa.
  - rewrite filter_cons. destruct (decide (y = k)) as [->|Hne].
    + rewrite decide_True by done. simpl. by rewrite IH.
    + rewrite decide_False by congruence. done.
  - rewrite decide_False by done. done.
Qed.

Lemma desc_by_desc_strict (l : list Z) :
  NoDup l -> StronglySorted (fun a b => (b < a)%Z) (order_by_desc desc l).
Proof.
  intros Hnd.
  pose proof (order_by_desc_StronglySorted desc l) as Hs.
  rewrite <-(order_by_desc_Permutation desc l) in Hnd.
  induction Hs as [|x xs Hs IH Hall]; [constructor|].
  apply NoDup_cons in Hnd as [Hx Hnd].
  constructor; [by apply IH|].
  rewrite Forall_forall in Hall |- *. intros y Hy.
  specialize (Hall y Hy). unfold desc_by, desc in Hall. simpl in Hall.
  rewrite orb_true_iff, andb_true_iff, Z.ltb_lt, Z.eqb_eq in Hall.
  destruct Hall as [?|[-> _]]; [done|]. done.
Qed.

(** X12. The list of years has one row for each year that some book has,
    in strictly descending order of the year, with the number of books of
    that year. *)
Theorem years_list_rows (db : DB) :
  StronglySorted (fun r1 r2 => (r2.1 < r1.1)%Z) (years_list db) /\
  forall y n,
    (y, n) ∈ years_list db <->
    n = length (filter (fun b => Book.publication_year b = Some y) (books db))
    /\ 0 < n.
Proof.
  unfold years_list. split.
  - eapply StronglySorted_fmap; [|apply desc_by_desc_strict, NoDup_remove_dups].
    intros x y Hxy. exact Hxy.
  - intros y n. rewrite list_elem_of_fmap.
    rewrite <-(occurrences_omap Book.publication_year y (books db)).
    split.
    + intros (y' & [= -> ->] & Hin). split; [done|].
      rewrite elem_of_order_by_desc, elem_of_remove_dups in Hin.
      by apply (occurrences_pos y').
    + intros [-> Hpos]. exists y. split; [done|].
      rewrite elem_of_order_by_desc, elem_of_remove_dups.
      by apply (occurrences_pos y).
Qed.

Section year_pages.
Context (int_of_str : string -> option Z) (title_key : string -> list Z).

(** X13. The page of a year is returned for every argument: a text that
    is not a number redirects to the home page and nothing else does;
    otherwise the page lists exactly the books of that year, counts them,
    and orders them by rating, the highest first and the unrated ones
    before all. *)
Theorem books_by_year_page (year : year_arg) (db : DB) :
  exists r,
    books_by_year int_of_str title_key year db = ret r /\
    match r with
    | year_redirect_home =>
        exists s, year = year_str s /\ int_of_str s = None
    | year_page c =>
        int_of_arg int_of_str year = ret (BooksByYear.year c) /\
        (forall b, b ∈ BooksByYear.books c <->
                   b ∈ books db /\
                   Book.publication_year b = Some (BooksByYear.year c)) /\
        BooksByYear.count c = length (BooksByYear.books c) /\
        BooksByYear.count c =
          length (filter (fun b => Book.publication_year b
                                   = Some (BooksByYear.year c)) (books db)) /\
        forall i a b,
          BooksByYear.books c !! i = Some a ->
          BooksByYear.books c !! S i = Some b ->
          null_first (Book.average_rating a) (Book.average_rating b)
    end.
Proof.
  assert (Hpage : forall n,
    int_of_arg int_of_str year = ret n ->
    books_by_year int_of_str title_key year db =
    ret (year_page
           (BooksByYear.mk
              (order_by_desc (books_by_year_key title_key)
                 (filter (fun b => Book.publication_year b = Some n) (books db)))
              n
              (length
                 (order_by_desc (books_by_year_key title_key)
                    (filter (fun b => Book.publication_year b = Some n)
                            (books db))))))).
  { intros n Hn. unfold books_by_year. by rewrite Hn. }
  destruct (int_of_arg int_of_str year) as [e|n] eqn:Harg.
  - exists year_redirect_home. destruct year as [n|s]; [done|].
    unfold books_by_year. simpl in *.
    destruct (int_of_str s) as [n|] eqn:Hs; [done|].
    split; [done|]. by exists s.
  - eexists. split; [by apply Hpage|]. simpl.
    split_and!; [done| |done|apply length_order_by_desc|].
    + intros b. rewrite elem_of_order_by_desc, list_elem_of_filter. tauto.
    + intros i a b Ha Hb.
      pose proof (Sorted_adjacent _ _ _ _ _
                    (order_by_desc_Sorted (books_by_year_key title_key) _) Ha Hb)
        as Hab.
      unfold desc_by, books_by_year_key in Hab.
      apply lex_leb_desc_null in Hab as [[? _]|[-> _]]; [done|].
      destruct (Book.average_rating a); simpl; [lia|done].
Qed.

(** X14. Every row of the list of years leads to a page: the page of
    that year is not empty and shows the count of the row. *)
Theorem years_list_links_to_pages (db : DB) (y : Z) (n : nat) :
  (y, n) ∈ years_list db ->
  exists c,
    books_by_year int_of_str title_key (year_int y) db = ret (year_page c) /\
    BooksByYear.year c = y /\
    BooksByYear.count c = n /\
    BooksByYear.books c <> [].
Proof.
  intros Hrow.
  assert (Hn : n = length (filter (fun b => Book.publication_year b = Some y)
                                  (books db)) /\ 0 < n).
  { unfold years_list in Hrow. apply list_elem_of_fmap in Hrow
      as (y' & [= -> ->] & Hin).
    rewrite <-(occurrences_omap Book.publication_year y' (books db)).
    split; [done|].
    rewrite elem_of_order_by_desc, elem_of_remove_dups in Hin.
    by apply (occurrences_pos y'). }
  destruct Hn as [-> Hpos]. eexists. split; [reflexivity|]. simpl.
  split_and!; [done|apply length_order_by_desc|].
  intros Hnil. apply (f_equal length) in Hnil.
  rewrite length_order_by_desc in Hnil. simpl in Hnil. lia.
Qed.
End year_pages.

Lemma years_list_links_on_reader :
  (2001%Z, 2) ∈ years_list reader_db /\
  exists c,
    books_by_year (fun _ => None) (fun _ => []) (year_int 2001) reader_db
      = ret (year_page c) /\
    BooksByYear.year c = 2001%Z /\
    BooksByYear.count c = 2 /\
    BooksByYear.books c <> [].
Proof.
  assert (Hrow : (2001%Z, 2) ∈ years_list reader_db).
  { vm_compute. apply list_elem_of_here. }
  split; [exact Hrow|].
  exact (years_list_links_to_pages (fun _ => None) (fun _ => []) reader_db
           2001%Z 2 Hrow).
Defined.

(** *** The publishers offered on the home page *)

Lemma nonempty_true s : nonempty s = true <-> s <> "".
Proof.
  unfold nonempty. rewrite negb_true_iff. split.
  - intros Hs ->. by rewrite String.eqb_refl in Hs.
  - intros Hs. by apply String.eqb_neq.
Qed.

Lemma occurrences_filter {K} `{EqDecision K} (P : K -> Prop)
    `{!forall x, Decision (P x)} (k : K) (l : list K) :
  P k -> occurrences k (filter P l) = occurrences k l.
Proof.
  intros Hk. unfold occurrences. rewrite list_filter_filter. f_equal.
  apply list_filter_iff. intros x. split; [tauto|]. by intros ->.
Qed.

Lemma StronglySorted_weaken {A} (R1 R2 : relation A) (l : list A) :
  (forall x y, R1 x y -> R2 x y) -> StronglySorted R1 l -> StronglySorted R2 l.
Proof.
  intros HR Hs. induction Hs as [|x xs Hs IH Hall]; constructor; [done|].
  eapply Forall_impl; [exact Hall|]. intros y. apply HR.
Qed.

(** X15. The home page offers at most twenty publishers, none twice and
    none empty, each with the number of books that carry it, a larger
    number never after a smaller one; a publisher that is left out has no
    more books than any that is offered. *)
Theorem home_publishers_top (db : DB) :
  let count p :=
    length (filter (fun b => Book.publisher b = Some p) (books db)) in
  length (home_publishers db) <= 20 /\
  NoDup (home_publishers db).*1 /\
  (forall p n, (p, n) ∈ home_publishers db -> p <> "" /\ n = count p /\ 0 < n) /\
  (forall i r1 r2, home_publishers db !! i = Some r1 ->
                   home_publishers db !! S i = Some r2 -> r2.2 <= r1.2) /\
  (forall p q m, p <> "" -> p ∉ (home_publishers db).*1 ->
                 (q, m) ∈ home_publishers db -> count p <= m) /\
  (length (home_publishers db) < 20 ->
   forall p, p <> "" -> 0 < count p -> (p, count p) ∈ home_publishers db).
Proof.
  intros count. unfold home_publishers.
  set (pubs := filter (fun p => nonempty p = true)
                      (omap Book.publisher (books db))).
  set (rows := (fun p => (p, length (filter (fun p' => p' = p) pubs)))
                 <$> remove_dups pubs).
  set (key := fun pc : string * nat => desc (Z.of_nat pc.2)).
  assert (Hcount : forall p, p <> "" -> occurrences p pubs = count p).
  { intros p Hp. unfold pubs, count.
    rewrite occurrences_filter by (by apply nonempty_true).
    apply occurrences_omap. }
  assert (Hrows : forall p n, (p, n) ∈ order_by_desc key rows <->
                              p <> "" /\ n = count p /\ 0 < n).
  { intros p n. rewrite elem_of_order_by_desc. unfold rows.
    rewrite list_elem_of_fmap. split.
    - intros (p' & [= -> ->] & Hin). rewrite elem_of_remove_dups in Hin.
      assert (Hp : p' <> "").
      { apply list_elem_of_filter in Hin as [Hne _]. by apply nonempty_true. }
      split; [done|]. rewrite <-(Hcount p' Hp).
      split; [done|]. by apply (occurrences_pos p').
    - intros (Hp & -> & Hpos). exists p. rewrite <-(Hcount p Hp) in Hpos |- *.
      split; [done|]. rewrite elem_of_remove_dups.
      by apply (occurrences_pos p). }
  assert (Hsorted : StronglySorted (fun r1 r2 : string * nat => r2.2 <= r1.2)
                      (order_by_desc key rows)).
  { eapply StronglySorted_weaken;
      [|apply (order_by_desc_StronglySorted key rows)].
    intros x y Hy. unfold desc_by, key, desc in Hy. simpl in Hy.
    rewrite orb_true_iff, andb_true_iff, Z.ltb_lt, Z.eqb_eq in Hy. lia. }
  assert (Hsub : take 20 (order_by_desc key rows) `sublist_of`
                 order_by_desc key rows) by apply sublist_take.
  split_and!.
  - rewrite length_take. lia.
  - apply (sublist_NoDup _ (order_by_desc key rows).*1);
      [|by apply fmap_sublist].
    rewrite (order_by_desc_Permutation key rows). unfold rows.
    rewrite <-list_fmap_compose.
    rewrite (list_fmap_ext _ id (remove_dups pubs)) by done.
    rewrite list_fmap_id. apply NoDup_remove_dups.
  - intros p n Hin. apply Hrows. by eapply elem_of_sublist.
  - intros i r1 r2 H1 H2.
    destruct (adjacent_take _ _ _ _ _ H1 H2) as [H1' H2'].
    apply (Sorted_adjacent _ _ _ _ _ (StronglySorted_Sorted Hsorted) H1' H2').
  - intros p q m Hp Hout Hq.
    destruct (decide (0 < count p)) as [Hpos|]; [|lia].
    assert (Hin : (p, count p) ∈ order_by_desc key rows) by (by apply Hrows).
    rewrite <-(take_drop 20 (order_by_desc key rows)) in Hin, Hsorted.
    apply elem_of_app in Hin as [Hin|Hin].
    + destruct Hout. by apply (list_elem_of_fmap_2 fst) in Hin.
    + apply (StronglySorted_app_1_elem_of _ _ _ _ _ Hsorted Hq Hin).
  - intros Hlen p Hp Hpos. rewrite length_take in Hlen.
    rewrite take_ge by lia. by apply Hrows.
Qed.

(** *** The recommendations by category *)

Lemma id_in_filter (P : Book.t -> Prop) `{!forall b, Decision (P b)}
    (l : list Book.t) (b : Book.t) :
  NoDup (Book.id <$> l) -> b ∈ l ->
  Book.id b ∈ Book.id <$> filter P l <-> P b.
Proof.
  intros Hnd Hb. rewrite list_elem_of_fmap. split.
  - intros (b' & Hid & [HP Hb']%list_elem_of_filter).
    by rewrite (NoDup_fmap_eq Book.id l b b' Hnd Hb Hb' Hid).
  - intros HP. exists b. split; [done|]. by apply list_elem_of_filter.
Qed.

Lemma exclude_ids_filter (P Q : Book.t -> Prop)
    `{!forall b, Decision (P b), !forall b, Decision (Q b)} (l : list Book.t) :
  NoDup (Book.id <$> l) ->
  exclude_ids (filter P l) (filter Q l) = filter (fun b => ~ P b /\ Q b) l.
Proof.
  intros Hnd. unfold exclude_ids. rewrite list_filter_filter.
  apply filter_iff_in. intros b Hb. by rewrite (id_in_filter P l b Hnd Hb).
Qed.

Lemma NoDup_eligible (db : DB) (ids : list Z) :
  NoDup (Book.id <$> books db) -> NoDup (Book.id <$> eligible db ids).
Proof.
  intros Hnd. apply (sublist_NoDup _ _ Hnd), fmap_sublist, sublist_filter.
Qed.

Lemma Q_holds_q_and (q1 q2 : QObj) (b : Book.t) :
  Q_holds (q_and q1 q2) b = Q_holds q1 b && Q_holds q2 b.
Proof.
  destruct q1, q2; simpl; try done; by rewrite andb_true_r.
Qed.

Lemma Q_holds_author_conditions (authors : gset string) (b : Book.t) :
  Q_holds (author_conditions authors) b = true <->
  authors = ∅ \/ authorMatch authors b = true.
Proof.
  destruct (decide (authors = ∅)) as [->|Hne].
  - rewrite author_conditions_empty. simpl. tauto.
  - rewrite (author_conditions_holds _ _ Hne). tauto.
Qed.

Lemma ratingMatch_lookups (avg : Q) (b : Book.t) :
  lookup_holds (average_rating__gte (avg - (1 # 2))) b = true /\
  lookup_holds (average_rating__lte (avg + (1 # 2))) b = true <->
  ratingMatch avg b = true.
Proof.
  unfold ratingMatch. simpl. destruct (Book.average_rating b); simpl.
  - by rewrite andb_true_iff.
  - split; [by intros [? _]|done].
Qed.

Section categories.
Context (username : string) (limit : nat) (db : DB).

Let user_loans := loans_of db username.
Let authors := read_authors db user_loans.
Let publishers := read_publishers db user_loans.
Let avg := avg_rating db user_loans.
Let pool := eligible db (read_book_ids user_loans).

(** X17. For a user whose loaned books give an author and a publisher,
    the four categories are the available books outside the read ones
    whose tier is 4, 3, 2 and 1, the first three by descending rating and
    the last by descending number of ratings, each cut at the limit: no
    book is in two categories. *)
Theorem categories_are_the_tiers (c : Categorized.t) :
  get_categorized_recommendations username limit db = categorized c ->
  NoDup (Book.id <$> books db) ->
  authors <> ∅ -> publishers <> ∅ ->
  let t := tier authors publishers avg in
  Categorized.same_author_and_publisher c
    = take limit (order_by_desc by_rating (filter (fun b => t b = 4%Z) pool)) /\
  Categorized.same_author c
    = take limit (order_by_desc by_rating (filter (fun b => t b = 3%Z) pool)) /\
  Categorized.same_publisher c
    = take limit (order_by_desc by_rating (filter (fun b => t b = 2%Z) pool)) /\
  Categorized.similar_rating c
    = take limit (order_by_desc by_ratings_count
                    (filter (fun b => t b = 1%Z) pool)).
Proof.
  intros Hc Hnd Ha Hp t.
  pose proof (NoDup_eligible db (read_book_ids user_loans) Hnd) as Hpool.
  unfold get_categorized_recommendations in Hc.
  destruct (users db !! username) as [u|]; [|done].
  case_bool_decide; [done|]. injection Hc as <-.
  cbn [Categorized.same_author_and_publisher Categorized.same_author
       Categorized.same_publisher Categorized.similar_rating].
  fold user_loans authors publishers avg pool. unfold filter_Q.
  rewrite !(exclude_ids_filter _ _ pool Hpool).
  assert (Hand : forall b, Q_holds (q_and (author_conditions authors)
                                          (publisher_conditions publishers)) b
                           = authorMatch authors b && publisherMatch publishers b).
  { intros b. by rewrite Q_holds_q_and, author_conditions_holds,
      publisher_conditions_holds. }
  assert (Hor : forall b, Q_holds (q_or (author_conditions authors)
                                        (publisher_conditions publishers)) b
                          = authorMatch authors b || publisherMatch publishers b).
  { intros b. unfold q_or, Q_combine.
    rewrite author_conditions_bool, publisher_conditions_bool.
    rewrite !bool_decide_eq_false_2 by done. simpl.
    by rewrite author_conditions_holds, publisher_conditions_holds. }
  split_and!; do 2 f_equal; apply list_filter_iff; intros b; cbv beta;
    rewrite ?(ratingMatch_lookups avg b), ?Hand, ?Hor,
      ?(author_conditions_holds _ _ Ha), ?(publisher_conditions_holds _ _ Hp);
    unfold t, tier;
    destruct (authorMatch authors b), (publisherMatch publishers b),
      (ratingMatch avg b); simpl;
    (split; [intros; repeat match goal with H : _ /\ _ |- _ => destruct H end
            |intros; repeat split]; first [congruence | lia]).
Qed.

(** X18. For a user whose loaned books name no publisher, every author
    match is filed under the same author and publisher and none under the
    same author, every other available book outside the read ones is
    filed under the same publisher, and the books of similar rating are
    drawn from these same books; when the loaned books name no author
    either, every book counts as an author match. *)
Theorem categories_without_publisher (c : Categorized.t) :
  get_categorized_recommendations username limit db = categorized c ->
  NoDup (Book.id <$> books db) ->
  publishers = ∅ ->
  let by_author b := authors = ∅ \/ authorMatch authors b = true in
  Categorized.same_author_and_publisher c
    = take limit (order_by_desc by_rating (filter by_author pool)) /\
  Categorized.same_author c = [] /\
  Categorized.same_publisher c
    = take limit (order_by_desc by_rating
                    (filter (fun b => ~ by_author b) pool)) /\
  Categorized.similar_rating c
    = take limit (order_by_desc by_ratings_count
                    (filter (fun b => ~ by_author b /\ ratingMatch avg b = true)
                            pool)).
Proof.
  intros Hc Hnd Hp by_author.
  pose proof (NoDup_eligible db (read_book_ids user_loans) Hnd) as Hpool.
  unfold get_categorized_recommendations in Hc.
  destruct (users db !! username) as [u|]; [|done].
  case_bool_decide; [done|]. injection Hc as <-.
  cbn [Categorized.same_author_and_publisher Categorized.same_author
       Categorized.same_publisher Categorized.similar_rating].
  fold user_loans authors publishers avg pool. unfold filter_Q.
  rewrite !(exclude_ids_filter _ _ pool Hpool).
  rewrite Hp, publisher_conditions_empty.
  assert (Hand : forall b, Q_holds (q_and (author_conditions authors) Q_empty) b
                           = Q_holds (author_conditions authors) b).
  { intros b. rewrite Q_holds_q_and. simpl. apply andb_true_r. }
  assert (Hor : forall b, Q_holds (q_or (author_conditions authors) Q_empty) b
                          = Q_holds (author_conditions authors) b).
  { intros b. by destruct (author_conditions authors). }
  split_and!.
  - do 2 f_equal. apply list_filter_iff. intros b. cbv beta.
    by rewrite Hand, Q_holds_author_conditions.
  - rewrite filter_none; [by destruct limit|].
    intros b _. cbv beta. rewrite Hand. tauto.
  - do 2 f_equal. apply list_filter_iff. intros b. cbv beta.
    change (Q_holds Q_empty b) with true.
    rewrite Q_holds_author_conditions. unfold by_author. tauto.
  - do 2 f_equal. apply list_filter_iff. intros b. cbv beta.
    by rewrite Hor, Q_holds_author_conditions, (ratingMatch_lookups avg b).
Qed.
End categories.

Lemma categories_for_ana :
  exists c,
    get_categorized_recommendations "ana" 10 jane_db = categorized c /\
    Book.id <$> Categorized.same_author_and_publisher c = [2%Z] /\
    Book.id <$> Categorized.same_author c = [3%Z] /\
    Book.id <$> Categorized.same_publisher c = [4%Z] /\
    Book.id <$> Categorized.similar_rating c = [5%Z].
Proof.
  destruct (get_categorized_recommendations "ana" 10 jane_db) as [m|c] eqn:E;
    [vm_compute in E; discriminate|].
  exists c. split; [reflexivity|].
  destruct (categories_are_the_tiers "ana" 10 jane_db c E) as (-> & -> & -> & ->).
  - refine (bool_decide_unpack _ _). vm_compute. exact I.
  - refine (bool_decide_unpack _ _). vm_compute. exact I.
  - refine (bool_decide_unpack _ _). vm_compute. exact I.
  - split_and!; vm_compute; reflexivity.
Defined.

Lemma categories_without_publisher_for_ana :
  exists c,
    get_categorized_recommendations "ana" 10 nopub_db = categorized c /\
    Book.id <$> Categorized.same_author_and_publisher c = [2%Z] /\
    Categorized.same_author c = [] /\
    Categorized.same_publisher c = [] /\
    Categorized.similar_rating c = [].
Proof.
  destruct (get_categorized_recommendations "ana" 10 nopub_db) as [m|c] eqn:E;
    [vm_compute in E; discriminate|].
  exists c. split; [reflexivity|].
  destruct (categories_without_publisher "ana" 10 nopub_db c E)
    as (-> & -> & -> & ->).
  - refine (bool_decide_unpack _ _). vm_compute. exact I.
  - vm_compute. reflexivity.
  - split_and!; vm_compute; reflexivity.
Defined.

(** *** Borrowing and returning *)

Section book_views.
Context (F : Type) (float : string -> option F) (adapt : F -> result Z).

(** X19. Both views look the book up by its catalogue number, which the
    table does not keep unique: without a row of that number they answer
    not found, with two or more they fail, and in both cases nothing is
    written; with exactly one row a borrow never fails for the book. *)
Theorem book_views_need_one_row (now : Z) (request : HttpRequest)
    (book_id : Z) (db : DB) :
  match filter (fun b => Book.book_id b = book_id) (books db) with
  | [] =>
      borrow_book now request book_id db = (db, raise Http404) /\
      return_book F float adapt now request book_id db = (db, raise Http404)
  | [b] =>
      get_book_or_404 db book_id = ret b /\
      (borrow_book now request book_id db).2 <> raise Http404 /\
      (borrow_book now request book_id db).2 <> raise MultipleObjectsReturned
  | _ =>
      borrow_book now request book_id db = (db, raise MultipleObjectsReturned) /\
      return_book F float adapt now request book_id db
        = (db, raise MultipleObjectsReturned)
  end.
Proof.
  unfold borrow_book, return_book, get_book_or_404, get_object_or_404.
  destruct (filter _ (books db)) as [|b [|b' rows]]; [done| |done].
  split; [done|]. cbv beta iota delta [ret].
  destruct (method request), (Book.is_available b); try done.
  destruct (negb _); [done|].
  destruct (User_get_or_create _ _ _ db) as [e|[[db1 user] created]] eqn:Hu;
    [|done].
  apply User_get_or_create_raises in Hu as [-> | ->]; done.
Qed.
End book_views.

Lemma find_elem_of {A} (f : A -> bool) (l : list A) (x : A) :
  List.find f l = Some x -> x ∈ l /\ f x = true.
Proof.
  intros [Hin Hf]%find_some. split; [|done]. by apply list_elem_of_In.
Qed.

Lemma elem_of_overwrite_other {A} (key : A -> Z) (new r : A) (l : list A) :
  r ∈ l -> key r <> key new -> r ∈ overwrite key new <$> l.
Proof.
  intros Hr Hk. apply list_elem_of_fmap. exists r. split; [|done].
  unfold overwrite. by rewrite bool_decide_eq_false_2.
Qed.

Lemma loan_book_Some (db : DB) (l : Loan.t) (b : Book.t) :
  loan_book db l = Some b -> b ∈ books db /\ Book.id b = Loan.book_id l.
Proof.
  unfold loan_book. intros [Hb Hid]%find_elem_of. split; [done|].
  by apply Z.eqb_eq.
Qed.

Lemma User_get_or_create_users username email full_name db db1 u created :
  User_get_or_create username email full_name db = ret (db1, u, created) ->
  users db ⊆ users db1.
Proof.
  unfold User_get_or_create. destruct (users db !! username) as [u'|] eqn:E.
  - intros [= <- <- <-]. done.
  - destruct (_ <? _)%nat; [done|]. case_bool_decide; [done|].
    intros [= <- <- <-]. simpl. by apply insert_subseteq.
Qed.

Section frame.
Context (F : Type) (float : string -> option F) (adapt : F -> result Z).

(** X20. With unique primary keys, a borrow and a return leave alone
    what they are not about: no user is removed or altered, no book row is
    added or removed, the rows of other catalogue numbers stay as they
    are, and so do the returned loans and the loans of other books; no
    loan is deleted. *)
Theorem step_frame (t : transition) (db : DB) :
  keys_unique db ->
  let db' := step F float adapt t db in
  let touched (b : Book.t) :=
    match t with
    | Borrow _ _ k | Return _ _ k => Book.book_id b = k
    end in
  users db ⊆ users db' /\
  Book.id <$> books db' = Book.id <$> books db /\
  (forall r, r ∈ books db -> ~ touched r -> r ∈ books db') /\
  (forall l, l ∈ loans db -> Loan.is_returned l = true -> l ∈ loans db') /\
  (forall l b, l ∈ loans db -> loan_book db l = Some b -> ~ touched b ->
               l ∈ loans db') /\
  length (loans db) <= length (loans db').
Proof.
  intros [Hkb Hkl] db' touched.
  assert (Hsame : db' = db -> users db ⊆ users db' /\
    Book.id <$> books db' = Book.id <$> books db /\
    (forall r, r ∈ books db -> ~ touched r -> r ∈ books db') /\
    (forall l, l ∈ loans db -> Loan.is_returned l = true -> l ∈ loans db') /\
    (forall l b, l ∈ loans db -> loan_book db l = Some b -> ~ touched b ->
                 l ∈ loans db') /\
    length (loans db) <= length (loans db')).
  { intros ->. by split_and!. }
  assert (Hrows : forall k b new r,
    get_book_or_404 db k = ret b -> Book.id new = Book.id b ->
    r ∈ books db -> Book.book_id r <> k ->
    r ∈ overwrite Book.id new <$> books db).
  { intros k b new r [Hb Hk]%get_book_or_404_ret Hid Hr Hne.
    apply elem_of_overwrite_other; [done|]. rewrite Hid. intros E.
    apply Hne. by rewrite (NoDup_fmap_eq Book.id (books db) r b Hkb Hr Hb E). }
  destruct t as [now request k|now request k]; subst db'; simpl in *.
  - unfold borrow_book in *.
    destruct (get_book_or_404 db k) as [e|b] eqn:Hb; [by apply Hsame|].
    destruct (method request); [by apply Hsame|].
    destruct (Book.is_available b); [|by apply Hsame].
    destruct (negb _); [by apply Hsame|].
    destruct (User_get_or_create _ _ _ db) as [e|[[db1 user] created]] eqn:Hu;
      [by apply Hsame|].
    clear Hsame. pose proof (User_get_or_create_users _ _ _ _ _ _ _ Hu) as Hsub.
    apply User_get_or_create_tables in Hu as (Hbooks & Hloans & _). simpl.
    rewrite Hbooks, Hloans. split_and!.
    + done.
    + apply fmap_key_overwrite.
    + intros r Hr Hne. apply (Hrows k b); [done| |done..].
      by rewrite with_year_id.
    + intros l Hl _. apply elem_of_app. by left.
    + intros l _ Hl _ _. apply elem_of_app. by left.
    + rewrite length_app. lia.
  - destruct (return_book_effect F float adapt now request k db)
      as [[Hdb _]|(b & l & rating & Hb & Hl & ->)]; [by apply Hsame|].
    clear Hsame. apply open_loan_Some in Hl as (Hl & Hlb & Hopen). simpl.
    assert (Hother : forall x, x ∈ loans db -> x <> l ->
      x ∈ overwrite Loan.id
            (Loan.mk (Loan.id l) (Loan.user l) (Loan.book_id l)
               (Loan.borrowed_date l) (Loan.due_date l) (Some now) true rating)
          <$> loans db).
    { intros x Hx Hne. apply elem_of_overwrite_other; [done|]. simpl.
      intros E. apply Hne.
      by apply (NoDup_fmap_eq Loan.id (loans db) x l Hkl Hx Hl E). }
    split_and!.
    + done.
    + apply fmap_key_overwrite.
    + intros r Hr Hne. apply (Hrows k b); [done| |done..].
      by rewrite with_year_id.
    + intros x Hx Hret. apply Hother; [done|]. intros ->. congruence.
    + intros x bx Hx [Hbx Hid]%loan_book_Some Hne. apply Hother; [done|].
      intros ->. apply Hne. apply get_book_or_404_ret in Hb as [Hb Hk].
      unfold touched. rewrite <-Hk. f_equal.
      apply (NoDup_fmap_eq Book.id (books db) bx b Hkb Hbx Hb). congruence.
    + by rewrite length_fmap.
Qed.
End frame.

(** A borrower whose name holds a ['/'] can borrow; the return is
    written and then fails, the dashboard having no URL for the name. *)
Lemma return_by_a_slash_borrower :
  exists db1 db2,
    borrow_book 100 (post_form "username" "a/b") 1 empty_db
      = (db1, ret (redirect "home" None)) /\
    return_book Q plain_decimal adapt_tenths 200 (post_form "rating" "4.5") 1 db1
      = (db2, raise NoReverseMatch) /\
    Book.is_available <$> books db2 = [true] /\
    Loan.is_returned <$> loans db2 = [true].
Proof.
  eexists _, _. split; [vm_compute; reflexivity|].
  split; [vm_compute; reflexivity|]. split; reflexivity.
Qed.

Lemma step_frame_on_a_return :
  keys_unique jane_db /\
  a_user "bea" ∈ (snd <$> map_to_list
     (users (step Q plain_decimal adapt_tenths
               (Return 0 (post_form "rating" "4.5") 1) jane_db))) /\
  length (loans jane_db) <=
    length (loans (step Q plain_decimal adapt_tenths
                     (Return 0 (post_form "rating" "4.5") 1) jane_db)).
Proof.
  assert (Hk : keys_unique jane_db).
  { split; refine (bool_decide_unpack _ _); vm_compute; exact I. }
  split; [exact Hk|].
  destruct (step_frame Q plain_decimal adapt_tenths
              (Return 0 (post_form "rating" "4.5") 1) jane_db Hk)
    as (Hu & _ & _ & _ & _ & Hlen).
  split; [|exact Hlen].
  apply list_elem_of_fmap. exists ("bea", a_user "bea"). split; [done|].
  apply elem_of_map_to_list. eapply lookup_weaken; [|exact Hu].
  vm_compute. reflexivity.
Defined.

Lemma overwrite_twice {A} (key : A -> Z) (n1 n2 : A) (l : list A) :
  key n1 = key n2 ->
  overwrite key n2 <$> (overwrite key n1 <$> l) = overwrite key n2 <$> l.
Proof.
  intros Hk. rewrite <-list_fmap_compose. apply list_fmap_ext.
  intros _ r _. simpl. unfold overwrite.
  destruct (bool_decide_reflect (key r = key n1)) as [E|E].
  - by rewrite !bool_decide_eq_true_2 by congruence.
  - done.
Qed.

Lemma filter_overwrite_single {A} (key : A -> Z) (P : A -> Prop)
    `{!forall x, Decision (P x)} (old new : A) (l : list A) :
  NoDup (key <$> l) -> filter P l = [old] -> key old = key new -> P new ->
  filter P (overwrite key new <$> l) = [new].
Proof.
  intros Hnd Hf Hk Hnew. induction l as [|r l IH]; [done|].
  simpl in Hnd. apply NoDup_cons in Hnd as [Hr Hnd].
  rewrite fmap_cons. unfold overwrite at 1.
  destruct (bool_decide_reflect (key r = key new)) as [E|E].
  - rewrite overwrite_absent by (by rewrite <-E).
    rewrite filter_cons, decide_True by done. f_equal.
    rewrite filter_cons in Hf. destruct (decide (P r)) as [HPr|HPr].
    + by injection Hf as _ ->.
    + assert (Hold : old ∈ filter P l) by (rewrite Hf; apply list_elem_of_here).
      apply list_elem_of_filter in Hold as [_ Hold]. destruct Hr.
      rewrite E, <-Hk. by apply list_elem_of_fmap_2.
  - rewrite filter_cons in Hf |- *. destruct (decide (P r)) as [HPr|HPr].
    + injection Hf as -> _. congruence.
    + by apply IH.
Qed.

Lemma with_year_set_twice (v v' : bool) (b : Book.t) :
  with_year (set_is_available v (with_year (set_is_available v' b)))
  = with_year (set_is_available v b).
Proof.
  destruct b as [? ? ? ? ? ? ? d y ? ?].
  destruct d as [[[| |] ? ?]|], y as [[| |]|]; reflexivity.
Qed.

Lemma set_is_available_same (b : Book.t) :
  set_is_available (Book.is_available b) b = b.
Proof. by destruct b. Qed.

Lemma order_by_desc_singleton {A} (key : A -> list Z) (x : A) :
  order_by_desc key [x] = [x].
Proof.
  apply Permutation_singleton_r. apply order_by_desc_Permutation.
Qed.

Section round_trip.
Context (F : Type) (float : string -> option F) (adapt : F -> result Z).

(** X21. With unique primary keys and every book available or under one
    open loan, a borrow that succeeds adds one open loan of the user named
    in the form, due after fourteen days, and a return posted for the same
    catalogue number closes that very loan and none other: it fails, and
    changes nothing, when the rating is refused; otherwise the loan is
    closed, the book row is available as before the borrow, with its year
    filled in, and the list of borrowed books is the one before the
    borrow. The answer is then the redirect to the dashboard of the
    borrower when the name fits the URL; a name that holds a ['/'] makes
    the view fail with [NoReverseMatch] after both rows are written. *)
Theorem borrow_then_return (now1 now2 : Z) (request1 request2 : HttpRequest)
    (book_id : Z) (db db1 : DB) :
  keys_unique db -> availability_counts_open_loans db ->
  borrow_book now1 request1 book_id db = (db1, ret (redirect "home" None)) ->
  method request2 = POST ->
  exists b user,
    get_book_or_404 db book_id = ret b /\
    users db1 !! strip (get_or_empty (POST_data request1) "username")
      = Some user /\
    let lent := Loan.mk (fresh_loan_id db) (User.username user) (Book.id b)
                        now1 (Some (now1 + days 14)%Z) None false None in
    loans db1 = loans db ++ [lent] /\
    match posted_rating F float adapt request2 lent with
    | inl e =>
        return_book F float adapt now2 request2 book_id db1 = (db1, raise e)
    | inr rating =>
        exists db2,
          return_book F float adapt now2 request2 book_id db1
            = (db2, if str_converter_matches (User.username user)
                    then ret (redirect "user_dashboard"
                                (Some (User.username user)))
                    else raise NoReverseMatch) /\
          books db2 = overwrite Book.id (with_year b) <$> books db /\
          users db2 = users db1 /\
          loans db2 =
            loans db ++ [Loan.mk (fresh_loan_id db) (User.username user)
                                 (Book.id b) now1 (Some (now1 + days 14)%Z)
                                 (Some now2) true rating] /\
          borrowed_books db2 = borrowed_books db
    end.
Proof.
  intros [Hkb Hkl] Hinv Hborrow Hpost. unfold borrow_book in Hborrow.
  destruct (get_book_or_404 db book_id) as [e|b] eqn:Hb; [by injection Hborrow|].
  destruct (method request1); [by injection Hborrow|].
  destruct (Book.is_available b) eqn:Ha; [|by injection Hborrow].
  destruct (negb _); [by injection Hborrow|].
  destruct (User_get_or_create _ _ _ db) as [e|[[dbu user] created]] eqn:Hu;
    [by injection Hborrow|].
  apply User_get_or_create_tables in Hu as (Hbooks & Hloans & Huser).
  injection Hborrow as <-. exists b, user.
  assert (Hfresh : fresh_loan_id dbu = fresh_loan_id db)
    by (unfold fresh_loan_id; by rewrite Hloans).
  split; [done|]. split; [done|]. intros lent.
  split; [simpl; by rewrite Hfresh, Hloans|].
  set (b1 := with_year (set_is_available false b)).
  pose proof (get_book_or_404_ret _ _ _ Hb) as [Hbin Hbid].
  (* the row found by the return is the row the borrow has written *)
  assert (Hb1 : get_book_or_404
                  (Book_save (set_is_available false b)
                     (Loan_create user b now1 (now1 + days 14) dbu)) book_id
                = ret b1).
  { unfold get_book_or_404. simpl. rewrite Hbooks. fold b1.
    unfold get_book_or_404, get_object_or_404 in Hb.
    destruct (filter (fun b => Book.book_id b = book_id) (books db))
      as [|x [|y rows]] eqn:Hrows; [done| |done].
    injection Hb as ->.
    rewrite (filter_overwrite_single Book.id _ b b1 (books db) Hkb Hrows); [done| |].
    - unfold b1. by rewrite with_year_id.
    - unfold b1, with_year, set_is_available. simpl.
      by destruct (Book.publication_date b),
                  (Book.publication_year b) as [[| |]|]. }
  (* its only open loan is the new one *)
  assert (Hnone : filter (fun l => Loan.book_id l = Book.id b /\
                                   Loan.is_returned l = false) (loans db) = []).
  { unfold availability_counts_open_loans in Hinv.
    rewrite Forall_forall in Hinv. specialize (Hinv b Hbin).
    rewrite Ha in Hinv. unfold open_loans in Hinv.
    by apply length_zero_iff_nil. }
  assert (Hopen : open_loan
                    (Book_save (set_is_available false b)
                       (Loan_create user b now1 (now1 + days 14) dbu)) b1
                  = Some lent).
  { unfold open_loan. simpl. rewrite Hfresh, Hloans. fold lent.
    assert (Hid : Book.id b1 = Book.id b) by (unfold b1; by rewrite with_year_id).
    rewrite Hid, filter_app, Hnone, filter_cons, filter_nil.
    rewrite decide_True by done. rewrite app_nil_l.
    by rewrite order_by_desc_singleton. }
  unfold return_book. rewrite Hb1. cbv beta iota delta [ret].
  rewrite Hopen, Hpost. fold lent.
  destruct (posted_rating F float adapt request2 lent) as [e|rating]; [done|].
  eexists. split; [reflexivity|]. simpl. rewrite Hfresh, Hbooks, Hloans.
  fold lent. split_and!.
  - rewrite overwrite_twice
      by (unfold b1; by repeat (rewrite with_year_id; simpl)).
    unfold b1. rewrite with_year_set_twice.
    by rewrite <-Ha, set_is_available_same.
  - done.
  - rewrite fmap_app. simpl. rewrite overwrite_absent.
    + unfold overwrite. by rewrite bool_decide_eq_true_2.
    + simpl. apply fresh_loan_id_fresh.
  - unfold borrowed_books. simpl. rewrite Hfresh, Hloans. fold lent.
    rewrite fmap_app, filter_app. simpl.
    rewrite overwrite_absent by (simpl; apply fresh_loan_id_fresh).
    unfold overwrite. rewrite bool_decide_eq_true_2 by done.
    rewrite filter_cons, filter_nil, decide_False by done.
    by rewrite app_nil_r.
Qed.
End round_trip.

Lemma borrow_then_return_on_empty_db :
  exists db1 b user,
    borrow_book 100 (post_form "username" "ana") 1 empty_db
      = (db1, ret (redirect "home" None)) /\
    get_book_or_404 empty_db 1 = ret b /\
    users db1 !! strip (get_or_empty (POST_data (post_form "username" "ana"))
                                     "username") = Some user /\
    let lent := Loan.mk (fresh_loan_id empty_db) (User.username user) (Book.id b)
                        100 (Some (100 + days 14)%Z) None false None in
    loans db1 = loans empty_db ++ [lent] /\
    match posted_rating Q plain_decimal adapt_tenths
            (post_form "rating" "4.5") lent with
    | inl e =>
        return_book Q plain_decimal adapt_tenths 200
          (post_form "rating" "4.5") 1 db1 = (db1, raise e)
    | inr rating =>
        exists db2,
          return_book Q plain_decimal adapt_tenths 200
            (post_form "rating" "4.5") 1 db1
            = (db2, if str_converter_matches (User.username user)
                    then ret (redirect "user_dashboard"
                                (Some (User.username user)))
                    else raise NoReverseMatch) /\
          books db2 = overwrite Book.id (with_year b) <$> books empty_db /\
          users db2 = users db1 /\
          loans db2 =
            loans empty_db ++
              [Loan.mk (fresh_loan_id empty_db) (User.username user)
                       (Book.id b) 100 (Some (100 + days 14)%Z)
                       (Some 200%Z) true rating] /\
          borrowed_books db2 = borrowed_books empty_db
    end.
Proof.
  assert (Hk : keys_unique empty_db).
  { split; refine (bool_decide_unpack _ _); vm_compute; exact I. }
  assert (Hi : availability_counts_open_loans empty_db).
  { refine (bool_decide_unpack _ _). vm_compute. exact I. }
  destruct (borrow_book 100 (post_form "username" "ana") 1 empty_db)
    as [db1 r] eqn:E.
  assert (Hr : r = ret (redirect "home" None)).
  { apply (f_equal snd) in E. vm_compute in E. by rewrite <-E. }
  subst r. exists db1.
  destruct (borrow_then_return Q plain_decimal adapt_tenths 100 200
              (post_form "username" "ana") (post_form "rating" "4.5") 1
              empty_db db1 Hk Hi E eq_refl) as (b & user & H).
  exists b, user. split; [reflexivity|]. exact H.
Defined.

(** *** Book.save *)

Lemma with_year_dated (b : Book.t) : dated_has_year (with_year b).
Proof.
  unfold dated_has_year, with_year.
  destruct (Book.publication_date b) as [d|] eqn:Hd,
           (Book.publication_year b) as [[| |]|] eqn:Hy; simpl;
    rewrite ?Hd, ?Hy; eauto; by intros [? ?].
Qed.

Lemma with_year_idem (b : Book.t) : with_year (with_year b) = with_year b.
Proof.
  destruct b as [? ? ? ? ? ? ? d y ? ?].
  destruct d as [[[| |] ? ?]|], y as [[| |]|]; reflexivity.
Qed.

Lemma Book_save_dated (b : Book.t) (db : DB) :
  Forall dated_has_year (books db) ->
  Forall dated_has_year (books (Book_save b db)).
Proof.
  intros Hall. simpl. apply Forall_fmap, Forall_forall. intros r Hr. simpl.
  unfold overwrite. case_bool_decide; [apply with_year_dated|].
  rewrite Forall_forall in Hall. by apply Hall.
Qed.

Section saved_years.
Context (F : Type) (float : string -> option F) (adapt : F -> result Z).

(** X22. Saving a book a second time changes nothing, the row it writes
    has a publication year whenever it has a publication date, and a
    catalogue in which every dated book has a year stays so under every
    borrow and every return. *)
Theorem dated_books_keep_a_year (t : transition) (b : Book.t) (db : DB) :
  Forall dated_has_year (books db) ->
  Forall dated_has_year (books (step F float adapt t db)) /\
  Forall dated_has_year (books (Book_save b db)) /\
  (forall r, r ∈ books (Book_save b db) -> Book.id r = Book.id b ->
             r = with_year b /\ dated_has_year r) /\
  Book_save b (Book_save b db) = Book_save b db.
Proof.
  intros Hall. split_and!.
  - destruct t as [now request k|now request k]; simpl.
    + destruct (borrow_book_effect now request k db)
        as [[-> _]|(b0 & user & db1 & _ & _ & Hbooks & _ & ->)]; [done|].
      simpl. rewrite Hbooks.
      apply (Book_save_dated (set_is_available false b0) db Hall).
    + destruct (return_book_effect F float adapt now request k db)
        as [[-> _]|(b0 & l & rating & _ & _ & ->)]; [done|].
      apply (Book_save_dated (set_is_available true b0)
               (Loan_save _ db) Hall).
  - by apply Book_save_dated.
  - intros r Hr Hid. simpl in Hr. apply list_elem_of_fmap in Hr as (r0 & -> & _).
    unfold overwrite in *. case_bool_decide as E.
    + split; [done|apply with_year_dated].
    + by rewrite with_year_id in E.
  - unfold Book_save. simpl. f_equal.
    rewrite overwrite_twice by done. done.
Qed.
End saved_years.

Lemma dated_books_on_reader :
  Forall dated_has_year (books reader_db) /\
  Forall dated_has_year
    (books (step Q plain_decimal adapt_tenths
              (Return 60 (post_form "rating" "4") 5) reader_db)).
Proof.
  assert (H : Forall dated_has_year (books reader_db)).
  { repeat constructor; by intros [? ?]. }
  split; [exact H|].
  apply (dated_books_keep_a_year Q plain_decimal adapt_tenths
           (Return 60 (post_form "rating" "4") 5) (a_book 1 1 "" None None true)
           reader_db H).
Defined.

(** *** The list of borrowed books *)

Lemma sum_list_with_ext {A} (f g : A -> nat) (l : list A) :
  (forall a, a ∈ l -> f a = g a) -> sum_list_with f l = sum_list_with g l.
Proof.
  induction l as [|a l IH]; intros Hfg; [done|]. simpl.
  rewrite (Hfg a) by apply list_elem_of_here.
  rewrite IH; [done|]. intros x Hx. by apply Hfg, list_elem_of_further.
Qed.

Lemma sum_list_with_add {A} (f g : A -> nat) (l : list A) :
  sum_list_with (fun a => f a + g a) l = sum_list_with f l + sum_list_with g l.
Proof. induction l as [|a l IH]; simpl; lia. Qed.

Lemma sum_indicator {A} (key : A -> Z) (k : Z) (l : list A) :
  NoDup (key <$> l) ->
  sum_list_with (fun a => if decide (k = key a) then 1 else 0) l
  = if decide (k ∈ key <$> l) then 1 else 0.
Proof.
  induction l as [|a l IH]; intros Hnd; [done|].
  rewrite fmap_cons in Hnd |- *. apply NoDup_cons in Hnd as [Ha Hnd].
  change (sum_list_with (fun a => if decide (k = key a) then 1 else 0) (a :: l))
    with ((if decide (k = key a) then 1 else 0) +
          sum_list_with (fun a => if decide (k = key a) then 1 else 0) l).
  rewrite (IH Hnd).
  destruct (decide (k = key a)) as [->|Hne];
    destruct (decide (_ ∈ key <$> l)) as [Hin|Hin];
    destruct (decide (_ ∈ _ :: _)) as [Hin'|Hin']; try done.
  - destruct Hin'. apply list_elem_of_here.
  - destruct Hin'. by apply list_elem_of_further.
  - apply elem_of_cons in Hin' as [?|?]; done.
Qed.

(** Rows that refer to a key are counted once when grouped by the key. *)
Lemma count_by_key {A B} (key : A -> Z) (ref : B -> Z) (rows : list A)
    (ls : list B) :
  NoDup (key <$> rows) -> Forall (fun l => ref l ∈ key <$> rows) ls ->
  sum_list_with (fun a => length (filter (fun l => ref l = key a) ls)) rows
  = length ls.
Proof.
  intros Hnd. induction ls as [|l ls IH]; intros Hall.
  - simpl. induction rows as [|a rows IHr]; [done|]. simpl in *.
    apply NoDup_cons in Hnd as [_ Hnd]. by rewrite IHr.
  - apply Forall_cons in Hall as [Hl Hall].
    rewrite (sum_list_with_ext _
               (fun a => (if decide (ref l = key a) then 1 else 0) +
                         length (filter (fun l => ref l = key a) ls))).
    + rewrite sum_list_with_add, (sum_indicator key (ref l) rows Hnd), (IH Hall).
      by rewrite decide_True.
    + intros a _. rewrite filter_cons. by destruct (decide (ref l = key a)).
Qed.

Lemma sum_unavailable (bs : list Book.t) :
  sum_list_with (fun b => if Book.is_available b then 0 else 1) bs
  = length (filter (fun b => Book.is_available b = false) bs).
Proof.
  induction bs as [|b bs IH]; [done|]. simpl.
  rewrite filter_cons, IH. by destruct (Book.is_available b).
Qed.

(** X23. The list of borrowed books holds exactly the open loans, the
    latest borrowed first. With unique primary keys, every loan pointing
    at a book, and every book available or under one open loan, it has as
    many entries as there are unavailable books. *)
Theorem borrowed_books_are_the_unavailable (db : DB) :
  keys_unique db -> loans_have_books db -> availability_counts_open_loans db ->
  (forall l, l ∈ borrowed_books db <->
             l ∈ loans db /\ Loan.is_returned l = false) /\
  (forall i l1 l2, borrowed_books db !! i = Some l1 ->
                   borrowed_books db !! S i = Some l2 ->
                   (Loan.borrowed_date l2 <= Loan.borrowed_date l1)%Z) /\
  length (borrowed_books db)
  = length (filter (fun b => Book.is_available b = false) (books db)).
Proof.
  intros [Hkb _] Hfk Hinv. unfold borrowed_books. split_and!.
  - intros l. rewrite elem_of_order_by_desc, list_elem_of_filter. tauto.
  - intros i l1 l2 H1 H2.
    pose proof (Sorted_adjacent _ _ _ _ _
                  (order_by_desc_Sorted
                     (fun l => desc (Loan.borrowed_date l)) _) H1 H2) as H.
    unfold desc_by, desc in H. simpl in H.
    rewrite orb_true_iff, andb_true_iff, Z.ltb_lt, Z.eqb_eq in H. lia.
  - rewrite length_order_by_desc.
    rewrite <-(count_by_key Book.id Loan.book_id (books db)
                 (filter (fun l => Loan.is_returned l = false) (loans db)) Hkb).
    + rewrite (sum_list_with_ext _
                 (fun b => if Book.is_available b then 0 else 1)).
      * apply sum_unavailable.
      * intros b Hb. rewrite list_filter_filter.
        unfold availability_counts_open_loans in Hinv.
        rewrite Forall_forall in Hinv. apply (Hinv b Hb).
    + apply Forall_forall. intros l [_ Hl]%list_elem_of_filter.
      unfold loans_have_books in Hfk. rewrite Forall_forall in Hfk.
      by apply Hfk.
Qed.

Lemma borrowed_books_on_jane :
  keys_unique jane_db /\
  length (borrowed_books jane_db)
  = length (filter (fun b => Book.is_available b = false) (books jane_db)).
Proof.
  assert (Hk : keys_unique jane_db).
  { split; refine (bool_decide_unpack _ _); vm_compute; exact I. }
  split; [exact Hk|].
  apply (borrowed_books_are_the_unavailable jane_db Hk).
  - refine (bool_decide_unpack _ _). vm_compute. exact I.
  - refine (bool_decide_unpack _ _). vm_compute. exact I.
Defined.
